(** * MuleCube watchdog: restart governor and load-shedding controller

    A shallow embedding of [watchdog/app/main.py].  The three module-level
    globals ([restart_attempts], [last_restart], [shed_services]) become the
    fields of one state record that is threaded through a state-and-exception
    monad; the Docker client, the wall clock and the hw-monitor endpoint are
    an interface ([Runtime]) that the functions are generic in. *)

From Stdlib Require Import ZArith QArith String Ascii List Lia.
From stdpp Require Import gmap strings list.

Open Scope Z_scope.

(** ** Configuration (the [os.getenv] block) *)

Record Config := {
  CHECK_INTERVAL : Z;
  MAX_RESTART_ATTEMPTS : Z;
  RESTART_COOLDOWN : Z;
  CRITICAL_SERVICES : list string;
  THERMAL_SHED_SERVICES : list string;
  THERMAL_SHED_TEMP : Z;
  BATTERY_SHED_SERVICES : list string;
  BATTERY_SHED_PERCENT : Z
}.

(** The values the source falls back on when no variable is set. *)
Definition default_config : Config := {|
  CHECK_INTERVAL := 30;
  MAX_RESTART_ATTEMPTS := 3;
  RESTART_COOLDOWN := 300;
  CRITICAL_SERVICES := ["kiwix"; "tileserver"; "nginx"; "dnsmasq"]%string;
  THERMAL_SHED_SERVICES := ["ollama"; "retroarch"; "navidrome"]%string;
  THERMAL_SHED_TEMP := 80;
  BATTERY_SHED_SERVICES := ["ollama"; "retroarch"; "navidrome"; "openwebui"]%string;
  BATTERY_SHED_PERCENT := 15
|}.

(** ** Time

    A [datetime] is a count of microseconds (the resolution of Python's
    [datetime]) from [datetime.min], the first instant of year 1;
    [timedelta(seconds=n)] and [timedelta(hours=n)] are durations in the
    same unit. *)

Definition timedelta_seconds (n : Z) : Z := n * 1000000.
Definition timedelta_hours (n : Z) : Z := n * 3600 * 1000000.

(** [datetime.max], the last microsecond of year 9999. *)
Definition datetime_max : Z := 3652059 * 86400 * 1000000 - 1.

(** A [timedelta] holds at most 999999999 days either way; building a longer
    one raises [OverflowError]. *)
Definition timedelta_in_range (delta : Z) : bool :=
  let days := delta / (86400 * 1000000) in
  (-999999999 <=? days) && (days <=? 999999999).

(** [t + timedelta(seconds=n)]: [None] is the [OverflowError] raised when
    the duration cannot be built or the sum leaves the calendar. *)
Definition datetime_plus_seconds (t n : Z) : option Z :=
  let delta := timedelta_seconds n in
  if timedelta_in_range delta && (0 <=? t + delta) && (t + delta <=? datetime_max)
  then Some (t + delta)
  else None.

(** ** Strings: [str.lower] and the [in] operator

    [lower] folds the ASCII capitals only, which is what [str.lower] does on
    the ASCII names Docker allows for containers. *)

Definition lower_ascii (c : ascii) : ascii :=
  let n := N_of_ascii c in
  if ((65 <=? n) && (n <=? 90))%N then ascii_of_N (n + 32) else c.

Fixpoint lower (s : string) : string :=
  match s with
  | EmptyString => EmptyString
  | String c s' => String (lower_ascii c) (lower s')
  end.

(** [contains p s] is Python's [p in s] on strings. *)
Fixpoint contains (p s : string) : bool :=
  String.prefix p s ||
  match s with
  | EmptyString => false
  | String _ s' => contains p s'
  end.

Definition container_matches (container_name : string) (patterns : list string) : bool :=
  let name_lower := lower container_name in
  existsb (fun p => contains (lower p) name_lower) patterns.

(** ** What the collaborators hand back *)

(** The attributes of a [docker] container object that the watchdog reads:
    [container.name], [container.status],
    [attrs["HostConfig"]["RestartPolicy"]["Name"]] and
    [attrs["State"]["Health"]["Status"]] ([None] where a dict on the path is
    missing or empty). *)
Record Container := {
  name : string;
  status : string;
  restart_policy_name : option string;
  health_status : option string
}.

(** The JSON object of [GET /api/system], restricted to the keys read. A
    missing key is [None]; a key that is present holds a value of the type
    the hw-monitor's response models give it ([cpu_temp_c] a number,
    [percent] an integer or null, [charging] a boolean or null), null being
    [None] as well.  Answers of other shapes, on which the comparisons of
    the checks raise [TypeError], are not represented. *)
Record TemperatureDict := { cpu_temp_c : option Q }.
Record BatteryDict := { percent : option Z; charging : option bool }.
Record HwStatus := {
  temperature : option TemperatureDict;
  battery : option BatteryDict
}.

(** The [{}] that [get_hw_status] returns when the fetch fails. *)
Definition empty_hw_status : HwStatus := {| temperature := None; battery := None |}.

(** [client.containers.get]: a container, [docker.errors.NotFound], or any
    other exception. *)
Inductive get_result :=
| Found (c : Container)
| NotFound
| GetError.

(** ** The runtime interface

    Every call takes the outside world and returns the world after the call;
    a lifecycle call returns [true] when it came back normally and [false]
    when it raised, and so does [time.sleep], which raises [ValueError] on a
    negative length and [OverflowError] on one too long for the platform.
    [clock] is the wall-clock instant of a world; it is used
    to stamp the trace and to state that time does not run backwards. *)

Class Runtime (W : Type) := {
  clock : W -> Z;
  datetime_now : W -> Z * W;
  requests_get : W -> option HwStatus * W;
  containers_list : bool -> W -> option (list Container) * W;
  containers_get : string -> W -> get_result * W;
  container_restart : string -> W -> bool * W;
  container_stop : string -> W -> bool * W;
  container_start : string -> W -> bool * W;
  time_sleep : Z -> W -> bool * W
}.

(** ** Trace of lifecycle calls (ghost state)

    Not in the source: each [container.restart/stop/start] call is recorded
    with whether it returned normally, newest first, so that statements
    about which actions were issued can be made. *)

Inductive event :=
| RestartCall (container_name : string) (ok : bool) (t_call t_return : Z)
| StopCall (container_name : string) (ok : bool)
| StartCall (container_name : string) (ok : bool)
| CountsReset.

(** ** Watchdog state: the module-level globals, the world, the trace *)

Record Sys (W : Type) := mkSys {
  restart_attempts : gmap string Z;
  last_restart : gmap string Z;
  shed_services : gset string;
  world : W;
  trace : list event
}.
Arguments mkSys {W}.
Arguments restart_attempts {W}.
Arguments last_restart {W}.
Arguments shed_services {W}.
Arguments world {W}.
Arguments trace {W}.

Definition initial_sys {W} (w : W) : Sys W :=
  mkSys ∅ ∅ ∅ w [].

Definition set_restart_attempts {W} (ra : gmap string Z) (s : Sys W) : Sys W :=
  mkSys ra (last_restart s) (shed_services s) (world s) (trace s).
Definition set_last_restart {W} (lr : gmap string Z) (s : Sys W) : Sys W :=
  mkSys (restart_attempts s) lr (shed_services s) (world s) (trace s).
Definition set_shed_services {W} (sh : gset string) (s : Sys W) : Sys W :=
  mkSys (restart_attempts s) (last_restart s) sh (world s) (trace s).
Definition set_world {W} (w : W) (s : Sys W) : Sys W :=
  mkSys (restart_attempts s) (last_restart s) (shed_services s) w (trace s).
Definition log_event {W} (e : event) (s : Sys W) : Sys W :=
  mkSys (restart_attempts s) (last_restart s) (shed_services s) (world s) (e :: trace s).

(** ** The monad: state that survives a raised exception *)

Inductive outcome (A : Type) :=
| Returned (a : A)
| Raised.
Arguments Returned {A}.
Arguments Raised {A}.

Definition M (W A : Type) : Type := Sys W -> outcome A * Sys W.

Definition ret {W A} (a : A) : M W A := fun s => (Returned a, s).

Definition bind {W A B} (m : M W A) (k : A -> M W B) : M W B :=
  fun s =>
    match m s with
    | (Returned a, s') => k a s'
    | (Raised, s') => (Raised, s')
    end.

Definition raise {W A} : M W A := fun s => (Raised, s).

(** [try: body / except Exception: handler] *)
Definition try_except {W A} (body handler : M W A) : M W A :=
  fun s =>
    match body s with
    | (Returned a, s') => (Returned a, s')
    | (Raised, s') => handler s'
    end.

Definition read {W A} (f : Sys W -> A) : M W A := fun s => (Returned (f s), s).
Definition modify {W} (f : Sys W -> Sys W) : M W unit := fun s => (Returned tt, f s).

(** A runtime call that cannot raise. *)
Definition call {W A} (op : W -> A * W) : M W A :=
  fun s => let (a, w') := op (world s) in (Returned a, set_world w' s).

Declare Scope wd_scope.
Delimit Scope wd_scope with wd.
Notation "x <- m ;; k" := (bind m (fun x => k))
  (at level 100, m at next level, right associativity) : wd_scope.
Notation "m ;; k" := (bind m (fun _ => k))
  (at level 100, right associativity) : wd_scope.
Open Scope wd_scope.

(** [for x in xs: body x] *)
Fixpoint for_each {W A} (xs : list A) (body : A -> M W unit) : M W unit :=
  match xs with
  | [] => ret tt
  | x :: xs' => body x ;; for_each xs' body
  end.

(** ** The program *)

Section Watchdog.

Context {W : Type} {RT : Runtime W}.
Variable cfg : Config.

(** *** Calls on the Docker client *)

(** [client.containers.list(all=...)]; raises when the daemon call fails. *)
Definition client_containers_list (all : bool) : M W (list Container) :=
  r <- call (containers_list all) ;;
  match r with
  | Some containers => ret containers
  | None => raise
  end.

(** [client.containers.get(container_name)]; raises on [NotFound] and on
    any other failure. *)
Definition client_containers_get (container_name : string) : M W Container :=
  r <- call (containers_get container_name) ;;
  match r with
  | Found container => ret container
  | NotFound => raise
  | GetError => raise
  end.

(** [container.restart(timeout=30)], [container.stop(timeout=30)] and
    [container.start()], each recorded in the trace. *)
Definition container_restart_call (container_name : string) : M W unit :=
  fun s =>
    let t_call := clock (world s) in
    let (ok, w') := container_restart container_name (world s) in
    let s' := log_event (RestartCall container_name ok t_call (clock w')) (set_world w' s) in
    (if ok then Returned tt else Raised, s').

Definition container_stop_call (container_name : string) : M W unit :=
  fun s =>
    let (ok, w') := container_stop container_name (world s) in
    let s' := log_event (StopCall container_name ok) (set_world w' s) in
    (if ok then Returned tt else Raised, s').

Definition container_start_call (container_name : string) : M W unit :=
  fun s =>
    let (ok, w') := container_start container_name (world s) in
    let s' := log_event (StartCall container_name ok) (set_world w' s) in
    (if ok then Returned tt else Raised, s').

(** *** Helper functions *)

Definition get_hw_status : M W HwStatus :=
  r <- call requests_get ;;
  match r with
  | Some hw_status => ret hw_status
  | None => ret empty_hw_status
  end.

(** [last_restart[container_name] + timedelta(seconds=RESTART_COOLDOWN)],
    which raises [OverflowError] when out of range. *)
Definition cooldown_end (t : Z) : M W Z :=
  match datetime_plus_seconds t (RESTART_COOLDOWN cfg) with
  | Some cooldown_end => ret cooldown_end
  | None => raise
  end.

Definition should_restart (container_name : string) : M W bool :=
  now <- call datetime_now ;;
  lr <- read last_restart ;;
  in_cooldown <- match lr !! container_name with
                 | Some t => cooldown_end <- cooldown_end t ;; ret (now <? cooldown_end)
                 | None => ret false
                 end ;;
  if in_cooldown then ret false
  else
    ra <- read restart_attempts ;;
    if default 0 (ra !! container_name) >=? MAX_RESTART_ATTEMPTS cfg
    then ret false
    else ret true.

Definition restart_container (container_name : string) : M W bool :=
  allowed <- should_restart container_name ;;
  if negb allowed then ret false
  else
    try_except
      (client_containers_get container_name ;;
       container_restart_call container_name ;;
       ra <- read restart_attempts ;;
       modify (set_restart_attempts
                 (<[container_name := default 0 (ra !! container_name) + 1]> ra)) ;;
       now <- call datetime_now ;;
       lr <- read last_restart ;;
       modify (set_last_restart (<[container_name := now]> lr)) ;;
       ret true)
      (ret false).

Definition stop_container (container_name reason : string) : M W bool :=
  try_except
    (container <- client_containers_get container_name ;;
     if bool_decide (status container = "running"%string) then
       container_stop_call container_name ;;
       sh <- read shed_services ;;
       modify (set_shed_services ({[container_name]} ∪ sh)) ;;
       ret true
     else ret false)
    (ret false).

Definition start_container (container_name : string) : M W bool :=
  try_except
    (container <- client_containers_get container_name ;;
     if bool_decide (status container ≠ "running"%string) then
       container_start_call container_name ;;
       sh <- read shed_services ;;
       modify (set_shed_services (sh ∖ {[container_name]})) ;;
       ret true
     else ret false)
    (ret false).

(** *** Main monitoring functions *)

Definition check_container_health : M W unit :=
  try_except
    (containers <- client_containers_list true ;;
     for_each containers (fun container =>
       let nm := name container in
       sh <- read shed_services ;;
       if bool_decide (nm ∈ sh) then ret tt
       else if bool_decide (restart_policy_name container = Some "no"%string) then ret tt
       else
         (if bool_decide (health_status container = Some "unhealthy"%string)
          then restart_container nm ;; ret tt
          else ret tt) ;;
         if bool_decide (status container ≠ "running"%string)
            && container_matches nm (CRITICAL_SERVICES cfg)
         then restart_container nm ;; ret tt
         else ret tt))
    (ret tt).

Definition Qlt_bool (x y : Q) : bool := negb (Qle_bool y x).

Definition check_thermal_shedding (hw_status : HwStatus) : M W unit :=
  let temp := default {| cpu_temp_c := None |} (temperature hw_status) in
  let cpu_temp := default (inject_Z 0) (cpu_temp_c temp) in
  if Qle_bool (inject_Z (THERMAL_SHED_TEMP cfg)) cpu_temp then
    containers <- client_containers_list false ;;
    for_each containers (fun container =>
      if container_matches (name container) (THERMAL_SHED_SERVICES cfg)
      then stop_container (name container) "thermal shedding" ;; ret tt
      else ret tt)
  else if Qlt_bool cpu_temp (inject_Z (THERMAL_SHED_TEMP cfg - 5)) then
    sh <- read shed_services ;;
    for_each (elements sh) (fun service_name =>
      if container_matches service_name (THERMAL_SHED_SERVICES cfg) then
        if negb (container_matches service_name (BATTERY_SHED_SERVICES cfg))
        then start_container service_name ;; ret tt
        else ret tt
      else ret tt)
  else ret tt.

(** Python truthiness of [battery.get("percent")]: [None] and [0] are
    false. *)
Definition truthy_int (v : option Z) : bool :=
  match v with
  | Some n => negb (n =? 0)
  | None => false
  end.

Definition check_battery_shedding (hw_status : HwStatus) : M W unit :=
  match battery hw_status with
  | None => ret tt
  | Some battery =>
    if negb (truthy_int (percent battery)) then ret tt
    else
      let percent := default 0 (percent battery) in
      let charging := default false (charging battery) in
      if (percent <=? BATTERY_SHED_PERCENT cfg) && negb charging then
        containers <- client_containers_list false ;;
        for_each containers (fun container =>
          if container_matches (name container) (BATTERY_SHED_SERVICES cfg)
          then stop_container (name container) "battery shedding" ;; ret tt
          else ret tt)
      else if (percent >? BATTERY_SHED_PERCENT cfg + 5) || charging then
        sh <- read shed_services ;;
        for_each (elements sh) (fun service_name =>
          if container_matches service_name (BATTERY_SHED_SERVICES cfg)
          then start_container service_name ;; ret tt
          else ret tt)
      else ret tt
  end.

Definition reset_restart_counts : M W unit :=
  modify (set_restart_attempts ∅) ;;
  modify (log_event CountsReset).

(** *** Main loop *)

(** The body of [while True], up to the [time.sleep]; [last_reset] is the
    local variable of [main], returned updated. *)
Definition tick (last_reset : Z) : M W Z :=
  try_except
    (hw_status <- get_hw_status ;;
     check_container_health ;;
     check_thermal_shedding hw_status ;;
     check_battery_shedding hw_status ;;
     now <- call datetime_now ;;
     if now - last_reset >? timedelta_hours 1 then
       reset_restart_counts ;;
       call datetime_now
     else ret last_reset)
    (ret last_reset).

(** [time.sleep(seconds)], which stands outside the [try] of the loop. *)
Definition sleep (seconds : Z) : M W unit :=
  ok <- call (time_sleep seconds) ;;
  if ok then ret tt else raise.

(** [iterations] turns of the loop. *)
Fixpoint main_loop (iterations : nat) (last_reset : Z) : M W unit :=
  match iterations with
  | O => ret tt
  | S n =>
    last_reset' <- tick last_reset ;;
    sleep (CHECK_INTERVAL cfg) ;;
    main_loop n last_reset'
  end.

(** [main] from [last_reset = datetime.now()] on, with the loop cut after
    [iterations] turns; the start-up before it (the log lines and
    [docker.from_env()]) is left out. *)
Definition main (iterations : nat) : M W unit :=
  last_reset <- call datetime_now ;;
  main_loop iterations last_reset.

End Watchdog.

(** ** A simulated runtime

    A small deterministic Docker daemon, clock and hw-monitor, used to run
    the watchdog on concrete inputs: every call takes [latency]
    microseconds; containers named in [faulty] raise on restart, stop and
    start; with [down] set every client call raises; [stop] leaves a
    container [exited], [start] and [restart] leave it [running];
    [time.sleep] raises on a negative or oversized length and otherwise
    moves the clock on by that length. *)

Module Sim.

Record World := mkWorld {
  now_us : Z;
  latency : N;
  containers : list Container;
  faulty : list string;
  down : bool;
  hw : option HwStatus
}.

Definition advance (w : World) : World :=
  mkWorld (now_us w + Z.of_N (latency w)) (latency w) (containers w)
          (faulty w) (down w) (hw w).

Definition set_containers (cs : list Container) (w : World) : World :=
  mkWorld (now_us w) (latency w) cs (faulty w) (down w) (hw w).

Definition set_status (container_name st : string) (cs : list Container)
  : list Container :=
  map (fun c =>
         if bool_decide (name c = container_name)
         then {| name := name c; status := st;
                 restart_policy_name := restart_policy_name c;
                 health_status := health_status c |}
         else c) cs.

Definition is_running (c : Container) : bool :=
  bool_decide (status c = "running"%string).

Definition find_container (container_name : string) (cs : list Container)
  : option Container :=
  List.find (fun c => bool_decide (name c = container_name)) cs.

Definition list_containers (all : bool) (w : World)
  : option (list Container) * World :=
  if down w then (None, advance w)
  else (Some (if all then containers w else List.filter is_running (containers w)),
        advance w).

Definition get_container (container_name : string) (w : World)
  : get_result * World :=
  if down w then (GetError, advance w)
  else match find_container container_name (containers w) with
       | Some c => (Found c, advance w)
       | None => (NotFound, advance w)
       end.

Definition fails (container_name : string) (w : World) : bool :=
  down w || bool_decide (container_name ∈ faulty w).

Definition lifecycle (st : string) (container_name : string) (w : World)
  : bool * World :=
  if fails container_name w then (false, advance w)
  else (true, advance (set_containers (set_status container_name st (containers w)) w)).

(** [time.sleep] raises at once on a negative length and on one that does
    not fit a 64-bit count of nanoseconds. *)
Definition sleep_for (seconds : Z) (w : World) : bool * World :=
  if (seconds <? 0) || (9223372036 <? seconds) then (false, w)
  else (true,
        mkWorld (now_us w + timedelta_seconds seconds) (latency w)
                (containers w) (faulty w) (down w) (hw w)).

#[global] Instance runtime : Runtime World := {|
  clock := now_us;
  datetime_now := fun w => (now_us (advance w), advance w);
  requests_get := fun w => (hw w, advance w);
  containers_list := list_containers;
  containers_get := get_container;
  container_restart := lifecycle "running";
  container_stop := lifecycle "exited";
  container_start := lifecycle "running";
  time_sleep := sleep_for
|}.

End Sim.

(** ** Vocabulary of the statements *)

(** Wall-clock time does not run backwards across runtime calls, and a
    [datetime.now()] reading lies between the instants before and after
    it. *)
Class MonotoneClock (W : Type) `{Runtime W} : Prop := {
  datetime_now_clock :
    forall w, clock w <= (datetime_now w).1 /\ (datetime_now w).1 <= clock (datetime_now w).2;
  requests_get_clock : forall w, clock w <= clock (requests_get w).2;
  containers_list_clock : forall all w, clock w <= clock (containers_list all w).2;
  containers_get_clock : forall n w, clock w <= clock (containers_get n w).2;
  container_restart_clock : forall n w, clock w <= clock (container_restart n w).2;
  container_stop_clock : forall n w, clock w <= clock (container_stop n w).2;
  container_start_clock : forall n w, clock w <= clock (container_start n w).2;
  time_sleep_clock : forall secs w, clock w <= clock (time_sleep secs w).2
}.

(** Any [container.restart] call on [n], whatever its outcome. *)
Definition is_restart_call_on (n : string) (e : event) : Prop :=
  exists ok t_call t_return, e = RestartCall n ok t_call t_return.

(** The decision of [should_restart] as a function of the two dicts and of
    the [datetime.now()] reading. *)
Definition governor_allows (cfg : Config) (lr ra : gmap string Z)
  (container_name : string) (now : Z) : bool :=
  negb (match lr !! container_name with
        | Some t => now <? t + timedelta_seconds (RESTART_COOLDOWN cfg)
        | None => false
        end)
  && negb (default 0 (ra !! container_name) >=? MAX_RESTART_ATTEMPTS cfg).

(** Whether [should_restart] raises: the container has a [last_restart]
    entry whose cooldown end cannot be computed. *)
Definition cooldown_overflows (cfg : Config) (lr : gmap string Z)
  (container_name : string) : bool :=
  match lr !! container_name with
  | Some t =>
      match datetime_plus_seconds t (RESTART_COOLDOWN cfg) with
      | Some _ => false
      | None => true
      end
  | None => false
  end.

(** [s'] has the trace of [s] with the events [new] issued since. *)
Definition issued {W} (s s' : Sys W) (new : list event) : Prop :=
  trace s' = new ++ trace s.

(** ** The runs of the three lifecycle helpers

    Each helper ends in one of a few ways; the relations below name them
    and give the state each leaves.  They are shown to cover every run in
    [restart_container_run], [stop_container_run] and
    [start_container_run]; [restart_container] may besides raise from
    [should_restart], having done no more than read the clock. *)

Section Runs.

Context {W : Type} {RT : Runtime W}.
Variable cfg : Config.

Inductive restart_run (n : string) (s : Sys W) : bool -> Sys W -> Prop :=
| RestartDenied now w1 :
    datetime_now (world s) = (now, w1) ->
    governor_allows cfg (last_restart s) (restart_attempts s) n now = false ->
    restart_run n s false (set_world w1 s)
| RestartNoContainer now w1 g w2 :
    datetime_now (world s) = (now, w1) ->
    governor_allows cfg (last_restart s) (restart_attempts s) n now = true ->
    containers_get n w1 = (g, w2) ->
    (forall c, g <> Found c) ->
    restart_run n s false (set_world w2 s)
| RestartRaised now w1 c w2 w3 :
    datetime_now (world s) = (now, w1) ->
    governor_allows cfg (last_restart s) (restart_attempts s) n now = true ->
    containers_get n w1 = (Found c, w2) ->
    container_restart n w2 = (false, w3) ->
    restart_run n s false
      (log_event (RestartCall n false (clock w2) (clock w3)) (set_world w3 s))
| RestartDone now w1 c w2 w3 now' w4 :
    datetime_now (world s) = (now, w1) ->
    governor_allows cfg (last_restart s) (restart_attempts s) n now = true ->
    containers_get n w1 = (Found c, w2) ->
    container_restart n w2 = (true, w3) ->
    datetime_now w3 = (now', w4) ->
    restart_run n s true
      (mkSys (<[n := default 0 (restart_attempts s !! n) + 1]> (restart_attempts s))
             (<[n := now']> (last_restart s))
             (shed_services s) w4
             (RestartCall n true (clock w2) (clock w3) :: trace s)).

Inductive stop_run (n : string) (s : Sys W) : bool -> Sys W -> Prop :=
| StopNoContainer g w1 :
    containers_get n (world s) = (g, w1) ->
    (forall c, g <> Found c) ->
    stop_run n s false (set_world w1 s)
| StopNotRunning c w1 :
    containers_get n (world s) = (Found c, w1) ->
    status c <> "running"%string ->
    stop_run n s false (set_world w1 s)
| StopRaised c w1 w2 :
    containers_get n (world s) = (Found c, w1) ->
    status c = "running"%string ->
    container_stop n w1 = (false, w2) ->
    stop_run n s false (log_event (StopCall n false) (set_world w2 s))
| StopDone c w1 w2 :
    containers_get n (world s) = (Found c, w1) ->
    status c = "running"%string ->
    container_stop n w1 = (true, w2) ->
    stop_run n s true
      (mkSys (restart_attempts s) (last_restart s) ({[n]} ∪ shed_services s) w2
             (StopCall n true :: trace s)).

Inductive start_run (n : string) (s : Sys W) : bool -> Sys W -> Prop :=
| StartNoContainer g w1 :
    containers_get n (world s) = (g, w1) ->
    (forall c, g <> Found c) ->
    start_run n s false (set_world w1 s)
| StartAlreadyRunning c w1 :
    containers_get n (world s) = (Found c, w1) ->
    status c = "running"%string ->
    start_run n s false (set_world w1 s)
| StartRaised c w1 w2 :
    containers_get n (world s) = (Found c, w1) ->
    status c <> "running"%string ->
    container_start n w1 = (false, w2) ->
    start_run n s false (log_event (StartCall n false) (set_world w2 s))
| StartDone c w1 w2 :
    containers_get n (world s) = (Found c, w1) ->
    status c <> "running"%string ->
    container_start n w1 = (true, w2) ->
    start_run n s true
      (mkSys (restart_attempts s) (last_restart s) (shed_services s ∖ {[n]}) w2
             (StartCall n true :: trace s)).

End Runs.

(** An invariant [I] is carried by the watchdog when the runtime calls the
    loop makes itself, the three lifecycle helpers and the hourly reset
    all keep it. *)
Record carried {W : Type} `{Runtime W} (cfg : Config) (I : Sys W -> Prop) : Prop := {
  carried_now : forall s, I s -> I (set_world (datetime_now (world s)).2 s);
  carried_hw : forall s, I s -> I (set_world (requests_get (world s)).2 s);
  carried_list : forall all s, I s -> I (set_world (containers_list all (world s)).2 s);
  carried_sleep : forall secs s, I s -> I (set_world (time_sleep secs (world s)).2 s);
  carried_restart : forall n s, n ∉ shed_services s -> I s -> I (restart_container cfg n s).2;
  carried_stop : forall n reason s, I s -> I (stop_container n reason s).2;
  carried_start : forall n s, I s -> I (start_container n s).2;
  carried_reset : forall s, I s -> I (reset_restart_counts s).2
}.

(** ** Invariants used in the statements *)

(** Since [s0]: either the reset has fired, or no counter has gone down;
    and no [last_restart] entry has been dropped. *)
Definition counts_kept {W} (s0 s : Sys W) : Prop :=
  (exists new, issued s0 s new /\
     (CountsReset ∈ new \/
      forall n, default 0 (restart_attempts s0 !! n) <= default 0 (restart_attempts s !! n)))
  /\ (forall n, is_Some (last_restart s0 !! n) -> is_Some (last_restart s !! n)).

(** Since [s0] the shed set is what it was and [container.restart] was not
    called on [n], successfully or not. *)
Definition no_restart_of {W} (n : string) (s0 s : Sys W) : Prop :=
  shed_services s = shed_services s0 /\
  exists new, issued s0 s new /\ Forall (fun e => ~ is_restart_call_on n e) new.

(** Since [s0] a name has entered the shed set only with a stop that
    returned normally, and left it only with a start that returned
    normally. *)
Definition shed_follows_actions {W} (s0 s : Sys W) : Prop :=
  exists new, issued s0 s new /\
    forall x, (x ∈ shed_services s -> x ∈ shed_services s0 \/ StopCall x true ∈ new)
           /\ (x ∈ shed_services s0 -> x ∈ shed_services s \/ StartCall x true ∈ new).







(** ** The shedding passes on the simulated daemon

    What [stop_container], [start_container] and the two shedding checks do
    to the simulated daemon when it is reachable, as functions of the
    container list, the shed set and the trace; [sim_stop_container],
    [sim_start_container], [sim_check_thermal_shedding] and
    [sim_check_battery_shedding] show that the program runs so. *)

Record View := mkView {
  v_containers : list Container;
  v_shed : gset string;
  v_trace : list event
}.

Definition view_of (s : Sys Sim.World) : View :=
  mkView (Sim.containers (world s)) (shed_services s) (trace s).

Definition stop_effect (faulty : list string) (n : string) (v : View) : View :=
  match Sim.find_container n (v_containers v) with
  | Some c =>
      if bool_decide (status c = "running"%string) then
        if bool_decide (n ∈ faulty)
        then mkView (v_containers v) (v_shed v) (StopCall n false :: v_trace v)
        else mkView (Sim.set_status n "exited" (v_containers v))
                    ({[n]} ∪ v_shed v) (StopCall n true :: v_trace v)
      else v
  | None => v
  end.

Definition start_effect (faulty : list string) (n : string) (v : View) : View :=
  match Sim.find_container n (v_containers v) with
  | Some c =>
      if bool_decide (status c <> "running"%string) then
        if bool_decide (n ∈ faulty)
        then mkView (v_containers v) (v_shed v) (StartCall n false :: v_trace v)
        else mkView (Sim.set_status n "running" (v_containers v))
                    (v_shed v ∖ {[n]}) (StartCall n true :: v_trace v)
      else v
  | None => v
  end.

Definition stop_step (faulty patterns : list string) (v : View) (c : Container) : View :=
  if container_matches (name c) patterns then stop_effect faulty (name c) v else v.

Definition start_step (faulty : list string) (eligible : string -> bool)
  (v : View) (n : string) : View :=
  if eligible n then start_effect faulty n v else v.

Definition stop_pass (faulty patterns : list string) (v : View) : View :=
  fold_left (stop_step faulty patterns)
            (List.filter Sim.is_running (v_containers v)) v.

Definition start_pass (faulty : list string) (eligible : string -> bool) (v : View) : View :=
  fold_left (start_step faulty eligible) (elements (v_shed v)) v.

(** The three bands of the thermal check and of the battery check. *)
Definition cpu_temp_of (hw_status : HwStatus) : Q :=
  default (inject_Z 0)
    (cpu_temp_c (default {| cpu_temp_c := None |} (temperature hw_status))).

Definition thermal_trigger (cfg : Config) (hw_status : HwStatus) : bool :=
  Qle_bool (inject_Z (THERMAL_SHED_TEMP cfg)) (cpu_temp_of hw_status).

Definition thermal_recovery (cfg : Config) (hw_status : HwStatus) : bool :=
  Qlt_bool (cpu_temp_of hw_status) (inject_Z (THERMAL_SHED_TEMP cfg - 5)).

Definition battery_data (hw_status : HwStatus) : option (Z * bool) :=
  match battery hw_status with
  | Some b =>
      if truthy_int (percent b)
      then Some (default 0 (percent b), default false (charging b))
      else None
  | None => None
  end.

Definition battery_trigger (cfg : Config) (hw_status : HwStatus) : bool :=
  match battery_data hw_status with
  | Some (p, ch) => (p <=? BATTERY_SHED_PERCENT cfg) && negb ch
  | None => false
  end.

Definition battery_recovery (cfg : Config) (hw_status : HwStatus) : bool :=
  match battery_data hw_status with
  | Some (p, ch) => (p >? BATTERY_SHED_PERCENT cfg + 5) || ch
  | None => false
  end.

Definition thermal_only (cfg : Config) (n : string) : bool :=
  container_matches n (THERMAL_SHED_SERVICES cfg)
  && negb (container_matches n (BATTERY_SHED_SERVICES cfg)).

Definition thermal_pass (cfg : Config) (faulty : list string) (hw_status : HwStatus)
  (v : View) : View :=
  if thermal_trigger cfg hw_status then stop_pass faulty (THERMAL_SHED_SERVICES cfg) v
  else if thermal_recovery cfg hw_status then start_pass faulty (thermal_only cfg) v
  else v.

Definition battery_pass (cfg : Config) (faulty : list string) (hw_status : HwStatus)
  (v : View) : View :=
  if battery_trigger cfg hw_status then stop_pass faulty (BATTERY_SHED_SERVICES cfg) v
  else if battery_recovery cfg hw_status
       then start_pass faulty (fun n => container_matches n (BATTERY_SHED_SERVICES cfg)) v
  else v.

(** The container [n] has the status [st] in the daemon. *)
Definition has_status (n st : string) (v : View) : Prop :=
  exists c, Sim.find_container n (v_containers v) = Some c /\ status c = st.

(** The trace of [v] is [tr0] with some events issued since. *)
Definition extends (tr0 : list event) (v : View) : Prop :=
  exists new, v_trace v = new ++ tr0.

(** Since [tr0], [n] was stopped: a stop returned, [n] is shed and exited. *)
Definition shed_by_stop (tr0 : list event) (n : string) (v : View) : Prop :=
  n ∈ v_shed v
  /\ (exists new, v_trace v = new ++ tr0 /\ StopCall n true ∈ new)
  /\ has_status n "exited" v.

(** Since [tr0], [n] was started: a start returned, [n] is no longer shed
    and is running. *)
Definition unshed_by_start (tr0 : list event) (n : string) (v : View) : Prop :=
  (n ∉ v_shed v)
  /\ (exists new, v_trace v = new ++ tr0 /\ StartCall n true ∈ new)
  /\ has_status n "running" v.

(** Since [tr0], [n] has stayed shed and no start was called on it. *)
Definition kept_shed (tr0 : list event) (n : string) (v : View) : Prop :=
  n ∈ v_shed v
  /\ exists new, v_trace v = new ++ tr0 /\ Forall (fun e => forall ok, e <> StartCall n ok) new.

(** A reading with the CPU at [t] degrees. *)
Definition reading (t : Z) (b : option BatteryDict) : HwStatus :=
  {| temperature := Some {| cpu_temp_c := Some (inject_Z t) |}; battery := b |}.

(** [n] is not running, if it exists. *)
Definition not_running (n : string) (v : View) : Prop :=
  forall c, Sim.find_container n (v_containers v) = Some c -> status c <> "running"%string.

(** [n], if shed and existing, is running already. *)
Definition settled (n : string) (v : View) : Prop :=
  n ∈ v_shed v ->
  forall c, Sim.find_container n (v_containers v) = Some c -> status c = "running"%string.

(** No stop of a container matching [patterns] would take effect: none
    whose calls work is running. *)
Definition stop_quiet (faulty patterns : list string) (v : View) : Prop :=
  forall n c, container_matches n patterns = true -> n ∉ faulty ->
              Sim.find_container n (v_containers v) = Some c ->
              status c <> "running"%string.

(** No start of a shed, eligible service would take effect: each one whose
    calls work is running already. *)
Definition start_quiet (faulty : list string) (eligible : string -> bool) (v : View)
  : Prop :=
  forall n c, n ∈ v_shed v -> eligible n = true -> n ∉ faulty ->
              Sim.find_container n (v_containers v) = Some c ->
              status c = "running"%string.

Definition thermal_quiet (cfg : Config) (faulty : list string) (hw_status : HwStatus)
  (v : View) : Prop :=
  if thermal_trigger cfg hw_status then stop_quiet faulty (THERMAL_SHED_SERVICES cfg) v
  else if thermal_recovery cfg hw_status then start_quiet faulty (thermal_only cfg) v
  else True.

Definition battery_quiet (cfg : Config) (faulty : list string) (hw_status : HwStatus)
  (v : View) : Prop :=
  if battery_trigger cfg hw_status then stop_quiet faulty (BATTERY_SHED_SERVICES cfg) v
  else if battery_recovery cfg hw_status
       then start_quiet faulty (fun n => container_matches n (BATTERY_SHED_SERVICES cfg)) v
  else True.

(** A lifecycle call that returned normally. *)
Definition took_effect (e : event) : Prop :=
  match e with
  | RestartCall _ ok _ _ => ok = true
  | StopCall _ ok => ok = true
  | StartCall _ ok => ok = true
  | CountsReset => False
  end.

(** An event that changes nothing: a restart that raised, a stop or start
    that raised on a container whose lifecycle calls fail, or the reset of
    the counters. *)
Definition without_effect (faulty : list string) (e : event) : Prop :=
  match e with
  | RestartCall _ ok _ _ => ok = false
  | StopCall m ok => ok = false /\ m ∈ faulty
  | StartCall m ok => ok = false /\ m ∈ faulty
  | CountsReset => True
  end.

(** [v'] is [v] with nothing changed in the daemon or the shed set, and
    only events without effect added to the trace. *)
Definition unchanged (faulty : list string) (v v' : View) : Prop :=
  v_containers v' = v_containers v
  /\ v_shed v' = v_shed v
  /\ exists new, v_trace v' = new ++ v_trace v /\ Forall (without_effect faulty) new.

(** What no call changes in the simulated world. *)
Definition sim_settings (w : Sim.World) : bool * list string * option HwStatus * N :=
  (Sim.down w, Sim.faulty w, Sim.hw w, Sim.latency w).

Definition settings_are (x : bool * list string * option HwStatus * N)
  (s : Sys Sim.World) : Prop :=
  sim_settings (world s) = x.

(** Since [s0] only [container.restart] calls were issued, the shed set is
    what it was, and so are the containers unless a restart took effect. *)
Definition health_inv (s0 s : Sys Sim.World) : Prop :=
  shed_services s = shed_services s0
  /\ exists new, issued s0 s new
       /\ Forall (fun e => exists n ok a b, e = RestartCall n ok a b) new
       /\ (Forall (fun e => ~ took_effect e) new ->
           Sim.containers (world s) = Sim.containers (world s0)).

(** The daemon is reachable and its faulty containers are [faulty]. *)
Definition daemon_up (faulty : list string) (s : Sys Sim.World) : Prop :=
  Sim.down (world s) = false /\ Sim.faulty (world s) = faulty.

(** ** Concrete inputs *)

Definition container (n st : string) (health : option string) : Container :=
  {| name := n; status := st;
     restart_policy_name := Some "unless-stopped"%string;
     health_status := health |}.

(** A healthy daemon at the epoch, every call taking one millisecond. *)
Definition sim_world (cs : list Container) (hw_status : option HwStatus) : Sim.World :=
  Sim.mkWorld 0 1000 cs [] false hw_status.

(** A critical service that is unhealthy and stopped, but shed. *)
Definition C8_state : Sys Sim.World :=
  mkSys ∅ ∅ {["nginx"%string]}
        (sim_world [container "nginx" "exited" (Some "unhealthy"%string)] None) [].

(** A service restarted twice, one second after the epoch. *)
Definition C9_state : Sys unit :=
  mkSys {["kiwix"%string := 2]} {["kiwix"%string := 1000000]} ∅ tt [].

(** An unhealthy service under the default configuration, and next to it a
    thermal-shed service whose lifecycle calls raise while the CPU is hot. *)
Definition hot_reading : HwStatus :=
  {| temperature := Some {| cpu_temp_c := Some (85 # 1) |}; battery := None |}.




(** "ollama" matches a thermal and a battery pattern. It was shed when the
    CPU got hot; the CPU is still at 85 degrees and the battery is at 50
    percent, discharging. *)
Definition C1_reading : HwStatus :=
  {| temperature := Some {| cpu_temp_c := Some (85 # 1) |};
     battery := Some {| percent := Some 50; charging := Some false |} |}.

Definition C1_state : Sys Sim.World :=
  mkSys ∅ ∅ {["ollama"%string]}
        (sim_world [container "ollama" "exited" None] (Some C1_reading)) [].

(** The same reading with "ollama" still running and nothing shed. *)
Definition C1_fresh : Sys Sim.World :=
  initial_sys (sim_world [container "ollama" "running" None] (Some C1_reading)).

(** A deployment whose thermal-shed service is not battery-shed, with the
    hw-monitor unreachable. *)
Definition C2_config : Config := {|
  CHECK_INTERVAL := 30;
  MAX_RESTART_ATTEMPTS := 3;
  RESTART_COOLDOWN := 300;
  CRITICAL_SERVICES := ["kiwix"; "tileserver"; "nginx"; "dnsmasq"]%string;
  THERMAL_SHED_SERVICES := ["jellyfin"]%string;
  THERMAL_SHED_TEMP := 80;
  BATTERY_SHED_SERVICES := ["ollama"]%string;
  BATTERY_SHED_PERCENT := 15
|}.

Definition C2_state : Sys Sim.World :=
  mkSys ∅ ∅ {["jellyfin"%string]}
        (sim_world [container "jellyfin" "exited" None] None) [].

(** A battery that reads 0 percent and is not charging, "ollama" running. *)
Definition C6_reading (p : Z) (ch : bool) : HwStatus :=
  {| temperature := Some {| cpu_temp_c := Some (40 # 1) |};
     battery := Some {| percent := Some p; charging := Some ch |} |}.

Definition C6_state : Sys Sim.World :=
  initial_sys (sim_world [container "ollama" "running" None] None).

(** "ollama", thermal- and battery-eligible under the default lists,
    running on a device that has no battery. *)
Definition C5_state : Sys Sim.World :=
  initial_sys (sim_world [container "ollama" "running" None] None).

(** The state with the hw-monitor answering [hw_status] from now on. *)
Definition with_reading (hw_status : HwStatus) (s : Sys Sim.World) : Sys Sim.World :=
  set_world
    (Sim.mkWorld (Sim.now_us (world s)) (Sim.latency (world s))
                 (Sim.containers (world s)) (Sim.faulty (world s))
                 (Sim.down (world s)) (Some hw_status))
    s.

(** Whole turns of the loop body under the default configuration, one per
    temperature, on a device without battery data. *)
Definition C5_ticks (temps : list Z) : Sys Sim.World :=
  fold_left (fun s t => (tick default_config 0 (with_reading (reading t None) s)).2)
            temps C5_state.

(** "nginx" is unhealthy and was restarted once, 7 milliseconds after the
    epoch; it is now 299.9 seconds, that is 0.107 seconds before the end of
    its cooldown. *)
Definition C10_state : Sys Sim.World :=
  mkSys {["nginx"%string := 1]} {["nginx"%string := 7000]} ∅
        (Sim.mkWorld 299900000 1000
           [container "nginx" "running" (Some "unhealthy"%string)] [] false None) [].

Definition C10_after_first_tick : Sys Sim.World :=
  (sleep (CHECK_INTERVAL default_config) (tick default_config 0 C10_state).2).2.

(** "ollama" running while the CPU is hot, on a device with no battery. *)
Definition C10_hot_state : Sys Sim.World :=
  initial_sys (sim_world [container "ollama" "running" None] (Some hot_reading)).

(** ** Reading the configuration: [os.getenv(...).split(",")]

    [split_comma s] is Python's [s.split(",")] and [join_comma] is
    [",".join]. *)

Fixpoint split_comma (s : string) : list string :=
  match s with
  | EmptyString => [EmptyString]
  | String c s' =>
      if Ascii.eqb c ","%char then EmptyString :: split_comma s'
      else match split_comma s' with
           | field :: fields => String c field :: fields
           | [] => [String c EmptyString]
           end
  end.

Fixpoint join_comma (fields : list string) : string :=
  match fields with
  | [] => EmptyString
  | [field] => field
  | field :: fields' => field +:+ String ","%char (join_comma fields')
  end.

(** The list a variable yields: its value, or the default, split. *)
Definition services_from_env (value : option string) (fallback : string) : list string :=
  split_comma (default fallback value).

(** No comma occurs in [s]. *)
Fixpoint comma_free (s : string) : bool :=
  match s with
  | EmptyString => true
  | String c s' => negb (Ascii.eqb c ","%char) && comma_free s'
  end.

(** ** Further invariants *)

(** Every stored attempt count lies between 1 and [MAX_RESTART_ATTEMPTS]. *)
Definition attempts_bounded {W} (cfg : Config) (s : Sys W) : Prop :=
  forall n v, restart_attempts s !! n = Some v -> 1 <= v <= MAX_RESTART_ATTEMPTS cfg.

(** A stop or start call, whatever its outcome. *)
Definition is_shed_call (e : event) : Prop :=
  match e with
  | StopCall _ _ | StartCall _ _ => True
  | _ => False
  end.

(** Since [s0] the restart records are what they were and only stop and
    start calls were issued. *)
Definition governor_untouched {W} (s0 s : Sys W) : Prop :=
  restart_attempts s = restart_attempts s0
  /\ last_restart s = last_restart s0
  /\ exists new, issued s0 s new /\ Forall is_shed_call new.

(** Since [s0] the shed set is what it was and only [container.restart]
    calls were issued. *)
Definition shedding_untouched {W} (s0 s : Sys W) : Prop :=
  shed_services s = shed_services s0
  /\ exists new, issued s0 s new
       /\ Forall (fun e => exists n ok a b, e = RestartCall n ok a b) new.

(** A name that some thermal or battery pattern matches. *)
Definition shed_eligible (cfg : Config) (n : string) : bool :=
  container_matches n (THERMAL_SHED_SERVICES cfg)
  || container_matches n (BATTERY_SHED_SERVICES cfg).

(** A stop or start call on [n], whatever its outcome. *)
Definition shed_call_on (n : string) (e : event) : Prop :=
  match e with
  | StopCall m _ | StartCall m _ => m = n
  | _ => False
  end.

(** Only eligible names are in the shed set, and only eligible names were
    ever stopped or started. *)
Definition only_eligible_shed {W} (cfg : Config) (s : Sys W) : Prop :=
  (forall n, n ∈ shed_services s -> shed_eligible cfg n = true)
  /\ Forall (fun e => forall n, shed_call_on n e -> shed_eligible cfg n = true) (trace s).

(** What the health check looks at before it restarts a listed container:
    not shed, restart policy other than "no", and unhealthy or a stopped
    critical service. *)
Definition restart_warranted (cfg : Config) (shed : gset string) (c : Container) : Prop :=
  (name c ∉ shed)
  /\ restart_policy_name c <> Some "no"%string
  /\ (health_status c = Some "unhealthy"%string
      \/ (status c <> "running"%string
          /\ container_matches (name c) (CRITICAL_SERVICES cfg) = true)).

(** Whether the newest stop or start of [n] that returned normally, in a
    trace (newest first), is a stop. *)
Fixpoint shed_by_trace (n : string) (tr : list event) : bool :=
  match tr with
  | [] => false
  | StopCall m true :: tr' => if bool_decide (m = n) then true else shed_by_trace n tr'
  | StartCall m true :: tr' => if bool_decide (m = n) then false else shed_by_trace n tr'
  | _ :: tr' => shed_by_trace n tr'
  end.

Definition shed_mirrors_trace {W} (s : Sys W) : Prop :=
  forall n, n ∈ shed_services s <-> shed_by_trace n (trace s) = true.

(** An unhealthy critical service, two shed candidates of which one raises
    on every lifecycle call, and a bystander, on a hot device whose battery
    is low. *)
Definition stressed_reading : HwStatus :=
  {| temperature := Some {| cpu_temp_c := Some (85 # 1) |};
     battery := Some {| percent := Some 10; charging := Some false |} |}.

Definition stressed_world : Sim.World :=
  Sim.mkWorld 0 1000
    [container "nginx" "running" (Some "unhealthy"%string);
     container "ollama" "running" None;
     container "navidrome" "running" None;
     container "grafana" "running" None]
    ["navidrome"%string] false (Some stressed_reading).

(** Since [s0] the hourly reset has not fired. *)
Definition no_reset_since {W} (s0 s : Sys W) : Prop :=
  exists new, issued s0 s new /\ CountsReset ∉ new.

(** What a turn of the loop body comes to: it hands back [last_reset] as it
    was and has not reset, or it has reset once, as its last action, and
    hands back a reading taken after the one that was found more than an
    hour past [last_reset]. *)
Definition tick_outcome {W} `{Runtime W} (last_reset : Z) (s : Sys W) (lr' : Z)
    (s' : Sys W) : Prop :=
  (lr' = last_reset /\ no_reset_since s s')
  \/ (exists now s5,
        no_reset_since s s5
        /\ timedelta_hours 1 < now - last_reset
        /\ now = (datetime_now (world s5)).1
        /\ lr' = (datetime_now (datetime_now (world s5)).2).1
        /\ restart_attempts s' = ∅
        /\ last_restart s' = last_restart s5
        /\ shed_services s' = shed_services s5
        /\ trace s' = CountsReset :: trace s5).

(** ** One turn of the health loop

    The body of [for container in containers] in [check_container_health],
    under a name of its own. *)
Definition health_turn {W} `{Runtime W} (cfg : Config) (container : Container)
  : M W unit :=
  let nm := name container in
  sh <- read shed_services ;;
  if bool_decide (nm ∈ sh) then ret tt
  else if bool_decide (restart_policy_name container = Some "no"%string) then ret tt
  else
    (if bool_decide (health_status container = Some "unhealthy"%string)
     then restart_container cfg nm ;; ret tt
     else ret tt) ;;
    if bool_decide (status container ≠ "running"%string)
       && container_matches nm (CRITICAL_SERVICES cfg)
    then restart_container cfg nm ;; ret tt
    else ret tt.

(** On the simulated daemon, a restart of [n] is due and would go through:
    the daemon is reachable, [n] exists and its calls work, it is not shed,
    its cooldown is over and its budget is not used up. *)
Definition restart_pending (cfg : Config) (n : string) (s0 s : Sys Sim.World) : Prop :=
  Sim.down (world s) = false
  /\ (n ∉ Sim.faulty (world s))
  /\ is_Some (Sim.find_container n (Sim.containers (world s)))
  /\ (n ∉ shed_services s)
  /\ (forall t, last_restart s !! n = Some t ->
                t + timedelta_seconds (RESTART_COOLDOWN cfg) <= Sim.now_us (world s))
  /\ default 0 (restart_attempts s !! n) < MAX_RESTART_ATTEMPTS cfg
  /\ restart_attempts s !! n = restart_attempts s0 !! n
  /\ exists new, issued s0 s new.

(** Since [s0] a restart of [n] has returned normally: [n] is running, the
    restart is counted and stamped. *)
Definition restart_done (n : string) (s0 s : Sys Sim.World) : Prop :=
  (exists new a b, issued s0 s new /\ RestartCall n true a b ∈ new)
  /\ has_status n "running" (view_of s)
  /\ is_Some (last_restart s !! n)
  /\ default 0 (restart_attempts s0 !! n) < default 0 (restart_attempts s !! n).

(** A device past its first hour: "nginx" unhealthy, restarted three times
    in the hour before, the last time long ago. *)
Definition reset_due_state : Sys Sim.World :=
  mkSys {["nginx"%string := 3]} {["nginx"%string := 1000000]} ∅
        (Sim.mkWorld 3700000000 1000
           [container "nginx" "running" (Some "unhealthy"%string)] [] false None) [].


(** ** The hw-monitor's battery reading

    [get_battery_status] of [hw-monitor/app/main.py], whose answer the
    watchdog fetches through [/api/system].

    The bus is what [smbus2.SMBus(1)] gives: [None] when opening it raises,
    otherwise [read_word_data address register], which is a word or raises,
    and [close], which returns or raises.  [voltage] and the unclamped
    [percent] are floats in the source and exact rationals here: the
    division by 256.0 is exact, and the two voltage comparisons are against
    4.10 and 4.18, which are the voltages of the words 52480 and 53504
    exactly, the next lower word being 78 microvolts below, so that the
    floating-point comparisons answer as the exact ones do.  Of the dict
    returned, the keys [voltage] and [time_remaining], which are rounded and
    formatted floats, are left out; computing them cannot raise. *)

Module HwMonitor.

Record SMBus := {
  read_word_data : Z -> Z -> option Z;
  close : bool
}.

Record BatteryStatus := {
  available : bool;
  percent : Z;
  charging : bool;
  status : string
}.

(** [((raw & 0x00FF) << 8) | ((raw >> 8) & 0xFF)] *)
Definition swap_bytes (raw : Z) : Z :=
  Z.lor (Z.shiftl (Z.land raw 255) 8) (Z.land (Z.shiftr raw 8) 255).

(** [v_swapped * 78.125 / 1000000] *)
Definition voltage_of (v_swapped : Z) : Q :=
  (inject_Z v_swapped * (78125 # 1000) / inject_Z 1000000)%Q.

(** Python's [int] on a float: truncation towards zero. *)
Definition int_of (x : Q) : Z := Z.quot (Qnum x) (Zpos (Qden x)).

Definition get_battery_status (UPS_I2C_ADDRESS CRITICAL_BATTERY_PERCENT : Z)
  (bus : option SMBus) : option BatteryStatus :=
  match bus with
  | None => None
  | Some bus =>
    match read_word_data bus UPS_I2C_ADDRESS 2 with
    | None => None
    | Some v_raw =>
      let v_swapped := swap_bytes v_raw in
      let voltage := voltage_of v_swapped in
      match read_word_data bus UPS_I2C_ADDRESS 4 with
      | None => None
      | Some soc_raw =>
        let soc_swapped := swap_bytes soc_raw in
        let percent := (inject_Z soc_swapped / inject_Z 256)%Q in
        if negb (close bus) then None
        else
          let percent := Z.max 0 (Z.min 100 (int_of percent)) in
          if (percent >=? 90) && Qle_bool (410 # 100) voltage then
            Some {| available := true; percent := percent; charging := true;
                    status := if percent >=? 98 then "full" else "charging" |}
          else if Qle_bool (418 # 100) voltage then
            Some {| available := true; percent := percent; charging := true;
                    status := "charging" |}
          else
            Some {| available := true; percent := percent; charging := false;
                    status := if percent <=? CRITICAL_BATTERY_PERCENT then "critical"
                              else if percent <=? 20 then "low"
                              else "discharging" |}
      end
    end
  end.

End HwMonitor.

(** The [battery] object of the [/api/system] answer as the watchdog reads
    it: in [get_system], the [BatteryResponse] built from the dict when there
    is one and [BatteryResponse(available=False)] otherwise, whose unset
    fields are null. *)
Definition system_battery (battery : option HwMonitor.BatteryStatus) : BatteryDict :=
  match battery with
  | Some b => {| percent := Some (HwMonitor.percent b);
                 charging := Some (HwMonitor.charging b) |}
  | None => {| percent := None; charging := None |}
  end.

(** A UPS whose fuel gauge reads 3.9 V at 12 percent. *)
Definition ups_bus : HwMonitor.SMBus := {|
  HwMonitor.read_word_data := fun _ register =>
    if register =? 2 then Some 195 else if register =? 4 then Some 32780 else None;
  HwMonitor.close := true
|}.

(** The calls a shedding pass may make: stops when [stopping], starts
    otherwise. *)
Definition one_way (stopping : bool) (e : event) : Prop :=
  if stopping then exists m ok, e = StopCall m ok
  else exists m ok, e = StartCall m ok.

Definition one_way_since {W} (stopping : bool) (s0 s : Sys W) : Prop :=
  exists new, issued s0 s new /\ Forall (one_way stopping) new.

(** "ollama" shed and stopped; the battery at 5 percent, on the charger. *)
Definition charging_reading : HwStatus :=
  {| temperature := None;
     battery := Some {| percent := Some 5; charging := Some true |} |}.

Definition shed_state : Sys Sim.World :=
  mkSys ∅ ∅ {["ollama"%string]}
        (sim_world [container "ollama" "exited" None] (Some charging_reading)) [].

(** Every [last_restart] stamp of the simulated run is a past instant of
    the calendar. *)
Definition stamps_past (s : Sys Sim.World) : Prop :=
  0 <= Sim.now_us (world s)
  /\ forall m t, last_restart s !! m = Some t -> 0 <= t <= Sim.now_us (world s).

(** The calendar has no room left for a cooldown counted from now: from
    here on [should_restart] may raise [OverflowError]. *)
Definition calendar_over (cfg : Config) (s : Sys Sim.World) : Prop :=
  datetime_max < Sim.now_us (world s) + timedelta_seconds (RESTART_COOLDOWN cfg).

Definition restart_pending_or_late (cfg : Config) (n : string)
  (s0 s : Sys Sim.World) : Prop :=
  calendar_over cfg s \/ (stamps_past s /\ restart_pending cfg n s0 s).

Definition restart_done_or_late (cfg : Config) (n : string)
  (s0 s : Sys Sim.World) : Prop :=
  restart_done n s0 s \/ calendar_over cfg s.

(** * Properties *)

(** ** Running the monad *)

Section Monad.

Context {W : Type}.
Implicit Types (P : Sys W -> Prop) (s : Sys W).

(** A loop keeps an invariant that each turn of its body keeps, whether
    the loop runs to its end or a turn raises. *)
Lemma for_each_state P A (xs : list A) (body : A -> M W unit) s :
  (forall x s1, x ∈ xs -> P s1 -> P (body x s1).2) ->
  P s -> P (for_each xs body s).2.
Proof.
  revert s. induction xs as [|x xs IH]; intros s Hbody Hs; simpl.
  - exact Hs.
  - unfold bind. specialize (Hbody x s) as Hx.
    destruct (body x s) as [[[]|] s1]; simpl in *.
    + apply IH.
      * intros y s2 Hy. apply Hbody. by apply list_elem_of_further.
      * apply Hx; [apply list_elem_of_here | exact Hs].
    + apply Hx; [apply list_elem_of_here | exact Hs].
Qed.

End Monad.

(** ** The lifecycle helpers run as [restart_run], [stop_run], [start_run] say *)

Section Helpers.

Context {W : Type} {RT : Runtime W}.
Variable cfg : Config.
Implicit Types (s : Sys W) (n : string).

Lemma datetime_plus_seconds_Some (t secs e : Z) :
  datetime_plus_seconds t secs = Some e -> e = t + timedelta_seconds secs.
Proof.
  unfold datetime_plus_seconds. destruct (_ && _); [|discriminate]. by intros [= <-].
Qed.

Lemma should_restart_run n s :
  should_restart cfg n s =
  (if cooldown_overflows cfg (last_restart s) n then Raised
   else Returned (governor_allows cfg (last_restart s) (restart_attempts s) n
                    (datetime_now (world s)).1),
   set_world (datetime_now (world s)).2 s).
Proof.
  unfold should_restart, cooldown_overflows, governor_allows, cooldown_end,
    bind, call, read, ret, raise.
  destruct (datetime_now (world s)) as [now w1]; simpl.
  destruct (last_restart s !! n) as [t|]; simpl.
  - destruct (datetime_plus_seconds t _) as [e|] eqn:He; simpl; [|reflexivity].
    apply datetime_plus_seconds_Some in He as ->.
    destruct (now <? t + _); simpl; [reflexivity|].
    destruct (default 0 (restart_attempts s !! n) >=? _); reflexivity.
  - destruct (default 0 (restart_attempts s !! n) >=? _); reflexivity.
Qed.

(** [restart_container] raises exactly when [should_restart] does. *)
Lemma restart_container_raises n s :
  cooldown_overflows cfg (last_restart s) n = true ->
  restart_container cfg n s = (Raised, set_world (datetime_now (world s)).2 s).
Proof.
  intros Hov. unfold restart_container. unfold bind at 1.
  by rewrite should_restart_run, Hov.
Qed.

Lemma restart_container_returns n s :
  cooldown_overflows cfg (last_restart s) n = false ->
  exists r s', restart_container cfg n s = (Returned r, s') /\ restart_run cfg n s r s'.
Proof.
  intros Hov.
  unfold restart_container. unfold bind at 1. rewrite should_restart_run, Hov.
  destruct (datetime_now (world s)) as [now w1] eqn:Hnow; simpl.
  destruct (governor_allows _ _ _ _ _) eqn:Hgov; simpl.
  2: { eexists _, _. split; [reflexivity|]. eapply RestartDenied; eauto. }
  unfold try_except, client_containers_get, bind, call, read, modify, ret, raise; simpl.
  destruct (containers_get n w1) as [g w2] eqn:Hget; simpl.
  destruct g as [c| |]; simpl.
  2,3: eexists _, _; (split; [reflexivity|]);
       eapply (RestartNoContainer _ _ _ _ _ _ _ Hnow Hgov Hget); congruence.
  unfold container_restart_call; simpl.
  destruct (container_restart n w2) as [ok w3] eqn:Hres; simpl.
  destruct ok; simpl.
  - destruct (datetime_now w3) as [now' w4] eqn:Hnow'; simpl.
    eexists _, _. split; [reflexivity|].
    eapply (RestartDone _ _ _ _ _ _ _ _ _ _ Hnow Hgov Hget Hres Hnow').
  - eexists _, _. split; [reflexivity|].
    eapply (RestartRaised _ _ _ _ _ _ _ _ Hnow Hgov Hget Hres).
Qed.

Lemma restart_container_run n s :
  (exists r s', restart_container cfg n s = (Returned r, s') /\ restart_run cfg n s r s')
  \/ restart_container cfg n s = (Raised, set_world (datetime_now (world s)).2 s).
Proof.
  destruct (cooldown_overflows cfg (last_restart s) n) eqn:Hov.
  - right. by apply restart_container_raises.
  - left. by apply restart_container_returns.
Qed.

Lemma stop_container_run n reason s :
  exists r s', stop_container n reason s = (Returned r, s') /\ stop_run n s r s'.
Proof.
  unfold stop_container, try_except, client_containers_get, bind, call, read,
    modify, ret, raise; simpl.
  destruct (containers_get n (world s)) as [g w1] eqn:Hget; simpl.
  destruct g as [c| |]; simpl.
  2,3: eexists _, _; (split; [reflexivity|]);
       eapply (StopNoContainer _ _ _ _ Hget); congruence.
  case_bool_decide as Hst; simpl.
  - unfold container_stop_call; simpl.
    destruct (container_stop n w1) as [ok w2] eqn:Hstop; simpl.
    destruct ok; simpl; eexists _, _; (split; [reflexivity|]).
    + eapply (StopDone _ _ _ _ _ Hget Hst Hstop).
    + eapply (StopRaised _ _ _ _ _ Hget Hst Hstop).
  - eexists _, _. split; [reflexivity|]. eapply (StopNotRunning _ _ _ _ Hget Hst).
Qed.

Lemma start_container_run n s :
  exists r s', start_container n s = (Returned r, s') /\ start_run n s r s'.
Proof.
  unfold start_container, try_except, client_containers_get, bind, call, read,
    modify, ret, raise; simpl.
  destruct (containers_get n (world s)) as [g w1] eqn:Hget; simpl.
  destruct g as [c| |]; simpl.
  2,3: eexists _, _; (split; [reflexivity|]);
       eapply (StartNoContainer _ _ _ _ Hget); congruence.
  case_bool_decide as Hst; simpl.
  - unfold container_start_call; simpl.
    destruct (container_start n w1) as [ok w2] eqn:Hstart; simpl.
    destruct ok; simpl; eexists _, _; (split; [reflexivity|]).
    + eapply (StartDone _ _ _ _ _ Hget Hst Hstart).
    + eapply (StartRaised _ _ _ _ _ Hget Hst Hstart).
  - eexists _, _. split; [reflexivity|].
    eapply (StartAlreadyRunning _ _ _ _ Hget).
    destruct (decide (status c = "running"%string)); [assumption | contradiction].
Qed.

End Helpers.

(** ** Invariants carried through the checks and the loop

    What an invariant has to survive in order to hold after each check, a
    tick and any number of turns of the main loop: the runtime calls the
    checks make themselves and the three lifecycle helpers, each under the
    guard the caller has established. *)

Section Carry.

Context {W : Type} {RT : Runtime W}.
Variable cfg : Config.
Variable I : Sys W -> Prop.
Implicit Types (s : Sys W) (n : string).

Lemma try_except_ret_state A (body : M W A) (a : A) s :
  (try_except body (ret a) s).2 = (body s).2.
Proof. unfold try_except, ret. by destruct (body s) as [[?|] ?]. Qed.

Lemma restart_run_shed n s r s' :
  restart_run cfg n s r s' -> shed_services s' = shed_services s.
Proof. by destruct 1. Qed.

Lemma restart_container_shed n s :
  shed_services (restart_container cfg n s).2 = shed_services s.
Proof.
  destruct (restart_container_run cfg n s) as [(r & s' & -> & Hrel)| ->]; [|done].
  by apply restart_run_shed in Hrel.
Qed.

Lemma bind_ret_state A (m : M W A) s : ((m ;; ret tt) s).2 = (m s).2.
Proof. unfold bind, ret. by destruct (m s) as [[a|] s1]. Qed.

Hypothesis I_list :
  forall all s, I s -> I (set_world (containers_list all (world s)).2 s).

Lemma client_containers_list_keeps all s :
  I s -> I (client_containers_list all s).2.
Proof.
  intros Hs. unfold client_containers_list, bind, call, ret, raise.
  specialize (I_list all s Hs).
  destruct (containers_list all (world s)) as [[cs|] w1]; exact I_list.
Qed.

Lemma client_containers_list_world all s :
  (client_containers_list all s).2 = set_world (containers_list all (world s)).2 s.
Proof.
  unfold client_containers_list, bind, call, ret, raise.
  by destruct (containers_list all (world s)) as [[cs|] w1].
Qed.

Section Health.

Hypothesis I_restart :
  forall n s, n ∉ shed_services s -> I s -> I (restart_container cfg n s).2.

Lemma check_container_health_keeps s :
  I s -> I (check_container_health cfg s).2.
Proof.
  intros Hs. unfold check_container_health. rewrite try_except_ret_state.
  unfold bind at 1.
  pose proof (client_containers_list_keeps true s Hs) as Hl.
  destruct (client_containers_list true s) as [[cs|] s1]; simpl in *; [|exact Hl].
  apply for_each_state; [|exact Hl].
  intros c s2 _ Hs2. unfold bind at 1, read at 1.
  case_bool_decide as Hshed; [exact Hs2|].
  case_bool_decide as Hpol; [exact Hs2|].
  unfold bind at 1.
  assert (I ((if bool_decide (health_status c = Some "unhealthy"%string)
              then restart_container cfg (name c);; ret tt else ret tt) s2).2
          /\ shed_services
               ((if bool_decide (health_status c = Some "unhealthy"%string)
                 then restart_container cfg (name c);; ret tt else ret tt) s2).2
             = shed_services s2) as [Hs3 Hsh3].
  { case_bool_decide; [|done]. rewrite bind_ret_state. split.
    - by apply I_restart.
    - apply restart_container_shed. }
  destruct ((if bool_decide (health_status c = Some "unhealthy"%string)
             then restart_container cfg (name c);; ret tt else ret tt) s2)
    as [[[]|] s3]; simpl in Hs3, Hsh3 |- *; [|exact Hs3].
  destruct (_ && _); [|exact Hs3].
  rewrite bind_ret_state. apply I_restart; [by rewrite Hsh3|exact Hs3].
Qed.

End Health.

Section Shedding.

Variable patterns_stop : list string.
Variable reason : string.

Hypothesis I_stop :
  forall n s, container_matches n patterns_stop = true -> I s ->
              I (stop_container n reason s).2.

Lemma stop_matching_keeps s :
  I s ->
  I ((containers <- client_containers_list false ;;
      for_each containers (fun container =>
        if container_matches (name container) patterns_stop
        then stop_container (name container) reason ;; ret tt
        else ret tt)) s).2.
Proof.
  intros Hs. unfold bind at 1.
  pose proof (client_containers_list_keeps false s Hs) as Hl.
  destruct (client_containers_list false s) as [[cs|] s1]; simpl in *; [|exact Hl].
  apply for_each_state; [|exact Hl].
  intros c s2 _ Hs2.
  destruct (container_matches (name c) patterns_stop) eqn:Hm; [|exact Hs2].
  destruct (stop_container_run (name c) reason s2) as (r & s3 & Hrun & _).
  specialize (I_stop (name c) s2 Hm Hs2).
  unfold bind. rewrite Hrun in *. exact I_stop.
Qed.

End Shedding.

Section Recovery.

Variable eligible : string -> bool.

Hypothesis I_start :
  forall n s, eligible n = true -> I s -> I (start_container n s).2.

Lemma start_eligible_keeps (names : list string) s :
  I s ->
  I (for_each names (fun service_name =>
       if eligible service_name
       then start_container service_name ;; ret tt
       else ret tt) s).2.
Proof.
  intros Hs. apply for_each_state; [|exact Hs].
  intros n s2 _ Hs2. destruct (eligible n) eqn:He; [|exact Hs2].
  destruct (start_container_run n s2) as (r & s3 & Hrun & _).
  specialize (I_start n s2 He Hs2).
  unfold bind. rewrite Hrun in *. exact I_start.
Qed.

End Recovery.

End Carry.

Section CarryChecks.

Context {W : Type} {RT : Runtime W}.
Variable cfg : Config.
Variable I : Sys W -> Prop.
Implicit Types (s : Sys W) (n : string).

Hypothesis I_list :
  forall all s, I s -> I (set_world (containers_list all (world s)).2 s).

Section Thermal.

Hypothesis I_stop :
  forall n s, container_matches n (THERMAL_SHED_SERVICES cfg) = true -> I s ->
              I (stop_container n "thermal shedding" s).2.
Hypothesis I_start :
  forall n s, container_matches n (THERMAL_SHED_SERVICES cfg) = true ->
              container_matches n (BATTERY_SHED_SERVICES cfg) = false ->
              I s -> I (start_container n s).2.

Lemma check_thermal_shedding_keeps hw_status s :
  I s -> I (check_thermal_shedding cfg hw_status s).2.
Proof.
  intros Hs. unfold check_thermal_shedding.
  destruct (Qle_bool _ _).
  - by apply stop_matching_keeps.
  - destruct (Qlt_bool _ _); [|exact Hs].
    unfold bind at 1, read at 1.
    apply for_each_state; [|exact Hs].
    intros n s2 _ Hs2.
    destruct (container_matches n (THERMAL_SHED_SERVICES cfg)) eqn:Ht; [|exact Hs2].
    destruct (container_matches n (BATTERY_SHED_SERVICES cfg)) eqn:Hb; [exact Hs2|].
    simpl. destruct (start_container_run n s2) as (r & s3 & Hrun & _).
    specialize (I_start n s2 Ht Hb Hs2).
    unfold bind. rewrite Hrun in *. exact I_start.
Qed.

End Thermal.

Section Battery.

Hypothesis I_stop :
  forall n s, container_matches n (BATTERY_SHED_SERVICES cfg) = true -> I s ->
              I (stop_container n "battery shedding" s).2.
Hypothesis I_start :
  forall n s, container_matches n (BATTERY_SHED_SERVICES cfg) = true ->
              I s -> I (start_container n s).2.

Lemma check_battery_shedding_keeps hw_status s :
  I s -> I (check_battery_shedding cfg hw_status s).2.
Proof.
  intros Hs. unfold check_battery_shedding.
  destruct (battery hw_status) as [b|]; [|exact Hs].
  destruct (negb (truthy_int (percent b))); [exact Hs|].
  destruct (_ && _).
  - by apply stop_matching_keeps.
  - destruct (_ || _); [|exact Hs].
    unfold bind at 1, read at 1.
    by apply start_eligible_keeps.
Qed.

End Battery.

End CarryChecks.

Section CarryLoop.

Context {W : Type} {RT : Runtime W}.
Variable cfg : Config.
Variable I : Sys W -> Prop.
Hypothesis HI : carried cfg I.
Implicit Types (s : Sys W) (n : string).

Lemma call_keeps A (op : W -> A * W) s :
  (forall s, I s -> I (set_world (op (world s)).2 s)) -> I s -> I (call op s).2.
Proof.
  intros Hop Hs. specialize (Hop s Hs). unfold call.
  by destruct (op (world s)).
Qed.

Lemma get_hw_status_keeps s : I s -> I (@get_hw_status W RT s).2.
Proof.
  intros Hs. unfold get_hw_status, bind, call, ret.
  pose proof (carried_hw cfg I HI s Hs) as H.
  by destruct (requests_get (world s)) as [[hw|] w1].
Qed.

Lemma carried_health s : I s -> I (check_container_health cfg s).2.
Proof.
  apply check_container_health_keeps.
  - apply (carried_list cfg I HI).
  - apply (carried_restart cfg I HI).
Qed.

Lemma carried_thermal hw_status s : I s -> I (check_thermal_shedding cfg hw_status s).2.
Proof.
  apply check_thermal_shedding_keeps.
  - apply (carried_list cfg I HI).
  - intros. by apply (carried_stop cfg I HI).
  - intros. by apply (carried_start cfg I HI).
Qed.

Lemma carried_battery hw_status s : I s -> I (check_battery_shedding cfg hw_status s).2.
Proof.
  apply check_battery_shedding_keeps.
  - apply (carried_list cfg I HI).
  - intros. by apply (carried_stop cfg I HI).
  - intros. by apply (carried_start cfg I HI).
Qed.

Lemma tick_keeps last_reset s : I s -> I (tick cfg last_reset s).2.
Proof.
  intros Hs. unfold tick. rewrite try_except_ret_state.
  unfold bind at 1.
  pose proof (get_hw_status_keeps s Hs) as H1.
  destruct (get_hw_status s) as [[hw|] s1]; simpl in *; [|exact H1].
  unfold bind at 1.
  pose proof (carried_health s1 H1) as H2.
  destruct (check_container_health cfg s1) as [[[]|] s2]; simpl in *; [|exact H2].
  unfold bind at 1.
  pose proof (carried_thermal hw s2 H2) as H3.
  destruct (check_thermal_shedding cfg hw s2) as [[[]|] s3]; simpl in *; [|exact H3].
  unfold bind at 1.
  pose proof (carried_battery hw s3 H3) as H4.
  destruct (check_battery_shedding cfg hw s3) as [[[]|] s4]; simpl in *; [|exact H4].
  unfold bind at 1.
  pose proof (call_keeps _ datetime_now s4 (carried_now cfg I HI) H4) as H5.
  destruct (call datetime_now s4) as [[now|] s5]; simpl in *; [|exact H5].
  destruct (now - last_reset >? timedelta_hours 1); [|exact H5].
  unfold bind at 1.
  pose proof (carried_reset cfg I HI s5 H5) as H6.
  destruct (reset_restart_counts s5) as [[[]|] s6]; simpl in *; [|exact H6].
  apply call_keeps; [apply (carried_now cfg I HI) | exact H6].
Qed.

Lemma sleep_keeps secs s : I s -> I (sleep secs s).2.
Proof.
  intros Hs. unfold sleep, bind, call, ret, raise.
  pose proof (carried_sleep cfg I HI secs s Hs) as H.
  by destruct (time_sleep secs (world s)) as [[|] w1].
Qed.

Lemma main_loop_keeps iterations last_reset s :
  I s -> I (main_loop cfg iterations last_reset s).2.
Proof.
  revert last_reset s. induction iterations as [|k IH]; intros last_reset s Hs; simpl.
  - exact Hs.
  - unfold bind at 1.
    pose proof (tick_keeps last_reset s Hs) as H1.
    destruct (tick cfg last_reset s) as [[lr|] s1]; simpl in *; [|exact H1].
    unfold bind at 1.
    pose proof (sleep_keeps (CHECK_INTERVAL cfg) s1 H1) as H2.
    destruct (sleep (CHECK_INTERVAL cfg) s1) as [[[]|] s2]; simpl in *; [|exact H2].
    by apply IH.
Qed.

Lemma main_keeps iterations s : I s -> I (main cfg iterations s).2.
Proof.
  intros Hs. unfold main, bind.
  pose proof (call_keeps _ datetime_now s (carried_now cfg I HI) Hs) as H1.
  destruct (call datetime_now s) as [[now|] s1]; simpl in *; [|exact H1].
  by apply main_loop_keeps.
Qed.

End CarryLoop.

(** ** The hourly reset (C9) *)

Section Reset.

Context {W : Type} {RT : Runtime W}.
Variable cfg : Config.
Implicit Types (s : Sys W) (n : string).

Lemma counts_kept_refl s : counts_kept s s.
Proof.
  split; [|done]. exists []. split; [done|]. right. intros n. lia.
Qed.

Lemma counts_kept_world s0 s w : counts_kept s0 s -> counts_kept s0 (set_world w s).
Proof. done. Qed.

Lemma counts_kept_log s0 s e : counts_kept s0 s -> counts_kept s0 (log_event e s).
Proof.
  intros [(new & Hnew & Hc) Hlr]. split; [|done].
  exists (e :: new). split.
  - unfold issued in *. simpl. by rewrite Hnew.
  - destruct Hc as [Hin|Hle]; [left; by apply list_elem_of_further | by right].
Qed.

Lemma counts_kept_restart s0 n s :
  counts_kept s0 s -> counts_kept s0 (restart_container cfg n s).2.
Proof.
  intros Hs. destruct (restart_container_run cfg n s) as [(r & s' & -> & Hrel)| ->]; simpl;
    [|by apply counts_kept_world].
  destruct Hrel; try by (try apply counts_kept_log; apply counts_kept_world).
  destruct Hs as [(new & Hnew & Hc) Hlr]. split.
  - exists (RestartCall n true (clock w2) (clock w3) :: new). split.
    + unfold issued in *. simpl. by rewrite Hnew.
    + destruct Hc as [Hin|Hle]; [left; by apply list_elem_of_further|right].
      intros m. simpl. destruct (decide (n = m)) as [->|Hne].
      * rewrite lookup_insert_eq. simpl. specialize (Hle m). lia.
      * rewrite lookup_insert_ne by done. apply Hle.
  - intros m Hm. simpl. destruct (decide (n = m)) as [->|Hne].
    + rewrite lookup_insert_eq. by eexists.
    + rewrite lookup_insert_ne by done. by apply Hlr.
Qed.

Lemma counts_kept_stop s0 n reason s :
  counts_kept s0 s -> counts_kept s0 (stop_container n reason s).2.
Proof.
  intros Hs. destruct (stop_container_run n reason s) as (r & s' & -> & Hrel); simpl.
  destruct Hrel; try by (try apply counts_kept_log; apply counts_kept_world).
  by apply (counts_kept_log s0 (set_shed_services _ (set_world w2 s))).
Qed.

Lemma counts_kept_start s0 n s :
  counts_kept s0 s -> counts_kept s0 (start_container n s).2.
Proof.
  intros Hs. destruct (start_container_run n s) as (r & s' & -> & Hrel); simpl.
  destruct Hrel; try by (try apply counts_kept_log; apply counts_kept_world).
  by apply (counts_kept_log s0 (set_shed_services _ (set_world w2 s))).
Qed.

Lemma counts_kept_reset s0 s :
  counts_kept s0 s -> counts_kept s0 (reset_restart_counts s).2.
Proof.
  intros [(new & Hnew & Hc) Hlr]. split; [|done].
  exists (CountsReset :: new). split.
  - unfold issued in *. simpl. by rewrite Hnew.
  - left. apply list_elem_of_here.
Qed.

Lemma counts_kept_carried s0 : carried cfg (counts_kept s0).
Proof.
  split; intros.
  - by apply counts_kept_world.
  - by apply counts_kept_world.
  - by apply counts_kept_world.
  - by apply counts_kept_world.
  - by apply counts_kept_restart.
  - by apply counts_kept_stop.
  - by apply counts_kept_start.
  - by apply counts_kept_reset.
Qed.

(** C9, as amended: the reset empties [restart_attempts], so that every
    service's attempt count reads zero, and leaves [last_restart] as it
    was; a tick in which the reset does not fire lowers no attempt count,
    and no tick drops a [last_restart] entry. *)
Theorem C9_reset_clears_attempt_counts_only s :
  (restart_attempts (reset_restart_counts s).2 = ∅
   /\ (forall n, default 0 (restart_attempts (reset_restart_counts s).2 !! n) = 0)
   /\ last_restart (reset_restart_counts s).2 = last_restart s
   /\ shed_services (reset_restart_counts s).2 = shed_services s)
  /\ (forall last_reset,
        exists new, issued s (tick cfg last_reset s).2 new /\
          (CountsReset ∈ new \/
           forall n, default 0 (restart_attempts s !! n)
                     <= default 0 (restart_attempts (tick cfg last_reset s).2 !! n)))
  /\ (forall last_reset n,
        is_Some (last_restart s !! n) ->
        is_Some (last_restart (tick cfg last_reset s).2 !! n)).
Proof.
  split; [|split].
  - repeat split.
  - intros last_reset.
    apply (tick_keeps cfg _ (counts_kept_carried s) last_reset s (counts_kept_refl s)).
  - intros last_reset.
    apply (tick_keeps cfg _ (counts_kept_carried s) last_reset s (counts_kept_refl s)).
Qed.

End Reset.

(** C9 as stated fails: a service restarted before the reset still has its
    [last_restart] entry after it. *)
Lemma C9_counterexample :
  restart_attempts (reset_restart_counts C9_state).2 !! "kiwix"%string = None
  /\ last_restart (reset_restart_counts C9_state).2 !! "kiwix"%string = Some 1000000
  /\ ~ (forall n, last_restart (reset_restart_counts C9_state).2 !! n = None).
Proof.
  split; [reflexivity|]. split; [reflexivity|].
  intros H. specialize (H "kiwix"%string). vm_compute in H. discriminate.
Qed.

(** ** Shed services are left alone by the health check (C8) *)

Section ShedNotHealed.

Context {W : Type} {RT : Runtime W}.
Variable cfg : Config.
Implicit Types (s : Sys W) (n : string).

Lemma no_restart_of_refl n s : no_restart_of n s s.
Proof. split; [done|]. exists []. by split. Qed.

Lemma no_restart_of_world n s0 s w :
  no_restart_of n s0 s -> no_restart_of n s0 (set_world w s).
Proof. done. Qed.

Lemma no_restart_of_log n s0 s e :
  ~ is_restart_call_on n e -> no_restart_of n s0 s -> no_restart_of n s0 (log_event e s).
Proof.
  intros He [Hsh (new & Hnew & Hall)]. split; [done|].
  exists (e :: new). split.
  - unfold issued in *. simpl. by rewrite Hnew.
  - by constructor.
Qed.

Lemma no_restart_of_restart n s0 m s :
  m <> n -> no_restart_of n s0 s -> no_restart_of n s0 (restart_container cfg m s).2.
Proof.
  intros Hne Hs.
  assert (forall ok a b, ~ is_restart_call_on n (RestartCall m ok a b)) as Hev.
  { intros ok a b (ok' & a' & b' & Heq). congruence. }
  destruct (restart_container_run cfg m s) as [(r & s' & -> & Hrel)| ->]; simpl;
    [|by apply no_restart_of_world].
  destruct Hrel; try by apply no_restart_of_world.
  - by apply no_restart_of_log, no_restart_of_world.
  - by apply (no_restart_of_log n s0
                (set_last_restart _ (set_restart_attempts _ (set_world w4 s)))).
Qed.

(** C8: while a name is in [shed_services], [check_container_health] makes
    no [container.restart] call on it, neither for being unhealthy nor for
    being a stopped critical service; the check does not change
    [shed_services] either. *)
Theorem C8_shed_services_are_not_restarted s n :
  n ∈ shed_services s ->
  shed_services (check_container_health cfg s).2 = shed_services s
  /\ exists new, issued s (check_container_health cfg s).2 new
                 /\ Forall (fun e => ~ is_restart_call_on n e) new.
Proof.
  intros Hn.
  apply (check_container_health_keeps cfg (no_restart_of n s)).
  - intros all s1. apply no_restart_of_world.
  - intros m s1 Hm Hs1. apply no_restart_of_restart; [|exact Hs1].
    intros ->. destruct Hs1 as [Hsh _]. rewrite Hsh in Hm. contradiction.
  - apply no_restart_of_refl.
Qed.

End ShedNotHealed.

Lemma C8_witness :
  "nginx"%string ∈ shed_services C8_state
  /\ shed_services (check_container_health default_config C8_state).2
     = shed_services C8_state
  /\ exists new, issued C8_state (check_container_health default_config C8_state).2 new
                 /\ Forall (fun e => ~ is_restart_call_on "nginx" e) new.
Proof.
  assert ("nginx"%string ∈ shed_services C8_state) as Hin.
  { apply (bool_decide_unpack _). vm_compute. exact I. }
  split; [exact Hin|].
  apply (C8_shed_services_are_not_restarted default_config C8_state "nginx" Hin).
Defined.

(** ** The shed set changes only with a lifecycle call that returned (C7) *)

Section ShedTransactional.

Context {W : Type} {RT : Runtime W}.
Variable cfg : Config.
Implicit Types (s : Sys W) (n : string).

Lemma shed_follows_refl s : shed_follows_actions s s.
Proof. exists []. split; [done|]. intros x. split; by left. Qed.

Lemma shed_follows_world s0 s w :
  shed_follows_actions s0 s -> shed_follows_actions s0 (set_world w s).
Proof. done. Qed.

Lemma shed_follows_log s0 s e :
  shed_follows_actions s0 s -> shed_follows_actions s0 (log_event e s).
Proof.
  intros (new & Hnew & Hx). exists (e :: new). split.
  - unfold issued in *. simpl. by rewrite Hnew.
  - intros x. destruct (Hx x) as [H1 H2]. split; intros Hin.
    + destruct (H1 Hin); [by left | right; by apply list_elem_of_further].
    + destruct (H2 Hin); [by left | right; by apply list_elem_of_further].
Qed.

Lemma shed_follows_restart s0 n s :
  shed_follows_actions s0 s -> shed_follows_actions s0 (restart_container cfg n s).2.
Proof.
  intros Hs. destruct (restart_container_run cfg n s) as [(r & s' & -> & Hrel)| ->]; simpl;
    [|by apply shed_follows_world].
  destruct Hrel; try by apply shed_follows_world.
  - by apply shed_follows_log, shed_follows_world.
  - by apply (shed_follows_log s0
                (set_last_restart _ (set_restart_attempts _ (set_world w4 s)))).
Qed.

Lemma shed_follows_stop s0 n reason s :
  shed_follows_actions s0 s -> shed_follows_actions s0 (stop_container n reason s).2.
Proof.
  intros Hs. destruct (stop_container_run n reason s) as (r & s' & -> & Hrel); simpl.
  destruct Hrel; try by apply shed_follows_world.
  - by apply shed_follows_log, shed_follows_world.
  - destruct Hs as (new & Hnew & Hx). exists (StopCall n true :: new). split.
    + unfold issued in *. simpl. by rewrite Hnew.
    + intros x. destruct (Hx x) as [Hin1 Hin2]. simpl. split; intros Hin.
      * apply elem_of_union in Hin as [Hin|Hin].
        -- apply elem_of_singleton in Hin as ->. right. apply list_elem_of_here.
        -- destruct (Hin1 Hin); [by left | right; by apply list_elem_of_further].
      * destruct (Hin2 Hin) as [Hk|Hk].
        -- left. apply elem_of_union. by right.
        -- right. by apply list_elem_of_further.
Qed.

Lemma shed_follows_start s0 n s :
  shed_follows_actions s0 s -> shed_follows_actions s0 (start_container n s).2.
Proof.
  intros Hs. destruct (start_container_run n s) as (r & s' & -> & Hrel); simpl.
  destruct Hrel; try by apply shed_follows_world.
  - by apply shed_follows_log, shed_follows_world.
  - destruct Hs as (new & Hnew & Hx). exists (StartCall n true :: new). split.
    + unfold issued in *. simpl. by rewrite Hnew.
    + intros x. destruct (Hx x) as [Hin1 Hin2]. simpl. split; intros Hin.
      * apply elem_of_difference in Hin as [Hin _].
        destruct (Hin1 Hin); [by left | right; by apply list_elem_of_further].
      * destruct (decide (x = n)) as [->|Hne].
        -- right. apply list_elem_of_here.
        -- destruct (Hin2 Hin) as [Hk|Hk].
           ++ left. apply elem_of_difference. split; [exact Hk|].
              intros Hs'. apply elem_of_singleton in Hs'. contradiction.
           ++ right. by apply list_elem_of_further.
Qed.

Lemma shed_follows_carried s0 : carried cfg (shed_follows_actions s0).
Proof.
  split; intros.
  - by apply shed_follows_world.
  - by apply shed_follows_world.
  - by apply shed_follows_world.
  - by apply shed_follows_world.
  - by apply shed_follows_restart.
  - by apply shed_follows_stop.
  - by apply shed_follows_start.
  - by apply (shed_follows_log s0 (set_restart_attempts ∅ s)).
Qed.

(** C7: [stop_container] adds the name to [shed_services] exactly when the
    container was found running and [container.stop] returned normally, and
    leaves the set unchanged otherwise (not found, not running, stop
    raised); [start_container] removes the name exactly when the container
    was found not running and [container.start] returned normally, and
    leaves the set unchanged otherwise; and over a whole tick a name enters
    the set only with a stop that returned and leaves it only with a start
    that returned. *)
Theorem C7_shed_set_changes_with_successful_action s n reason :
  (exists r s', stop_container n reason s = (Returned r, s')
     /\ shed_services s' = (if r then {[n]} ∪ shed_services s else shed_services s)
     /\ (r = true <->
         exists c, (containers_get n (world s)).1 = Found c
                   /\ status c = "running"%string
                   /\ (container_stop n (containers_get n (world s)).2).1 = true))
  /\ (exists r s', start_container n s = (Returned r, s')
     /\ shed_services s' = (if r then shed_services s ∖ {[n]} else shed_services s)
     /\ (r = true <->
         exists c, (containers_get n (world s)).1 = Found c
                   /\ status c <> "running"%string
                   /\ (container_start n (containers_get n (world s)).2).1 = true))
  /\ (forall last_reset,
        exists new, issued s (tick cfg last_reset s).2 new /\
          forall x,
            (x ∈ shed_services (tick cfg last_reset s).2 ->
             x ∈ shed_services s \/ StopCall x true ∈ new)
            /\ (x ∈ shed_services s ->
                x ∈ shed_services (tick cfg last_reset s).2 \/ StartCall x true ∈ new)).
Proof.
  split; [|split].
  - destruct (stop_container_run n reason s) as (r & s' & Hrun & Hrel).
    exists r, s'. split; [exact Hrun|].
    destruct Hrel as [g w1 Hget Hg|c w1 Hget Hst|c w1 w2 Hget Hst Hstop|c w1 w2 Hget Hst Hstop];
      rewrite Hget; simpl; (split; [reflexivity|]).
    + split; [discriminate|]. intros (c & Hc & _). by apply Hg in Hc.
    + split; [discriminate|]. intros (c' & [= <-] & Hc & _). contradiction.
    + rewrite Hstop. split; [discriminate|]. by intros (c' & _ & _ & ?).
    + rewrite Hstop. split; [|done]. intros _. by exists c.
  - destruct (start_container_run n s) as (r & s' & Hrun & Hrel).
    exists r, s'. split; [exact Hrun|].
    destruct Hrel as [g w1 Hget Hg|c w1 Hget Hst|c w1 w2 Hget Hst Hstart|c w1 w2 Hget Hst Hstart];
      rewrite Hget; simpl; (split; [reflexivity|]).
    + split; [discriminate|]. intros (c & Hc & _). by apply Hg in Hc.
    + split; [discriminate|]. intros (c' & [= <-] & Hc & _). contradiction.
    + rewrite Hstart. split; [discriminate|]. by intros (c' & _ & _ & ?).
    + rewrite Hstart. split; [|done]. intros _. by exists c.
  - intros last_reset.
    apply (tick_keeps cfg _ (shed_follows_carried s) last_reset s (shed_follows_refl s)).
Qed.

End ShedTransactional.

(** ** The attempt budget (C4) *)

Section Budget.

Context {W : Type} {RT : Runtime W}.
Variable cfg : Config.
Implicit Types (s : Sys W) (n : string).

Lemma governor_allows_budget lr ra n now :
  governor_allows cfg lr ra n now = true ->
  default 0 (ra !! n) < MAX_RESTART_ATTEMPTS cfg.
Proof.
  unfold governor_allows. intros H. apply andb_true_iff in H as [_ H].
  apply negb_true_iff in H. unfold Z.geb in H.
  destruct (default 0 (ra !! n) ?= MAX_RESTART_ATTEMPTS cfg) eqn:E; try discriminate.
  by apply Z.compare_lt_iff.
Qed.











End Budget.



(** ** The cooldown (C3) *)

#[global] Instance sim_monotone_clock : MonotoneClock Sim.World.
Proof.
  split; simpl.
  - intros w. lia.
  - intros w. lia.
  - intros all w. unfold Sim.list_containers. destruct (Sim.down w); simpl; lia.
  - intros n w. unfold Sim.get_container. destruct (Sim.down w); simpl; [lia|].
    destruct (Sim.find_container n (Sim.containers w)); simpl; lia.
  - intros n w. unfold Sim.lifecycle. destruct (Sim.fails n w); simpl; lia.
  - intros n w. unfold Sim.lifecycle. destruct (Sim.fails n w); simpl; lia.
  - intros n w. unfold Sim.lifecycle. destruct (Sim.fails n w); simpl; lia.
  - intros secs w. unfold Sim.sleep_for, timedelta_seconds.
    destruct (Z.ltb_spec secs 0); simpl; [lia|].
    destruct (9223372036 <? secs); simpl; lia.
Qed.

Section Cooldown.

Context {W : Type} {RT : Runtime W} {MC : MonotoneClock W}.
Variable cfg : Config.
Implicit Types (s : Sys W) (n : string).















End Cooldown.



(** ** Two stressors at once (C1) *)

Section DualStressor.

Context {W : Type} {RT : Runtime W}.
Variable cfg : Config.
Implicit Types (s : Sys W) (n : string).

(** Since [s0], [container.start] was not called on [n]. *)
Lemma thermal_check_never_starts_battery_eligible hw_status s n :
  container_matches n (BATTERY_SHED_SERVICES cfg) = true ->
  exists new, issued s (check_thermal_shedding cfg hw_status s).2 new
              /\ Forall (fun e => forall ok, e <> StartCall n ok) new.
Proof.
  intros Hn.
  apply (check_thermal_shedding_keeps cfg
           (fun s' => exists new, issued s s' new
                                  /\ Forall (fun e => forall ok, e <> StartCall n ok) new)).
  - intros all s1 H. exact H.
  - intros m s1 _ (new & Hnew & Hall).
    destruct (stop_container_run m "thermal shedding" s1) as (r & s' & -> & Hrel); simpl.
    destruct Hrel; simpl; try (by exists new);
      (eexists (_ :: new); split;
       [unfold issued in *; simpl; by rewrite Hnew | by constructor]).
  - intros m s1 _ Hb (new & Hnew & Hall).
    assert (m <> n) as Hne by (intros ->; congruence).
    destruct (start_container_run m s1) as (r & s' & -> & Hrel); simpl.
    destruct Hrel; simpl; try (by exists new);
      (eexists (_ :: new); split;
       [unfold issued in *; simpl; by rewrite Hnew
       | constructor; [intros ok; congruence | done]]).
  - exists []. by split.
Qed.

End DualStressor.

(** C1, where the code departs from it: "ollama" is eligible under both
    categories and is in [shed_services]; the CPU reads 85, at or above
    [THERMAL_SHED_TEMP], so the thermal trigger is active; the battery
    reads 50 percent. [check_battery_shedding] starts "ollama" and takes it
    out of [shed_services]; and a whole tick on the same reading stops
    "ollama" for the heat and starts it again for the battery. *)
Theorem C1_battery_recovery_starts_while_thermal_active :
  container_matches "ollama" (THERMAL_SHED_SERVICES default_config) = true
  /\ container_matches "ollama" (BATTERY_SHED_SERVICES default_config) = true
  /\ "ollama"%string ∈ shed_services C1_state
  /\ Qle_bool (inject_Z (THERMAL_SHED_TEMP default_config)) (85 # 1) = true
  /\ trace (check_battery_shedding default_config C1_reading C1_state).2
     = [StartCall "ollama" true]
  /\ ~ ("ollama"%string
        ∈ shed_services (check_battery_shedding default_config C1_reading C1_state).2)
  /\ trace (tick default_config 0 C1_fresh).2
     = [StartCall "ollama" true; StopCall "ollama" true].
Proof.
  split; [vm_compute; reflexivity|].
  split; [vm_compute; reflexivity|].
  split; [apply (bool_decide_unpack _); vm_compute; exact I|].
  split; [vm_compute; reflexivity|].
  split; [vm_compute; reflexivity|].
  split; [|vm_compute; reflexivity].
  apply (bool_decide_unpack _). vm_compute. exact I.
Qed.

(** ** No data from the hw-monitor (C2) *)

(** C2, where the code departs from it: the hw-monitor cannot be reached,
    so [get_hw_status] returns the empty dict; [cpu_temp] defaults to 0,
    which is below [THERMAL_SHED_TEMP - 5], and the recovery branch of
    [check_thermal_shedding] starts the shed service "jellyfin". *)
Theorem C2_missing_temperature_starts_shed_service :
  (get_hw_status C2_state).1 = Returned empty_hw_status
  /\ trace (check_thermal_shedding C2_config empty_hw_status C2_state).2
     = [StartCall "jellyfin" true]
  /\ shed_services C2_state = {["jellyfin"%string]}
  /\ shed_services (check_thermal_shedding C2_config empty_hw_status C2_state).2 = ∅
  /\ trace (tick C2_config 0 C2_state).2 = [StartCall "jellyfin" true].
Proof.
  repeat split; vm_compute; reflexivity.
Qed.

Section NoBatteryData.

Context {W : Type} {RT : Runtime W}.
Variable cfg : Config.

(** The battery check does hold its state when there is no battery data. *)
Lemma check_battery_shedding_without_data hw_status (s : Sys W) :
  battery hw_status = None \/
  (exists b, battery hw_status = Some b /\ (percent b = None \/ percent b = Some 0)) ->
  check_battery_shedding cfg hw_status s = (Returned tt, s).
Proof.
  unfold check_battery_shedding.
  intros [->|(b & -> & [->| ->])]; reflexivity.
Qed.

End NoBatteryData.

(** ** The battery trigger (C6) *)

(** C6, where the code departs from it: the reading carries
    [percent = 0], which is at most [BATTERY_SHED_PERCENT], and the battery
    is not charging, yet the running, eligible, not yet shed "ollama" is
    not stopped, because [not battery.get("percent")] takes 0 for missing
    data; at 14 percent it is stopped. *)
Theorem C6_zero_percent_does_not_shed :
  container_matches "ollama" (BATTERY_SHED_SERVICES default_config) = true
  /\ ((0 <=? BATTERY_SHED_PERCENT default_config) && negb false) = true
  /\ check_battery_shedding default_config (C6_reading 0 false) C6_state
     = (Returned tt, C6_state)
  /\ trace (check_battery_shedding default_config (C6_reading 14 false) C6_state).2
     = [StopCall "ollama" true]
  /\ trace (check_battery_shedding default_config (C6_reading 10 true) C6_state).2
     = [].
Proof.
  repeat split; vm_compute; reflexivity.
Qed.

(** ** The simulated daemon runs the shedding passes as [thermal_pass] and
    [battery_pass] say *)

Section SimPasses.

Variable faulty : list string.
Implicit Types (s : Sys Sim.World) (n : string) (v : View).

Lemma sim_stop_container n reason s :
  daemon_up faulty s ->
  exists r s', stop_container n reason s = (Returned r, s')
               /\ view_of s' = stop_effect faulty n (view_of s)
               /\ daemon_up faulty s'.
Proof.
  intros [Hdown Hfaulty].
  unfold stop_container, try_except, client_containers_get, bind, call, read,
    modify, ret, raise, stop_effect; simpl.
  unfold Sim.get_container. rewrite Hdown.
  destruct (Sim.find_container n (Sim.containers (world s))) as [c|] eqn:Hfind; simpl.
  2: { eexists _, _. split; [reflexivity|]. by split. }
  case_bool_decide as Hst; simpl.
  2: { eexists _, _. split; [reflexivity|]. by split. }
  unfold container_stop_call; simpl. unfold Sim.lifecycle, Sim.fails; simpl.
  rewrite Hdown, Hfaulty; simpl.
  case_bool_decide as Hf; simpl; eexists _, _; (split; [reflexivity|]); by split.
Qed.

Lemma sim_start_container n s :
  daemon_up faulty s ->
  exists r s', start_container n s = (Returned r, s')
               /\ view_of s' = start_effect faulty n (view_of s)
               /\ daemon_up faulty s'.
Proof.
  intros [Hdown Hfaulty].
  unfold start_container, try_except, client_containers_get, bind, call, read,
    modify, ret, raise, start_effect; simpl.
  unfold Sim.get_container. rewrite Hdown.
  destruct (Sim.find_container n (Sim.containers (world s))) as [c|] eqn:Hfind; simpl.
  2: { eexists _, _. split; [reflexivity|]. by split. }
  case_bool_decide as Hst; simpl.
  2: { eexists _, _. split; [reflexivity|]. by split. }
  unfold container_start_call; simpl. unfold Sim.lifecycle, Sim.fails; simpl.
  rewrite Hdown, Hfaulty; simpl.
  case_bool_decide as Hf; simpl; eexists _, _; (split; [reflexivity|]); by split.
Qed.

(** A loop over the program state whose body runs as [f] on the view runs
    as the fold of [f]. *)
Lemma for_each_fold A (xs : list A) (body : A -> M Sim.World unit)
    (f : View -> A -> View) s :
  (forall x s1, daemon_up faulty s1 ->
     exists s2, body x s1 = (Returned tt, s2)
                /\ view_of s2 = f (view_of s1) x /\ daemon_up faulty s2) ->
  daemon_up faulty s ->
  exists s', for_each xs body s = (Returned tt, s')
             /\ view_of s' = fold_left f xs (view_of s) /\ daemon_up faulty s'.
Proof.
  intros Hbody. revert s. induction xs as [|x xs IH]; intros s Hs; simpl.
  - by exists s.
  - destruct (Hbody x s Hs) as (s2 & Hrun & Hview & Hs2).
    unfold bind. rewrite Hrun.
    destruct (IH s2 Hs2) as (s' & Hrun' & Hview' & Hs').
    exists s'. split; [exact Hrun'|]. split; [|exact Hs'].
    by rewrite Hview', Hview.
Qed.

Lemma sim_stop_matching patterns reason s :
  daemon_up faulty s ->
  exists s',
    (containers <- client_containers_list false ;;
     for_each containers (fun container =>
       if container_matches (name container) patterns
       then stop_container (name container) reason ;; ret tt
       else ret tt)) s = (Returned tt, s')
    /\ view_of s' = stop_pass faulty patterns (view_of s)
    /\ daemon_up faulty s'.
Proof.
  intros Hs. pose proof Hs as [Hdown Hfaulty].
  unfold bind at 1. unfold client_containers_list, bind, call, ret; simpl.
  unfold Sim.list_containers. rewrite Hdown. simpl.
  destruct (for_each_fold _ (List.filter Sim.is_running (Sim.containers (world s)))
              (fun container =>
                 if container_matches (name container) patterns
                 then stop_container (name container) reason ;; ret tt
                 else ret tt)
              (stop_step faulty patterns)
              (set_world (Sim.advance (world s)) s)) as (s' & Hrun & Hv & Hs').
  - intros c s1 Hs1. unfold stop_step.
    destruct (container_matches (name c) patterns).
    + destruct (sim_stop_container (name c) reason s1 Hs1) as (r & s2 & Hrun & Hv & Hs2).
      exists s2. unfold bind. by rewrite Hrun.
    + by exists s1.
  - by split.
  - exists s'. split; [exact Hrun|]. split; [exact Hv|exact Hs'].
Qed.

Lemma sim_start_eligible (eligible : string -> bool) (names : list string) s :
  daemon_up faulty s ->
  exists s',
    for_each names (fun service_name =>
      if eligible service_name
      then start_container service_name ;; ret tt
      else ret tt) s = (Returned tt, s')
    /\ view_of s' = fold_left (start_step faulty eligible) names (view_of s)
    /\ daemon_up faulty s'.
Proof.
  intros Hs.
  apply (for_each_fold _ _ _ (start_step faulty eligible)); [|exact Hs].
  intros n s1 Hs1. unfold start_step.
  destruct (eligible n).
  - destruct (sim_start_container n s1 Hs1) as (r & s2 & Hrun & Hv & Hs2).
    exists s2. unfold bind. by rewrite Hrun.
  - by exists s1.
Qed.

Lemma for_each_ext A (xs : list A) (body body' : A -> M Sim.World unit) s :
  (forall x s1, body x s1 = body' x s1) ->
  for_each xs body s = for_each xs body' s.
Proof.
  intros Hext. revert s. induction xs as [|x xs IH]; intros s; simpl; [done|].
  unfold bind. rewrite Hext. destruct (body' x s) as [[[]|] s1]; [apply IH|done].
Qed.

Lemma sim_check_thermal_shedding cfg hw_status s :
  daemon_up faulty s ->
  exists s', check_thermal_shedding cfg hw_status s = (Returned tt, s')
             /\ view_of s' = thermal_pass cfg faulty hw_status (view_of s)
             /\ daemon_up faulty s'.
Proof.
  intros Hs. unfold check_thermal_shedding, thermal_pass, thermal_trigger,
    thermal_recovery, cpu_temp_of.
  destruct (Qle_bool _ _); simpl.
  - by apply sim_stop_matching.
  - destruct (Qlt_bool _ _); simpl; [|by exists s].
    unfold bind at 1, read at 1.
    destruct (sim_start_eligible (thermal_only cfg) (elements (shed_services s)) s Hs)
      as (s' & Hrun & Hv & Hs').
    exists s'. split; [|by split].
    rewrite <- Hrun. apply for_each_ext. intros n s1. unfold thermal_only.
    destruct (container_matches n (THERMAL_SHED_SERVICES cfg)); [|done].
    by destruct (container_matches n (BATTERY_SHED_SERVICES cfg)).
Qed.

Lemma sim_check_battery_shedding cfg hw_status s :
  daemon_up faulty s ->
  exists s', check_battery_shedding cfg hw_status s = (Returned tt, s')
             /\ view_of s' = battery_pass cfg faulty hw_status (view_of s)
             /\ daemon_up faulty s'.
Proof.
  intros Hs. unfold check_battery_shedding, battery_pass, battery_trigger,
    battery_recovery, battery_data.
  destruct (battery hw_status) as [b|]; [|by exists s].
  destruct (truthy_int (percent b)); simpl; [|by exists s].
  destruct (_ && _); simpl.
  - by apply sim_stop_matching.
  - destruct (_ || _); simpl; [|by exists s].
    unfold bind at 1, read at 1.
    by apply sim_start_eligible.
Qed.

End SimPasses.

(** ** Thermal hysteresis on the simulated daemon (C5) *)

Section SimLookup.

Implicit Types (n m st : string) (cs : list Container).

Lemma find_container_name n cs c :
  Sim.find_container n cs = Some c -> name c = n /\ In c cs.
Proof.
  unfold Sim.find_container. intros H. apply find_some in H as [Hin Hn].
  split; [|exact Hin]. by apply bool_decide_eq_true in Hn.
Qed.

Lemma find_set_status_same n st cs c :
  Sim.find_container n cs = Some c ->
  exists c', Sim.find_container n (Sim.set_status n st cs) = Some c' /\ status c' = st.
Proof.
  unfold Sim.find_container, Sim.set_status.
  induction cs as [|x cs IH]; simpl; [discriminate|].
  destruct (bool_decide (name x = n)) eqn:Hx; simpl.
  - intros _. rewrite Hx. by eexists.
  - rewrite Hx. exact IH.
Qed.

Lemma find_set_status_other n m st cs :
  n <> m -> Sim.find_container n (Sim.set_status m st cs) = Sim.find_container n cs.
Proof.
  intros Hne. unfold Sim.find_container, Sim.set_status.
  induction cs as [|x cs IH]; simpl; [done|].
  destruct (bool_decide (name x = m)) eqn:Hxm; simpl.
  - apply bool_decide_eq_true in Hxm.
    rewrite !bool_decide_eq_false_2 by congruence. exact IH.
  - destruct (bool_decide (name x = n)); [done|exact IH].
Qed.

Lemma find_in_running n cs c :
  Sim.find_container n cs = Some c -> status c = "running"%string ->
  In c (List.filter Sim.is_running cs).
Proof.
  intros Hfind Hst. apply find_container_name in Hfind as [_ Hin].
  apply filter_In. split; [exact Hin|]. unfold Sim.is_running.
  by apply bool_decide_eq_true.
Qed.

End SimLookup.

Section SimHysteresis.

Variable faulty : list string.
Variable tr0 : list event.
Variable n : string.
Hypothesis n_works : n ∉ faulty.
Implicit Types (v : View) (m : string).

Lemma extends_cons e v cs sh :
  extends tr0 v -> extends tr0 (mkView cs sh (e :: v_trace v)).
Proof. intros (new & Hnew). exists (e :: new). simpl. by rewrite Hnew. Qed.

Lemma has_status_other_set m st st' v sh tr :
  n <> m -> has_status n st v ->
  has_status n st (mkView (Sim.set_status m st' (v_containers v)) sh tr).
Proof.
  intros Hne (c & Hc & Hst). exists c. simpl. by rewrite find_set_status_other.
Qed.

(** *** The stop pass *)

Lemma stop_effect_extends m v : extends tr0 v -> extends tr0 (stop_effect faulty m v).
Proof.
  intros Hv. unfold stop_effect.
  destruct (Sim.find_container m (v_containers v)); [|done].
  case_bool_decide; [|done]. case_bool_decide; by apply extends_cons.
Qed.

Lemma stop_effect_keeps_shed m v :
  shed_by_stop tr0 n v -> shed_by_stop tr0 n (stop_effect faulty m v).
Proof.
  intros Hv. pose proof Hv as (Hin & (new & Hnew & Hev) & Hst). unfold stop_effect.
  destruct (Sim.find_container m (v_containers v)) as [c|] eqn:Hfind; [|exact Hv].
  case_bool_decide as Hrun; [|exact Hv].
  assert (n <> m) as Hne.
  { intros ->. destruct Hst as (c' & Hc' & Hex). rewrite Hfind in Hc'.
    injection Hc' as <-. rewrite Hrun in Hex. discriminate. }
  case_bool_decide; (split; [|split]); simpl.
  - exact Hin.
  - exists (StopCall m false :: new). rewrite Hnew. split; [done|].
    by apply list_elem_of_further.
  - exact Hst.
  - apply elem_of_union. by right.
  - exists (StopCall m true :: new). rewrite Hnew. split; [done|].
    by apply list_elem_of_further.
  - by apply has_status_other_set.
Qed.

Lemma stop_effect_sheds v :
  extends tr0 v -> has_status n "running" v ->
  shed_by_stop tr0 n (stop_effect faulty n v).
Proof.
  intros (new & Hnew) (c & Hc & Hst). unfold stop_effect. rewrite Hc.
  rewrite bool_decide_eq_true_2 by done. rewrite bool_decide_eq_false_2 by done.
  split; [|split]; simpl.
  - apply elem_of_union. left. by apply elem_of_singleton.
  - exists (StopCall n true :: new). rewrite Hnew. split; [done|]. apply list_elem_of_here.
  - by eapply find_set_status_same.
Qed.

Lemma stop_effect_keeps_running m v :
  n <> m -> has_status n "running" v -> has_status n "running" (stop_effect faulty m v).
Proof.
  intros Hne Hst. unfold stop_effect.
  destruct (Sim.find_container m (v_containers v)); [|done].
  case_bool_decide; [|done]. case_bool_decide; [done|].
  by apply has_status_other_set.
Qed.

Lemma stop_fold_keeps_shed patterns cs v :
  shed_by_stop tr0 n v ->
  shed_by_stop tr0 n (fold_left (stop_step faulty patterns) cs v).
Proof.
  revert v. induction cs as [|c cs IH]; intros v Hv; simpl; [done|].
  apply IH. unfold stop_step. destruct (container_matches _ _); [|done].
  by apply stop_effect_keeps_shed.
Qed.

Lemma stop_fold_sheds patterns cs v :
  container_matches n patterns = true ->
  (exists c, In c cs /\ name c = n) ->
  extends tr0 v -> has_status n "running" v ->
  shed_by_stop tr0 n (fold_left (stop_step faulty patterns) cs v).
Proof.
  intros Hm. revert v. induction cs as [|c cs IH]; intros v (c0 & Hin & Hname) Hext Hrun.
  - destruct Hin.
  - simpl. unfold stop_step at 2.
    destruct (decide (name c = n)) as [Hc|Hc].
    + rewrite Hc, Hm. apply stop_fold_keeps_shed. by apply stop_effect_sheds.
    + destruct Hin as [->|Hin]; [contradiction|].
      apply IH; [by exists c0| |].
      * destruct (container_matches (name c) patterns);
          [by apply stop_effect_extends|done].
      * destruct (container_matches (name c) patterns); [|done].
        apply stop_effect_keeps_running; [congruence|done].
Qed.

Lemma stop_pass_sheds patterns v :
  container_matches n patterns = true ->
  v_trace v = tr0 ->
  has_status n "running" v ->
  shed_by_stop tr0 n (stop_pass faulty patterns v).
Proof.
  intros Hm Htr Hrun. unfold stop_pass. apply stop_fold_sheds; try done.
  - destruct Hrun as (c & Hc & Hst). exists c. split.
    + by apply find_in_running with n.
    + by apply find_container_name in Hc as [? _].
  - exists []. by rewrite Htr.
Qed.

(** *** The start pass *)

Lemma start_effect_extends m v : extends tr0 v -> extends tr0 (start_effect faulty m v).
Proof.
  intros Hv. unfold start_effect.
  destruct (Sim.find_container m (v_containers v)); [|done].
  case_bool_decide; [|done]. case_bool_decide; by apply extends_cons.
Qed.

Lemma start_effect_keeps_unshed m v :
  unshed_by_start tr0 n v -> unshed_by_start tr0 n (start_effect faulty m v).
Proof.
  intros Hv. pose proof Hv as (Hin & (new & Hnew & Hev) & Hst). unfold start_effect.
  destruct (Sim.find_container m (v_containers v)) as [c|] eqn:Hfind; [|exact Hv].
  case_bool_decide as Hrun; [|exact Hv].
  assert (n <> m) as Hne.
  { intros ->. destruct Hst as (c' & Hc' & Hex). rewrite Hfind in Hc'.
    injection Hc' as <-. contradiction. }
  case_bool_decide; (split; [|split]); simpl.
  - exact Hin.
  - exists (StartCall m false :: new). rewrite Hnew. split; [done|].
    by apply list_elem_of_further.
  - exact Hst.
  - intros Hd. apply elem_of_difference in Hd as [Hd _]. contradiction.
  - exists (StartCall m true :: new). rewrite Hnew. split; [done|].
    by apply list_elem_of_further.
  - by apply has_status_other_set.
Qed.

Lemma start_effect_unsheds v :
  extends tr0 v ->
  (exists c, Sim.find_container n (v_containers v) = Some c /\ status c <> "running"%string) ->
  unshed_by_start tr0 n (start_effect faulty n v).
Proof.
  intros (new & Hnew) (c & Hc & Hst). unfold start_effect. rewrite Hc.
  rewrite bool_decide_eq_true_2 by done. rewrite bool_decide_eq_false_2 by done.
  split; [|split]; simpl.
  - intros Hd. apply elem_of_difference in Hd as [_ Hd]. apply Hd. by apply elem_of_singleton.
  - exists (StartCall n true :: new). rewrite Hnew. split; [done|]. apply list_elem_of_here.
  - by eapply find_set_status_same.
Qed.

Lemma start_effect_keeps_stopped m v :
  n <> m ->
  (exists c, Sim.find_container n (v_containers v) = Some c /\ status c <> "running"%string) ->
  exists c, Sim.find_container n (v_containers (start_effect faulty m v)) = Some c
            /\ status c <> "running"%string.
Proof.
  intros Hne (c & Hc & Hst). unfold start_effect.
  destruct (Sim.find_container m (v_containers v)); [|by exists c].
  case_bool_decide; [|by exists c]. case_bool_decide; [by exists c|].
  exists c. simpl. by rewrite find_set_status_other.
Qed.

Lemma start_fold_keeps_unshed eligible names v :
  unshed_by_start tr0 n v ->
  unshed_by_start tr0 n (fold_left (start_step faulty eligible) names v).
Proof.
  revert v. induction names as [|m names IH]; intros v Hv; simpl; [done|].
  apply IH. unfold start_step. destruct (eligible m); [|done].
  by apply start_effect_keeps_unshed.
Qed.

Lemma start_fold_unsheds eligible names v :
  eligible n = true ->
  In n names ->
  extends tr0 v ->
  (exists c, Sim.find_container n (v_containers v) = Some c /\ status c <> "running"%string) ->
  unshed_by_start tr0 n (fold_left (start_step faulty eligible) names v).
Proof.
  intros He. revert v. induction names as [|m names IH]; intros v Hin Hext Hst.
  - destruct Hin.
  - simpl. unfold start_step at 2.
    destruct (decide (m = n)) as [->|Hm].
    + rewrite He. apply start_fold_keeps_unshed. by apply start_effect_unsheds.
    + destruct Hin as [->|Hin]; [contradiction|].
      apply IH; [done| |].
      * destruct (eligible m); [by apply start_effect_extends|done].
      * destruct (eligible m); [|done].
        apply start_effect_keeps_stopped; [congruence|done].
Qed.

Lemma start_pass_unsheds eligible v :
  eligible n = true ->
  v_trace v = tr0 ->
  n ∈ v_shed v ->
  (exists c, Sim.find_container n (v_containers v) = Some c /\ status c <> "running"%string) ->
  unshed_by_start tr0 n (start_pass faulty eligible v).
Proof.
  intros He Htr Hin Hst. unfold start_pass. apply start_fold_unsheds; try done.
  - apply list_elem_of_In. by apply elem_of_elements.
  - exists []. by rewrite Htr.
Qed.

Lemma start_effect_keeps_shed m v :
  m <> n -> kept_shed tr0 n v -> kept_shed tr0 n (start_effect faulty m v).
Proof.
  intros Hne Hv. pose proof Hv as (Hin & new & Hnew & Hall). unfold start_effect.
  destruct (Sim.find_container m (v_containers v)); [|exact Hv].
  case_bool_decide; [|exact Hv].
  case_bool_decide; split; simpl.
  - exact Hin.
  - exists (StartCall m false :: new). rewrite Hnew. split; [done|].
    constructor; [|exact Hall]. intros ok. congruence.
  - apply elem_of_difference. split; [exact Hin|].
    intros Hs. apply elem_of_singleton in Hs. congruence.
  - exists (StartCall m true :: new). rewrite Hnew. split; [done|].
    constructor; [|exact Hall]. intros ok. congruence.
Qed.

Lemma start_fold_skips eligible names v :
  eligible n = false ->
  kept_shed tr0 n v ->
  kept_shed tr0 n (fold_left (start_step faulty eligible) names v).
Proof.
  intros He. revert v. induction names as [|m names IH]; intros v Hv; simpl; [done|].
  apply IH. unfold start_step. destruct (eligible m) eqn:Hm; [|done].
  apply start_effect_keeps_shed; [congruence|done].
Qed.

End SimHysteresis.

Section ThermalBands.

Context {W : Type} {RT : Runtime W}.
Variable cfg : Config.

(** Between the recovery level and the trigger level the thermal check
    does nothing at all. *)
Lemma check_thermal_shedding_band hw_status (s : Sys W) :
  thermal_trigger cfg hw_status = false ->
  thermal_recovery cfg hw_status = false ->
  check_thermal_shedding cfg hw_status s = (Returned tt, s).
Proof.
  unfold thermal_trigger, thermal_recovery, cpu_temp_of, check_thermal_shedding.
  by intros -> ->.
Qed.

End ThermalBands.

(** The thermal check alone, with the threshold at 80, on a thermal-eligible
    service that is running on a reachable daemon and whose lifecycle calls
    work: the check at 81 degrees stops it and adds it to [shed_services];
    the checks at 78 and at 76 degrees change nothing at all; the check at
    74 degrees starts it and removes it from [shed_services] when its name
    matches no battery-shed pattern, and leaves it shed, calling no start,
    when it does. *)
Lemma thermal_check_over_the_readings (cfg : Config) (s : Sys Sim.World) (n : string)
    (b81 b78 b76 b74 : option BatteryDict) :
  THERMAL_SHED_TEMP cfg = 80 ->
  Sim.down (world s) = false ->
  n ∉ Sim.faulty (world s) ->
  container_matches n (THERMAL_SHED_SERVICES cfg) = true ->
  has_status n "running" (view_of s) ->
  let s1 := (check_thermal_shedding cfg (reading 81 b81) s).2 in
  let s2 := (check_thermal_shedding cfg (reading 78 b78) s1).2 in
  let s3 := (check_thermal_shedding cfg (reading 76 b76) s2).2 in
  let s4 := (check_thermal_shedding cfg (reading 74 b74) s3).2 in
  (n ∈ shed_services s1 /\ exists new, issued s s1 new /\ StopCall n true ∈ new)
  /\ s2 = s1 /\ s3 = s2
  /\ (if container_matches n (BATTERY_SHED_SERVICES cfg)
      then n ∈ shed_services s4
           /\ exists new, issued s3 s4 new
                          /\ Forall (fun e => forall ok, e <> StartCall n ok) new
      else (n ∉ shed_services s4)
           /\ exists new, issued s3 s4 new /\ StartCall n true ∈ new).
Proof.
  intros HT Hdown Hworks Hmatch Hrun s1 s2 s3 s4.
  set (faulty := Sim.faulty (world s)) in *.
  assert (daemon_up faulty s) as Hup by done.
  destruct (sim_check_thermal_shedding faulty cfg (reading 81 b81) s Hup)
    as (s1' & Hrun1 & Hv1 & Hup1).
  assert (s1 = s1') as Hs1 by (unfold s1; by rewrite Hrun1).
  assert (shed_by_stop (trace s) n (view_of s1)) as (Hin1 & Hev1 & Hst1).
  { rewrite Hs1, Hv1. unfold thermal_pass, thermal_trigger, cpu_temp_of. rewrite HT.
    simpl. by apply stop_pass_sheds. }
  assert (s2 = s1) as Hs2.
  { unfold s2. rewrite check_thermal_shedding_band; [done| |];
      unfold thermal_trigger, thermal_recovery, cpu_temp_of; by rewrite HT. }
  assert (s3 = s2) as Hs3.
  { unfold s3. rewrite check_thermal_shedding_band; [done| |];
      unfold thermal_trigger, thermal_recovery, cpu_temp_of; by rewrite HT. }
  split; [split; [exact Hin1|exact Hev1]|]. split; [exact Hs2|]. split; [exact Hs3|].
  assert (daemon_up faulty s3) as Hup3 by (by rewrite Hs3, Hs2, Hs1).
  destruct (sim_check_thermal_shedding faulty cfg (reading 74 b74) s3 Hup3)
    as (s4' & Hrun4 & Hv4 & Hup4).
  assert (s4 = s4') as Hs4 by (unfold s4; by rewrite Hrun4).
  assert (view_of s4 = start_pass faulty (thermal_only cfg) (view_of s3)) as Hv4'.
  { rewrite Hs4, Hv4. unfold thermal_pass, thermal_trigger, thermal_recovery, cpu_temp_of.
    by rewrite HT. }
  assert (n ∈ shed_services s3) as Hin3 by (by rewrite Hs3, Hs2).
  destruct (container_matches n (BATTERY_SHED_SERVICES cfg)) eqn:Hbat.
  - assert (kept_shed (trace s3) n (view_of s4)) as [Hin4 Hev4].
    { rewrite Hv4'. unfold start_pass. apply start_fold_skips.
      - exact Hworks.
      - unfold thermal_only. by rewrite Hmatch, Hbat.
      - split; [exact Hin3|]. exists []. by split. }
    by split.
  - assert (unshed_by_start (trace s3) n (view_of s4)) as (Hin4 & Hev4 & _).
    { rewrite Hv4'. apply start_pass_unsheds; try done.
      - unfold thermal_only. by rewrite Hmatch, Hbat.
      - destruct Hst1 as (c & Hc & Hex). exists c. rewrite Hs3, Hs2.
        split; [exact Hc|]. by rewrite Hex. }
    by split.
Qed.

(** ** Thermal recovery under the default lists (C5) *)

Lemma container_matches_app n ps qs :
  container_matches n (ps ++ qs)
  = container_matches n ps || container_matches n qs.
Proof. unfold container_matches. apply existsb_app. Qed.

Lemma default_thermal_is_battery n :
  container_matches n (THERMAL_SHED_SERVICES default_config) = true ->
  container_matches n (BATTERY_SHED_SERVICES default_config) = true.
Proof.
  intros Hn.
  change (BATTERY_SHED_SERVICES default_config)
    with (THERMAL_SHED_SERVICES default_config ++ ["openwebui"%string]).
  by rewrite container_matches_app, Hn.
Qed.

Lemma default_thermal_check_never_starts {W : Type} {RT : Runtime W}
    hw_status (s : Sys W) :
  exists new, issued s (check_thermal_shedding default_config hw_status s).2 new
              /\ Forall (fun e => forall m ok, e <> StartCall m ok) new.
Proof.
  apply (check_thermal_shedding_keeps default_config
           (fun s' => exists new, issued s s' new
                        /\ Forall (fun e => forall m ok, e <> StartCall m ok) new)).
  - intros all s1 H. exact H.
  - intros m s1 _ (new & Hnew & Hall).
    destruct (stop_container_run m "thermal shedding" s1) as (r & s' & -> & Hrel); simpl.
    destruct Hrel; simpl; try (by exists new);
      (eexists (_ :: new); split;
       [unfold issued in *; simpl; by rewrite Hnew | by constructor]).
  - intros m s1 Ht Hb. apply default_thermal_is_battery in Ht. congruence.
  - exists []. by split.
Qed.

(** C5: the code does not do what the claim says at 74 degrees.  Under the
    default lists every name that matches a thermal-shed pattern matches a
    battery-shed pattern, and the recovery branch of the thermal check skips
    every such name, whether battery shedding is triggered or not: so under
    the defaults the thermal check never calls [container.start], whatever
    the reading, the state and the runtime.  On a device without battery
    data, whole turns of the loop at 81, 78, 76 and 74 degrees stop
    "ollama" at 81 and leave it stopped and shed at 74, and at any
    temperature after, although nothing triggers battery shedding. *)
Theorem C5_thermal_recovery_never_restarts_by_default :
  (forall n,
     container_matches n (THERMAL_SHED_SERVICES default_config) = true ->
     container_matches n (BATTERY_SHED_SERVICES default_config) = true)
  /\ (forall (W : Type) (RT : Runtime W) hw_status (s : Sys W),
        exists new,
          issued s (check_thermal_shedding default_config hw_status s).2 new
          /\ Forall (fun e => forall m ok, e <> StartCall m ok) new)
  /\ THERMAL_SHED_TEMP default_config = 80
  /\ container_matches "ollama" (THERMAL_SHED_SERVICES default_config) = true
  /\ has_status "ollama" "running" (view_of C5_state)
  /\ trace (C5_ticks [81]) = [StopCall "ollama" true]
  /\ shed_services (C5_ticks [81]) = {["ollama"%string]}
  /\ view_of (C5_ticks [81; 78; 76]) = view_of (C5_ticks [81])
  /\ thermal_recovery default_config (reading 74 None) = true
  /\ battery_trigger default_config (reading 74 None) = false
  /\ view_of (C5_ticks [81; 78; 76; 74]) = view_of (C5_ticks [81])
  /\ has_status "ollama" "exited" (view_of (C5_ticks [81; 78; 76; 74]))
  /\ view_of (C5_ticks [81; 78; 76; 74; 60; 40]) = view_of (C5_ticks [81]).
Proof.
  split; [exact default_thermal_is_battery|].
  split; [intros W RT hw_status s; apply default_thermal_check_never_starts|].
  split; [reflexivity|].
  split; [vm_compute; reflexivity|].
  split; [eexists; split; vm_compute; reflexivity|].
  split; [vm_compute; reflexivity|].
  split; [vm_compute; reflexivity|].
  split; [vm_compute; reflexivity|].
  split; [vm_compute; reflexivity|].
  split; [vm_compute; reflexivity|].
  split; [vm_compute; reflexivity|].
  split; [eexists; split; vm_compute; reflexivity|].
  vm_compute; reflexivity.
Qed.

(** ** The battery trigger away from zero percent

    What the battery check does when the trigger test is reached: with the
    test true it sheds every running eligible service whose calls work, with
    the test false it stops nothing.  The test is reached for every
    [percent] but 0 and absent, which is where C6 fails. *)

Section BatteryTrigger.

Variable cfg : Config.

Lemma battery_trigger_spec hw_status :
  battery_trigger cfg hw_status = true <->
  exists b p, battery hw_status = Some b /\ percent b = Some p /\ p <> 0
              /\ p <= BATTERY_SHED_PERCENT cfg
              /\ default false (charging b) = false.
Proof.
  unfold battery_trigger, battery_data. split.
  - destruct (battery hw_status) as [b|]; [|discriminate].
    destruct (percent b) as [p|] eqn:Hp; simpl; [|discriminate].
    destruct (p =? 0) eqn:Hz; simpl; [discriminate|].
    intros H. apply andb_true_iff in H as [Hle Hch].
    exists b, p. split; [done|]. split; [done|].
    split; [by apply Z.eqb_neq|]. split; [by apply Z.leb_le|].
    by apply negb_true_iff.
  - intros (b & p & -> & Hp & Hz & Hle & Hch). rewrite Hp. simpl.
    apply Z.eqb_neq in Hz. rewrite Hz. simpl. rewrite Hch.
    apply Z.leb_le in Hle. by rewrite Hle.
Qed.

Lemma battery_trigger_sheds hw_status (s : Sys Sim.World) n :
  battery_trigger cfg hw_status = true ->
  Sim.down (world s) = false ->
  n ∉ Sim.faulty (world s) ->
  container_matches n (BATTERY_SHED_SERVICES cfg) = true ->
  has_status n "running" (view_of s) ->
  shed_by_stop (trace s) n (view_of (check_battery_shedding cfg hw_status s).2).
Proof.
  intros Htrig Hdown Hworks Hmatch Hrun.
  destruct (sim_check_battery_shedding (Sim.faulty (world s)) cfg hw_status s)
    as (s' & Hrun' & Hv & _); [done|].
  rewrite Hrun'. simpl. rewrite Hv. unfold battery_pass. rewrite Htrig.
  by apply stop_pass_sheds.
Qed.

Lemma no_battery_trigger_stops_nothing {W : Type} {RT : Runtime W}
    hw_status (s : Sys W) :
  battery_trigger cfg hw_status = false ->
  exists new, issued s (check_battery_shedding cfg hw_status s).2 new
              /\ Forall (fun e => forall m ok, e <> StopCall m ok) new.
Proof.
  unfold battery_trigger, battery_data, check_battery_shedding.
  destruct (battery hw_status) as [b|]; [|by exists []].
  destruct (truthy_int (percent b)); simpl; [|by exists []].
  intros ->. destruct (_ || _); [|by exists []].
  unfold bind at 1, read at 1.
  apply (start_eligible_keeps
           (fun s' => exists new, issued s s' new
                        /\ Forall (fun e => forall m ok, e <> StopCall m ok) new)).
  - intros m s1 _ (new & Hnew & Hall).
    destruct (start_container_run m s1) as (r & s2 & -> & Hrel); simpl.
    destruct Hrel; simpl; try (by exists new);
      (eexists (_ :: new); split;
       [unfold issued in *; simpl; by rewrite Hnew | by constructor]).
  - exists []. by split.
Qed.

End BatteryTrigger.

(** ** A second tick on the simulated daemon (C10) *)

Section SimQuiet.

Variable faulty : list string.
Implicit Types (v : View) (n m : string).

Lemma unchanged_refl v : unchanged faulty v v.
Proof. split; [done|]. split; [done|]. exists []. by split. Qed.

Lemma unchanged_trans v1 v2 v3 : unchanged faulty v1 v2 -> unchanged faulty v2 v3 -> unchanged faulty v1 v3.
Proof.
  intros (Hc1 & Hs1 & new1 & Ht1 & Hf1) (Hc2 & Hs2 & new2 & Ht2 & Hf2).
  split; [congruence|]. split; [congruence|].
  exists (new2 ++ new1). split.
  - rewrite Ht2, Ht1. by rewrite app_assoc.
  - by apply Forall_app.
Qed.

Lemma stop_quiet_same patterns v v' :
  v_containers v' = v_containers v -> stop_quiet faulty patterns v ->
  stop_quiet faulty patterns v'.
Proof. intros Hc Hq n c. rewrite Hc. apply Hq. Qed.

Lemma start_quiet_same eligible v v' :
  v_containers v' = v_containers v -> v_shed v' = v_shed v ->
  start_quiet faulty eligible v -> start_quiet faulty eligible v'.
Proof. intros Hc Hs Hq n c. rewrite Hc, Hs. apply Hq. Qed.

(** *** How the two effects act on the two conditions *)

Lemma stop_effect_stop_quiet patterns m v :
  stop_quiet faulty patterns v -> stop_quiet faulty patterns (stop_effect faulty m v).
Proof.
  intros Hq. unfold stop_effect.
  destruct (Sim.find_container m (v_containers v)) as [c0|] eqn:Hfind; [|exact Hq].
  case_bool_decide; [|exact Hq]. case_bool_decide; [exact Hq|].
  intros n c Hm Hw. simpl. destruct (decide (n = m)) as [->|Hne].
  - intros Hc. destruct (find_set_status_same m "exited" _ _ Hfind) as (c' & Hc' & Hst).
    rewrite Hc in Hc'. injection Hc' as <-. by rewrite Hst.
  - rewrite find_set_status_other by done. by apply Hq.
Qed.

Lemma stop_effect_start_quiet eligible m v :
  eligible m = false ->
  start_quiet faulty eligible v -> start_quiet faulty eligible (stop_effect faulty m v).
Proof.
  intros Hm Hq. unfold stop_effect.
  destruct (Sim.find_container m (v_containers v)) as [c0|] eqn:Hfind; [|exact Hq].
  case_bool_decide; [|exact Hq]. case_bool_decide; [exact Hq|].
  intros n c Hin He Hw. simpl in *.
  assert (n <> m) as Hne by congruence.
  rewrite find_set_status_other by done.
  apply Hq; try done. apply elem_of_union in Hin as [Hin|Hin]; [|done].
  apply elem_of_singleton in Hin. contradiction.
Qed.

Lemma start_effect_start_quiet eligible m v :
  start_quiet faulty eligible v -> start_quiet faulty eligible (start_effect faulty m v).
Proof.
  intros Hq. unfold start_effect.
  destruct (Sim.find_container m (v_containers v)) as [c0|] eqn:Hfind; [|exact Hq].
  case_bool_decide; [|exact Hq]. case_bool_decide; [exact Hq|].
  intros n c Hin He Hw. simpl in *.
  apply elem_of_difference in Hin as [Hin Hne].
  assert (n <> m) as Hne' by (intros ->; apply Hne; by apply elem_of_singleton).
  rewrite find_set_status_other by done. by apply Hq.
Qed.

Lemma stop_fold_stop_quiet patterns patterns' cs v :
  stop_quiet faulty patterns v ->
  stop_quiet faulty patterns (fold_left (stop_step faulty patterns') cs v).
Proof.
  revert v. induction cs as [|c cs IH]; intros v Hq; simpl; [done|].
  apply IH. unfold stop_step. destruct (container_matches _ patterns'); [|done].
  by apply stop_effect_stop_quiet.
Qed.

Lemma stop_fold_start_quiet eligible patterns cs v :
  (forall m, container_matches m patterns = true -> eligible m = false) ->
  start_quiet faulty eligible v ->
  start_quiet faulty eligible (fold_left (stop_step faulty patterns) cs v).
Proof.
  intros Hdis. revert v. induction cs as [|c cs IH]; intros v Hq; simpl; [done|].
  apply IH. unfold stop_step. destruct (container_matches _ patterns) eqn:Hm; [|done].
  apply stop_effect_start_quiet; [by apply Hdis|done].
Qed.

Lemma start_fold_start_quiet eligible eligible' names v :
  start_quiet faulty eligible v ->
  start_quiet faulty eligible (fold_left (start_step faulty eligible') names v).
Proof.
  revert v. induction names as [|m names IH]; intros v Hq; simpl; [done|].
  apply IH. unfold start_step. destruct (eligible' m); [|done].
  by apply start_effect_start_quiet.
Qed.

(** *** A pass on a quiet daemon changes nothing *)

Lemma stop_effect_unchanged patterns m v :
  container_matches m patterns = true ->
  stop_quiet faulty patterns v -> unchanged faulty v (stop_effect faulty m v).
Proof.
  intros Hm Hq. unfold stop_effect.
  destruct (Sim.find_container m (v_containers v)) as [c0|] eqn:Hfind;
    [|apply unchanged_refl].
  case_bool_decide as Hrun; [|apply unchanged_refl].
  case_bool_decide as Hf.
  - split; [done|]. split; [done|]. exists [StopCall m false]. split; [done|].
    constructor; [|constructor]. by split.
  - exfalso. by apply (Hq m c0).
Qed.

Lemma stop_fold_unchanged patterns cs v :
  stop_quiet faulty patterns v ->
  unchanged faulty v (fold_left (stop_step faulty patterns) cs v).
Proof.
  revert v. induction cs as [|c cs IH]; intros v Hq; simpl; [apply unchanged_refl|].
  assert (unchanged faulty v (stop_step faulty patterns v c)) as Hstep.
  { unfold stop_step. destruct (container_matches _ patterns) eqn:Hm;
      [by apply (stop_effect_unchanged patterns) | apply unchanged_refl]. }
  eapply unchanged_trans; [exact Hstep|]. apply IH.
  destruct Hstep as (Hc & _). by eapply stop_quiet_same.
Qed.

Lemma start_effect_unchanged eligible m v :
  eligible m = true -> m ∈ v_shed v ->
  start_quiet faulty eligible v -> unchanged faulty v (start_effect faulty m v).
Proof.
  intros Hm Hin Hq. unfold start_effect.
  destruct (Sim.find_container m (v_containers v)) as [c0|] eqn:Hfind;
    [|apply unchanged_refl].
  case_bool_decide as Hrun; [|apply unchanged_refl].
  case_bool_decide as Hf.
  - split; [done|]. split; [done|]. exists [StartCall m false]. split; [done|].
    constructor; [|constructor]. by split.
  - exfalso. apply Hrun. by apply (Hq m c0).
Qed.

Lemma start_fold_unchanged eligible names v :
  (forall m, In m names -> m ∈ v_shed v) ->
  start_quiet faulty eligible v ->
  unchanged faulty v (fold_left (start_step faulty eligible) names v).
Proof.
  revert v. induction names as [|m names IH]; intros v Hin Hq; simpl;
    [apply unchanged_refl|].
  assert (unchanged faulty v (start_step faulty eligible v m)) as Hstep.
  { unfold start_step. destruct (eligible m) eqn:Hm; [|apply unchanged_refl].
    apply (start_effect_unchanged eligible); [done| |done]. apply Hin. by left. }
  eapply unchanged_trans; [exact Hstep|].
  destruct Hstep as (Hc & Hs & _). apply IH.
  - intros m' Hm'. rewrite Hs. apply Hin. by right.
  - by eapply start_quiet_same.
Qed.

(** *** A pass leaves the daemon quiet for the same pass *)

Lemma stop_effect_not_running m v n :
  not_running n v -> not_running n (stop_effect faulty m v).
Proof.
  intros Hq. unfold stop_effect.
  destruct (Sim.find_container m (v_containers v)) as [c0|] eqn:Hfind; [|exact Hq].
  case_bool_decide; [|exact Hq]. case_bool_decide; [exact Hq|].
  intros c. simpl. destruct (decide (n = m)) as [->|Hne].
  - intros Hc. destruct (find_set_status_same m "exited" _ _ Hfind) as (c' & Hc' & Hst).
    rewrite Hc in Hc'. injection Hc' as <-. by rewrite Hst.
  - rewrite find_set_status_other by done. apply Hq.
Qed.

Lemma stop_effect_stops n v :
  n ∉ faulty -> not_running n (stop_effect faulty n v).
Proof.
  intros Hw. unfold stop_effect.
  destruct (Sim.find_container n (v_containers v)) as [c0|] eqn:Hfind.
  - case_bool_decide as Hrun.
    + rewrite bool_decide_eq_false_2 by done. intros c Hc. simpl in Hc.
      destruct (find_set_status_same n "exited" _ _ Hfind) as (c' & Hc' & Hst).
      rewrite Hc in Hc'. injection Hc' as <-. by rewrite Hst.
    + intros c Hc. rewrite Hfind in Hc. by injection Hc as <-.
  - intros c Hc. rewrite Hfind in Hc. discriminate.
Qed.

Lemma stop_effect_running_back m v n :
  has_status n "running" (stop_effect faulty m v) -> has_status n "running" v.
Proof.
  unfold stop_effect.
  destruct (Sim.find_container m (v_containers v)) as [c0|] eqn:Hfind; [|done].
  case_bool_decide; [|done]. case_bool_decide; [done|].
  intros (c & Hc & Hst). simpl in Hc. destruct (decide (n = m)) as [->|Hne].
  - destruct (find_set_status_same m "exited" _ _ Hfind) as (c' & Hc' & Hst').
    rewrite Hc in Hc'. injection Hc' as <-. rewrite Hst in Hst'. discriminate.
  - rewrite find_set_status_other in Hc by done. by exists c.
Qed.

Lemma stop_fold_not_running patterns cs v n :
  not_running n v -> not_running n (fold_left (stop_step faulty patterns) cs v).
Proof.
  revert v. induction cs as [|c cs IH]; intros v Hq; simpl; [done|].
  apply IH. unfold stop_step. destruct (container_matches _ patterns); [|done].
  by apply stop_effect_not_running.
Qed.

Lemma stop_fold_settles patterns cs v n :
  container_matches n patterns = true -> n ∉ faulty ->
  (has_status n "running" v -> exists c, In c cs /\ name c = n) ->
  not_running n (fold_left (stop_step faulty patterns) cs v).
Proof.
  intros Hm Hw. revert v. induction cs as [|c cs IH]; intros v Hcov; simpl.
  - intros c Hc. destruct (decide (status c = "running"%string)) as [Hst|Hst]; [|done].
    destruct Hcov as (c' & [] & _). by exists c.
  - unfold stop_step at 2. destruct (decide (name c = n)) as [Hc|Hc].
    + rewrite Hc, Hm. apply stop_fold_not_running. by apply stop_effect_stops.
    + apply IH. intros Hrun.
      assert (has_status n "running" v) as Hrun'.
      { destruct (container_matches (name c) patterns); [|done].
        by eapply stop_effect_running_back. }
      destruct (Hcov Hrun') as (c' & [->|Hin] & Hn); [contradiction|].
      by exists c'.
Qed.

Lemma stop_pass_settles patterns v :
  stop_quiet faulty patterns (stop_pass faulty patterns v).
Proof.
  intros n c Hm Hw. unfold stop_pass. apply stop_fold_settles; try done.
  intros (c0 & Hc0 & Hst). exists c0. split.
  - by apply find_in_running with n.
  - by apply find_container_name in Hc0 as [? _].
Qed.

Lemma start_effect_settled_keeps m v n :
  settled n v -> settled n (start_effect faulty m v).
Proof.
  intros Hq. unfold start_effect.
  destruct (Sim.find_container m (v_containers v)) as [c0|] eqn:Hfind; [|exact Hq].
  case_bool_decide; [|exact Hq]. case_bool_decide; [exact Hq|].
  intros Hin c. simpl in *. apply elem_of_difference in Hin as [Hin Hne].
  assert (n <> m) as Hne' by (intros ->; apply Hne; by apply elem_of_singleton).
  rewrite find_set_status_other by done. by apply Hq.
Qed.

Lemma start_effect_settles n v :
  n ∉ faulty -> settled n (start_effect faulty n v).
Proof.
  intros Hw. unfold start_effect.
  destruct (Sim.find_container n (v_containers v)) as [c0|] eqn:Hfind.
  - case_bool_decide as Hrun.
    + rewrite bool_decide_eq_false_2 by done. intros Hin. simpl in Hin.
      apply elem_of_difference in Hin as [_ Hne]. exfalso. apply Hne.
      by apply elem_of_singleton.
    + intros _ c Hc. rewrite Hfind in Hc. injection Hc as <-.
      destruct (decide (status c0 = "running"%string)); [done|contradiction].
  - intros _ c Hc. rewrite Hfind in Hc. discriminate.
Qed.

Lemma start_effect_shed_back m v n :
  n ∈ v_shed (start_effect faulty m v) -> n ∈ v_shed v.
Proof.
  unfold start_effect.
  destruct (Sim.find_container m (v_containers v)) as [c0|]; [|done].
  case_bool_decide; [|done]. case_bool_decide; [done|].
  simpl. intros Hin. by apply elem_of_difference in Hin as [Hin _].
Qed.

Lemma start_fold_settled_keeps eligible names v n :
  settled n v -> settled n (fold_left (start_step faulty eligible) names v).
Proof.
  revert v. induction names as [|m names IH]; intros v Hq; simpl; [done|].
  apply IH. unfold start_step. destruct (eligible m); [|done].
  by apply start_effect_settled_keeps.
Qed.

Lemma start_fold_settles eligible names v n :
  eligible n = true -> n ∉ faulty ->
  (n ∈ v_shed v -> In n names) ->
  settled n (fold_left (start_step faulty eligible) names v).
Proof.
  intros He Hw. revert v. induction names as [|m names IH]; intros v Hcov; simpl.
  - intros Hin. destruct (Hcov Hin).
  - unfold start_step at 2. destruct (decide (m = n)) as [->|Hm].
    + rewrite He. apply start_fold_settled_keeps. by apply start_effect_settles.
    + apply IH. intros Hin.
      assert (n ∈ v_shed v) as Hin'.
      { destruct (eligible m); [|done]. by eapply start_effect_shed_back. }
      destruct (Hcov Hin') as [->|Hn]; [contradiction|done].
Qed.

Lemma start_pass_settles eligible v :
  start_quiet faulty eligible (start_pass faulty eligible v).
Proof.
  intros n c Hin He Hw. unfold start_pass in *.
  apply (start_fold_settles eligible (elements (v_shed v)) v n He Hw); [|exact Hin].
  intros Hn. apply list_elem_of_In. by apply elem_of_elements.
Qed.

End SimQuiet.

Section SimPassesQuiet.

Variable cfg : Config.
Variable faulty : list string.
Variable hw_status : HwStatus.
Implicit Types (v : View).

Lemma thermal_pass_quiet v :
  thermal_quiet cfg faulty hw_status (thermal_pass cfg faulty hw_status v).
Proof.
  unfold thermal_quiet, thermal_pass.
  destruct (thermal_trigger cfg hw_status); [apply stop_pass_settles|].
  destruct (thermal_recovery cfg hw_status); [apply start_pass_settles|done].
Qed.

Lemma battery_pass_quiet v :
  battery_quiet cfg faulty hw_status (battery_pass cfg faulty hw_status v).
Proof.
  unfold battery_quiet, battery_pass.
  destruct (battery_trigger cfg hw_status); [apply stop_pass_settles|].
  destruct (battery_recovery cfg hw_status); [apply start_pass_settles|done].
Qed.

(** Unless the CPU is hot while the battery has recovered, the battery pass
    leaves the daemon quiet for the thermal pass. *)
Lemma battery_pass_keeps_thermal_quiet v :
  thermal_trigger cfg hw_status && battery_recovery cfg hw_status = false ->
  thermal_quiet cfg faulty hw_status v ->
  thermal_quiet cfg faulty hw_status (battery_pass cfg faulty hw_status v).
Proof.
  unfold thermal_quiet, battery_pass. intros Hex Hq.
  destruct (thermal_trigger cfg hw_status); simpl in Hex.
  - rewrite Hex. destruct (battery_trigger cfg hw_status); [|exact Hq].
    by apply stop_fold_stop_quiet.
  - destruct (thermal_recovery cfg hw_status); [|done].
    destruct (battery_trigger cfg hw_status).
    + apply stop_fold_start_quiet; [|exact Hq].
      intros m Hm. unfold thermal_only. rewrite Hm. apply andb_false_r.
    + destruct (battery_recovery cfg hw_status); [|exact Hq].
      by apply start_fold_start_quiet.
Qed.

Lemma thermal_quiet_same v v' :
  v_containers v' = v_containers v -> v_shed v' = v_shed v ->
  thermal_quiet cfg faulty hw_status v -> thermal_quiet cfg faulty hw_status v'.
Proof.
  intros Hc Hs. unfold thermal_quiet.
  destruct (thermal_trigger cfg hw_status); [by apply stop_quiet_same|].
  destruct (thermal_recovery cfg hw_status); [by apply start_quiet_same|done].
Qed.

Lemma battery_quiet_same v v' :
  v_containers v' = v_containers v -> v_shed v' = v_shed v ->
  battery_quiet cfg faulty hw_status v -> battery_quiet cfg faulty hw_status v'.
Proof.
  intros Hc Hs. unfold battery_quiet.
  destruct (battery_trigger cfg hw_status); [by apply stop_quiet_same|].
  destruct (battery_recovery cfg hw_status); [by apply start_quiet_same|done].
Qed.

Lemma thermal_pass_unchanged v :
  thermal_quiet cfg faulty hw_status v ->
  unchanged faulty v (thermal_pass cfg faulty hw_status v).
Proof.
  unfold thermal_quiet, thermal_pass. intros Hq.
  destruct (thermal_trigger cfg hw_status); [by apply stop_fold_unchanged|].
  destruct (thermal_recovery cfg hw_status); [|apply unchanged_refl].
  apply start_fold_unchanged; [|exact Hq].
  intros m Hm. apply elem_of_elements. by apply list_elem_of_In.
Qed.

Lemma battery_pass_unchanged v :
  battery_quiet cfg faulty hw_status v ->
  unchanged faulty v (battery_pass cfg faulty hw_status v).
Proof.
  unfold battery_quiet, battery_pass. intros Hq.
  destruct (battery_trigger cfg hw_status); [by apply stop_fold_unchanged|].
  destruct (battery_recovery cfg hw_status); [|apply unchanged_refl].
  apply start_fold_unchanged; [|exact Hq].
  intros m Hm. apply elem_of_elements. by apply list_elem_of_In.
Qed.

Lemma stop_fold_extends patterns cs v :
  extends (v_trace v) (fold_left (stop_step faulty patterns) cs v).
Proof.
  assert (forall tr0 v, extends tr0 v ->
            extends tr0 (fold_left (stop_step faulty patterns) cs v)) as H.
  { intros tr0. induction cs as [|c cs IH]; intros v1 Hv1; simpl; [done|].
    apply IH. unfold stop_step. destruct (container_matches _ patterns); [|done].
    by apply stop_effect_extends. }
  apply H. by exists [].
Qed.

Lemma start_fold_extends eligible names v :
  extends (v_trace v) (fold_left (start_step faulty eligible) names v).
Proof.
  assert (forall tr0 v, extends tr0 v ->
            extends tr0 (fold_left (start_step faulty eligible) names v)) as H.
  { intros tr0. induction names as [|m names IH]; intros v1 Hv1; simpl; [done|].
    apply IH. unfold start_step. destruct (eligible m); [|done].
    by apply start_effect_extends. }
  apply H. by exists [].
Qed.

Lemma thermal_pass_extends v :
  extends (v_trace v) (thermal_pass cfg faulty hw_status v).
Proof.
  unfold thermal_pass.
  destruct (thermal_trigger cfg hw_status); [apply stop_fold_extends|].
  destruct (thermal_recovery cfg hw_status); [apply start_fold_extends|by exists []].
Qed.

Lemma battery_pass_extends v :
  extends (v_trace v) (battery_pass cfg faulty hw_status v).
Proof.
  unfold battery_pass.
  destruct (battery_trigger cfg hw_status); [apply stop_fold_extends|].
  destruct (battery_recovery cfg hw_status); [apply start_fold_extends|by exists []].
Qed.

End SimPassesQuiet.

Section SimWorldFacts.

Implicit Types (w : Sim.World) (n : string).

Lemma sim_now_eq w t w' :
  datetime_now w = (t, w') ->
  sim_settings w' = sim_settings w /\ Sim.containers w' = Sim.containers w.
Proof. simpl. by intros [= _ <-]. Qed.

Lemma sim_list_eq all w r w' :
  containers_list all w = (r, w') ->
  sim_settings w' = sim_settings w /\ Sim.containers w' = Sim.containers w.
Proof.
  simpl. unfold Sim.list_containers. destruct (Sim.down w); by intros [= _ <-].
Qed.

Lemma sim_get_eq n w g w' :
  containers_get n w = (g, w') ->
  sim_settings w' = sim_settings w /\ Sim.containers w' = Sim.containers w.
Proof.
  simpl. unfold Sim.get_container. destruct (Sim.down w); [by intros [= _ <-]|].
  destruct (Sim.find_container n (Sim.containers w)); by intros [= _ <-].
Qed.

Lemma sim_lifecycle_eq st n w ok w' :
  Sim.lifecycle st n w = (ok, w') ->
  sim_settings w' = sim_settings w
  /\ (ok = false -> Sim.containers w' = Sim.containers w).
Proof.
  unfold Sim.lifecycle. destruct (Sim.fails n w); intros [= <- <-]; by split.
Qed.

End SimWorldFacts.

Section SimTick.

Variable cfg : Config.
Implicit Types (s : Sys Sim.World) (n : string).

Lemma settings_are_world x s w :
  sim_settings w = sim_settings (world s) -> settings_are x s -> settings_are x (set_world w s).
Proof. unfold settings_are. simpl. by intros ->. Qed.

Lemma settings_are_restart x n s :
  settings_are x s -> settings_are x (restart_container cfg n s).2.
Proof.
  intros Hs. destruct (restart_container_run cfg n s) as [(r & s' & -> & Hrel)| ->]; simpl;
    [|by apply settings_are_world].
  destruct Hrel as [now w1 Hnow Hgov|now w1 g w2 Hnow Hgov Hget Hg
                   |now w1 c w2 w3 Hnow Hgov Hget Hres
                   |now w1 c w2 w3 now' w4 Hnow Hgov Hget Hres Hnow'];
    apply sim_now_eq in Hnow as [Hn _];
    try apply sim_get_eq in Hget as [Hg' _];
    try apply sim_lifecycle_eq in Hres as [Hr _];
    try apply sim_now_eq in Hnow' as [Hn' _];
    unfold settings_are in *; simpl; congruence.
Qed.

Lemma settings_are_stop x n reason s :
  settings_are x s -> settings_are x (stop_container n reason s).2.
Proof.
  intros Hs. destruct (stop_container_run n reason s) as (r & s' & -> & Hrel); simpl.
  destruct Hrel as [g w1 Hget Hg|c w1 Hget Hst|c w1 w2 Hget Hst Hstop|c w1 w2 Hget Hst Hstop];
    apply sim_get_eq in Hget as [Hg' _];
    try apply sim_lifecycle_eq in Hstop as [Hr _];
    unfold settings_are in *; simpl; congruence.
Qed.

Lemma settings_are_start x n s :
  settings_are x s -> settings_are x (start_container n s).2.
Proof.
  intros Hs. destruct (start_container_run n s) as (r & s' & -> & Hrel); simpl.
  destruct Hrel as [g w1 Hget Hg|c w1 Hget Hst|c w1 w2 Hget Hst Hstart|c w1 w2 Hget Hst Hstart];
    apply sim_get_eq in Hget as [Hg' _];
    try apply sim_lifecycle_eq in Hstart as [Hr _];
    unfold settings_are in *; simpl; congruence.
Qed.

Lemma settings_are_carried x : carried cfg (settings_are x).
Proof.
  split; intros.
  - by apply settings_are_world.
  - by apply settings_are_world.
  - apply settings_are_world; [|done].
    simpl. unfold Sim.list_containers. by destruct (Sim.down (world s)).
  - apply settings_are_world; [|done].
    simpl. unfold Sim.sleep_for. by destruct (_ || _).
  - by apply settings_are_restart.
  - by apply settings_are_stop.
  - by apply settings_are_start.
  - done.
Qed.

Lemma settings_daemon_up s faulty :
  daemon_up faulty s ->
  settings_are (false, faulty, Sim.hw (world s), Sim.latency (world s)) s.
Proof. intros [Hd Hf]. unfold settings_are, sim_settings. congruence. Qed.

Lemma daemon_up_settings s faulty h l :
  settings_are (false, faulty, h, l) s -> daemon_up faulty s /\ Sim.hw (world s) = h.
Proof. unfold settings_are, sim_settings, daemon_up. by intros [= Hd Hf Hh _]. Qed.

(** *** The health check *)

Lemma health_inv_refl s : health_inv s s.
Proof. split; [done|]. exists []. by repeat split. Qed.

Lemma health_inv_world s0 s w :
  Sim.containers w = Sim.containers (world s) ->
  health_inv s0 s -> health_inv s0 (set_world w s).
Proof.
  intros Hw (Hsh & new & Hnew & Hall & Hc). split; [done|].
  exists new. split; [done|]. split; [done|]. intros Hq. simpl. rewrite Hw. by apply Hc.
Qed.

Lemma health_inv_restart s0 n s :
  health_inv s0 s -> health_inv s0 (restart_container cfg n s).2.
Proof.
  intros Hs. destruct (restart_container_run cfg n s) as [(r & s' & -> & Hrel)| ->]; simpl;
    [|by apply health_inv_world].
  destruct Hrel as [now w1 Hnow Hgov|now w1 g w2 Hnow Hgov Hget Hg
                   |now w1 c w2 w3 Hnow Hgov Hget Hres
                   |now w1 c w2 w3 now' w4 Hnow Hgov Hget Hres Hnow'];
    apply sim_now_eq in Hnow as [_ Hn];
    try apply sim_get_eq in Hget as [_ Hg'].
  - by apply health_inv_world.
  - apply health_inv_world; [congruence|done].
  - apply sim_lifecycle_eq in Hres as [_ Hr]. specialize (Hr eq_refl).
    destruct Hs as (Hsh & new & Hnew & Hall & Hc). split; [done|].
    exists (RestartCall n false (clock w2) (clock w3) :: new). split.
    + unfold issued in *. simpl. by rewrite Hnew.
    + split; [constructor; [by eexists _, _, _, _|done]|].
      intros Hq. apply Forall_cons in Hq as [_ Hq]. simpl.
      rewrite Hr, Hg', Hn. by apply Hc.
  - destruct Hs as (Hsh & new & Hnew & Hall & Hc). split; [done|].
    exists (RestartCall n true (clock w2) (clock w3) :: new). split.
    + unfold issued in *. simpl. by rewrite Hnew.
    + split; [constructor; [by eexists _, _, _, _|done]|].
      intros Hq. apply Forall_cons in Hq as [Hq _]. simpl in Hq. by destruct Hq.
Qed.

Lemma sim_check_container_health s :
  health_inv s (check_container_health cfg s).2.
Proof.
  apply (check_container_health_keeps cfg (health_inv s)).
  - intros all s1 Hs1. apply health_inv_world; [|done].
    simpl. unfold Sim.list_containers. by destruct (Sim.down (world s1)).
  - intros n s1 _. apply health_inv_restart.
  - apply health_inv_refl.
Qed.

Lemma check_container_health_returns s :
  check_container_health cfg s = (Returned tt, (check_container_health cfg s).2).
Proof.
  unfold check_container_health.
  match goal with
  | |- try_except ?body _ _ = _ => generalize body
  end.
  intros body. unfold try_except, ret. by destruct (body s) as [[[]|] s1].
Qed.

End SimTick.

Section SimTwoTicks.

Variable cfg : Config.
Variable faulty : list string.
Implicit Types (s : Sys Sim.World) (n : string).

Lemma sim_get_hw_status s :
  get_hw_status s
  = (Returned (default empty_hw_status (Sim.hw (world s))),
     set_world (Sim.advance (world s)) s).
Proof.
  unfold get_hw_status, bind, call, ret. simpl. by destruct (Sim.hw (world s)).
Qed.

Lemma daemon_up_health s :
  daemon_up faulty s -> daemon_up faulty (check_container_health cfg s).2.
Proof.
  intros Hs. apply settings_daemon_up in Hs.
  apply (carried_health cfg _ (settings_are_carried cfg _)) in Hs.
  by apply daemon_up_settings in Hs as [Hs _].
Qed.

(** A tick on the reachable daemon: the health check, then the two passes
    on the reading the world holds, then at most a reset. *)
Lemma sim_tick_run last_reset s :
  daemon_up faulty s ->
  let hw_status := default empty_hw_status (Sim.hw (world s)) in
  let sb := (check_container_health cfg (set_world (Sim.advance (world s)) s)).2 in
  let vd := battery_pass cfg faulty hw_status
              (thermal_pass cfg faulty hw_status (view_of sb)) in
  let s' := (tick cfg last_reset s).2 in
  v_containers (view_of s') = v_containers vd
  /\ v_shed (view_of s') = v_shed vd
  /\ exists new, v_trace (view_of s') = new ++ v_trace vd
                 /\ Forall (fun e => e = CountsReset) new.
Proof.
  intros Hs hw_status sb vd s'.
  assert (daemon_up faulty sb) as Hsb by (by apply daemon_up_health).
  destruct (sim_check_thermal_shedding faulty cfg hw_status sb Hsb)
    as (sc & Hrunc & Hvc & Hsc).
  destruct (sim_check_battery_shedding faulty cfg hw_status sc Hsc)
    as (sd & Hrund & Hvd & Hsd).
  assert (view_of sd = vd) as Hvd' by (unfold vd; by rewrite Hvd, Hvc).
  assert (s' = set_world (Sim.advance (world sd)) sd
          \/ s' = set_world (Sim.advance (Sim.advance (world sd)))
                    (log_event CountsReset (set_restart_attempts ∅ sd))) as Hs'.
  { remember s' as t eqn:Ht. unfold s', tick in Ht.
    rewrite try_except_ret_state in Ht.
    unfold bind at 1 in Ht. rewrite sim_get_hw_status in Ht. fold hw_status in Ht.
    unfold bind at 1 in Ht. rewrite check_container_health_returns in Ht. fold sb in Ht.
    unfold bind at 1 in Ht. rewrite Hrunc in Ht.
    unfold bind at 1 in Ht. rewrite Hrund in Ht.
    unfold bind at 1, call at 1 in Ht. simpl in Ht.
    destruct (_ >? _) in Ht; simpl in Ht; [by right | by left]. }
  rewrite <- Hvd'. destruct Hs' as [-> | ->]; simpl.
  - split; [done|]. split; [done|]. exists []. by split.
  - split; [done|]. split; [done|].
    exists [CountsReset]. split; [done|]. by constructor.
Qed.

Lemma sim_tick_settings x last_reset s :
  settings_are x s -> settings_are x (tick cfg last_reset s).2.
Proof. apply (tick_keeps cfg _ (settings_are_carried cfg x)). Qed.

(** After a tick the daemon is quiet for both passes on the same reading,
    unless the CPU is hot while the battery has recovered. *)
Lemma sim_tick_settles last_reset s :
  daemon_up faulty s ->
  let hw_status := default empty_hw_status (Sim.hw (world s)) in
  thermal_trigger cfg hw_status && battery_recovery cfg hw_status = false ->
  thermal_quiet cfg faulty hw_status (view_of (tick cfg last_reset s).2)
  /\ battery_quiet cfg faulty hw_status (view_of (tick cfg last_reset s).2).
Proof.
  intros Hs hw_status Hex.
  destruct (sim_tick_run last_reset s Hs) as (Hc & Hsh & _).
  fold hw_status in Hc, Hsh. split.
  - eapply thermal_quiet_same; [exact Hc|exact Hsh|].
    apply battery_pass_keeps_thermal_quiet; [exact Hex|]. apply thermal_pass_quiet.
  - eapply battery_quiet_same; [exact Hc|exact Hsh|]. apply battery_pass_quiet.
Qed.

(** A tick on a quiet daemon in which no restart takes effect changes
    neither the containers nor the shed set, and no call of it takes
    effect. *)
Lemma sim_quiet_tick last_reset s :
  daemon_up faulty s ->
  let hw_status := default empty_hw_status (Sim.hw (world s)) in
  thermal_quiet cfg faulty hw_status (view_of s) ->
  battery_quiet cfg faulty hw_status (view_of s) ->
  exists new, issued s (tick cfg last_reset s).2 new
    /\ (Forall (fun e => forall n a b, e <> RestartCall n true a b) new ->
        Forall (without_effect faulty) new
        /\ Sim.containers (world (tick cfg last_reset s).2) = Sim.containers (world s)
        /\ shed_services (tick cfg last_reset s).2 = shed_services s).
Proof.
  intros Hs hw_status Hqt Hqb.
  destruct (sim_tick_run last_reset s Hs) as (Hc & Hsh & newr & Htr & Hallr).
  fold hw_status in Hc, Hsh, Htr.
  set (sa := set_world (Sim.advance (world s)) s) in *.
  set (sb := (check_container_health cfg sa).2) in *.
  set (vc := thermal_pass cfg faulty hw_status (view_of sb)) in *.
  set (vd := battery_pass cfg faulty hw_status vc) in *.
  destruct (sim_check_container_health cfg sa) as (Hshb & newh & Htrh & Hallh & Hch).
  fold sb in Hshb, Htrh, Hch.
  destruct (thermal_pass_extends cfg faulty hw_status (view_of sb)) as (newt & Htrt).
  destruct (battery_pass_extends cfg faulty hw_status vc) as (newb & Htrb).
  fold vc in Htrt. fold vd in Htrb.
  exists (newr ++ newb ++ newt ++ newh). split.
  { unfold issued. simpl in Htr. rewrite Htr, Htrb, Htrt. simpl. unfold issued in Htrh.
    rewrite Htrh. simpl. by rewrite <- !app_assoc. }
  intros Hno.
  apply Forall_app in Hno as [_ Hno]. apply Forall_app in Hno as [_ Hno].
  apply Forall_app in Hno as [_ Hnoh].
  assert (Forall (without_effect faulty) newh) as Hwh.
  { apply Forall_forall. intros e He.
    pose proof (proj1 (Forall_forall _ _) Hallh e He) as (n & ok & a & b & ->).
    pose proof (proj1 (Forall_forall _ _) Hnoh _ He) as Hne.
    simpl. destruct ok; [|done]. exfalso. by apply (Hne n a b). }
  assert (Forall (fun e => ~ took_effect e) newh) as Hqh.
  { apply Forall_forall. intros e He.
    pose proof (proj1 (Forall_forall _ _) Hallh e He) as (n & ok & a & b & ->).
    pose proof (proj1 (Forall_forall _ _) Hwh _ He) as Hok.
    simpl in *. rewrite Hok. discriminate. }
  specialize (Hch Hqh).
  assert (unchanged faulty (view_of sb) vc) as (Hcc & Hshc & newt' & Htrt' & Hqt').
  { apply thermal_pass_unchanged. eapply thermal_quiet_same; [| |exact Hqt]; done. }
  assert (unchanged faulty vc vd) as (Hcd & Hshd & newb' & Htrb' & Hqb').
  { apply battery_pass_unchanged. eapply battery_quiet_same; [| |exact Hqb].
    - by rewrite Hcc.
    - by rewrite Hshc. }
  assert (newt' = newt) as -> by (eapply app_inv_tail; by rewrite <- Htrt', Htrt).
  assert (newb' = newb) as -> by (eapply app_inv_tail; by rewrite <- Htrb', Htrb).
  split; [|split].
  - apply Forall_app. split.
    + eapply Forall_impl; [exact Hallr|]. by intros e ->.
    + apply Forall_app. split; [done|]. by apply Forall_app.
  - simpl in Hc. rewrite Hc, Hcd, Hcc. exact Hch.
  - simpl in Hsh. rewrite Hsh, Hshd, Hshc. exact Hshb.
Qed.

End SimTwoTicks.

(** Sleeping changes neither the daemon nor the watchdog's books. *)
Lemma sim_sleep_state secs (s : Sys Sim.World) :
  view_of (sleep secs s).2 = view_of s
  /\ Sim.down (world (sleep secs s).2) = Sim.down (world s)
  /\ Sim.faulty (world (sleep secs s).2) = Sim.faulty (world s)
  /\ Sim.hw (world (sleep secs s).2) = Sim.hw (world s).
Proof.
  unfold sleep, bind, call, ret, raise. simpl. unfold Sim.sleep_for.
  by destruct (_ || _).
Qed.

(** C10, as amended: on a reachable daemon, when a tick is followed by a
    second one on the same stress reading and on the container states the
    first left, and the reading does not at once trigger thermal shedding
    and satisfy battery recovery, then, unless a restart takes effect in
    the second tick, no call of the second tick takes effect: no container
    is stopped or started, the only stop and start calls made are calls
    that raise on containers whose lifecycle calls fail, and the containers
    and [shed_services] are as the first tick left them.  (A restart is
    governed by wall-clock time and may fall due between the ticks.) *)
Theorem C10_second_tick_quiet_unless_restart_due
    (cfg : Config) (s : Sys Sim.World) (last_reset last_reset' : Z) :
  Sim.down (world s) = false ->
  thermal_trigger cfg (default empty_hw_status (Sim.hw (world s)))
  && battery_recovery cfg (default empty_hw_status (Sim.hw (world s))) = false ->
  let s1 := (sleep (CHECK_INTERVAL cfg) (tick cfg last_reset s).2).2 in
  let s2 := (tick cfg last_reset' s1).2 in
  Sim.hw (world s1) = Sim.hw (world s)
  /\ exists new, issued s1 s2 new
       /\ (Forall (fun e => forall n a b, e <> RestartCall n true a b) new ->
           Forall (without_effect (Sim.faulty (world s))) new
           /\ Sim.containers (world s2) = Sim.containers (world s1)
           /\ shed_services s2 = shed_services s1).
Proof.
  intros Hdown Hex s1 s2.
  set (faulty := Sim.faulty (world s)).
  set (hw_status := default empty_hw_status (Sim.hw (world s))) in *.
  assert (daemon_up faulty s) as Hup by done.
  pose proof (settings_daemon_up s faulty Hup) as Hset.
  apply (sim_tick_settings cfg _ last_reset) in Hset.
  apply daemon_up_settings in Hset as [Hup1 Hhw1].
  destruct (sim_tick_settles cfg faulty last_reset s Hup Hex) as [Hqt Hqb].
  fold hw_status in Hqt, Hqb.
  destruct (sim_sleep_state (CHECK_INTERVAL cfg) (tick cfg last_reset s).2)
    as (Hview & Hd1 & Hf1 & Hh1).
  fold s1 in Hview, Hd1, Hf1, Hh1.
  assert (daemon_up faulty s1) as Hups1.
  { destruct Hup1 as [Hd Hf]. split; congruence. }
  assert (Sim.hw (world s1) = Sim.hw (world s)) as Hhws1 by congruence.
  split; [exact Hhws1|].
  apply (sim_quiet_tick cfg faulty last_reset' s1 Hups1); rewrite Hhws1, Hview.
  - exact Hqt.
  - exact Hqb.
Qed.

Lemma C10_witness :
  Sim.down (world C10_hot_state) = false
  /\ thermal_trigger default_config
       (default empty_hw_status (Sim.hw (world C10_hot_state)))
     && battery_recovery default_config
          (default empty_hw_status (Sim.hw (world C10_hot_state))) = false
  /\ (let s1 := (sleep (CHECK_INTERVAL default_config)
                   (tick default_config 0 C10_hot_state).2).2 in
      let s2 := (tick default_config 0 s1).2 in
      Sim.hw (world s1) = Sim.hw (world C10_hot_state)
      /\ exists new, issued s1 s2 new
           /\ (Forall (fun e => forall n a b, e <> RestartCall n true a b) new ->
               Forall (without_effect (Sim.faulty (world C10_hot_state))) new
               /\ Sim.containers (world s2) = Sim.containers (world s1)
               /\ shed_services s2 = shed_services s1)).
Proof.
  assert (Sim.down (world C10_hot_state) = false) as H1 by reflexivity.
  assert (thermal_trigger default_config
            (default empty_hw_status (Sim.hw (world C10_hot_state)))
          && battery_recovery default_config
               (default empty_hw_status (Sim.hw (world C10_hot_state))) = false) as H2
    by (vm_compute; reflexivity).
  split; [exact H1|]. split; [exact H2|].
  exact (C10_second_tick_quiet_unless_restart_due default_config C10_hot_state 0 0 H1 H2).
Defined.

(** C10 as stated fails: the first tick finds "nginx" unhealthy but still
    in its cooldown and issues nothing; the containers and the reading are
    unchanged; thirty seconds later the cooldown has run out and the second
    tick restarts "nginx". *)
Lemma C10_counterexample :
  trace (tick default_config 0 C10_state).2 = []
  /\ Sim.containers (world C10_after_first_tick) = Sim.containers (world C10_state)
  /\ Sim.hw (world C10_after_first_tick) = Sim.hw (world C10_state)
  /\ shed_services C10_after_first_tick = shed_services C10_state
  /\ trace (tick default_config 0 C10_after_first_tick).2
     = [RestartCall "nginx" true 329908000 329909000].
Proof.
  repeat split; vm_compute; reflexivity.
Qed.

(** * Further properties of the watchdog *)

(** ** The service lists of the configuration *)

Section ServiceLists.

Implicit Types (s p n : string) (fields : list string).

Example default_lists_are_the_split_defaults :
  services_from_env None "kiwix,tileserver,nginx,dnsmasq" = CRITICAL_SERVICES default_config
  /\ services_from_env None "ollama,retroarch,navidrome" = THERMAL_SHED_SERVICES default_config
  /\ services_from_env None "ollama,retroarch,navidrome,openwebui"
     = BATTERY_SHED_SERVICES default_config.
Proof. repeat split. Qed.

Lemma split_comma_nonempty s : split_comma s <> [].
Proof.
  destruct s as [|c s]; simpl; [discriminate|].
  destruct (Ascii.eqb c ","); [discriminate|].
  destruct (split_comma s); discriminate.
Qed.

Lemma join_comma_cons s field fields :
  join_comma (s :: field :: fields) = s +:+ String "," (join_comma (field :: fields)).
Proof. reflexivity. Qed.

Lemma join_split_comma s : join_comma (split_comma s) = s.
Proof.
  induction s as [|c s IH]; simpl; [reflexivity|].
  pose proof (split_comma_nonempty s) as Hne.
  destruct (split_comma s) as [|f fs] eqn:Hs; [contradiction|].
  destruct (Ascii.eqb c ",") eqn:Hc.
  - apply Ascii.eqb_eq in Hc as ->. rewrite join_comma_cons, IH. reflexivity.
  - destruct fs as [|g fs].
    + simpl in *. by rewrite IH.
    + rewrite <- IH. reflexivity.
Qed.

Lemma split_comma_fields_comma_free s :
  Forall (fun field => comma_free field = true) (split_comma s).
Proof.
  induction s as [|c s IH]; simpl.
  - by constructor.
  - destruct (Ascii.eqb c ",") eqn:Hc.
    + by constructor.
    + destruct (split_comma s) as [|f fs]; [constructor; [simpl; by rewrite Hc|done]|].
      apply Forall_cons in IH as [Hf Hfs]. constructor; [|done].
      simpl. by rewrite Hc, Hf.
Qed.

Lemma split_comma_field s fields :
  comma_free s = true -> fields <> [] ->
  split_comma (join_comma (s :: fields)) = s :: split_comma (join_comma fields).
Proof.
  intros Hs Hne. destruct fields as [|f fs]; [contradiction|].
  rewrite join_comma_cons. generalize (join_comma (f :: fs)). intros rest.
  induction s as [|c s IH]; simpl.
  - reflexivity.
  - simpl in Hs. apply andb_true_iff in Hs as [Hc Hs].
    apply negb_true_iff in Hc. rewrite Hc. by rewrite (IH Hs).
Qed.

Lemma split_comma_single s : comma_free s = true -> split_comma s = [s].
Proof.
  induction s as [|c s IH]; simpl; [done|].
  intros Hs. apply andb_true_iff in Hs as [Hc Hs].
  apply negb_true_iff in Hc. rewrite Hc. by rewrite (IH Hs).
Qed.

Lemma split_join_comma fields :
  fields <> [] ->
  Forall (fun field => comma_free field = true) fields ->
  split_comma (join_comma fields) = fields.
Proof.
  induction fields as [|f fs IH]; [done|].
  intros _ Hall. apply Forall_cons in Hall as [Hf Hfs].
  destruct fs as [|g fs].
  - simpl. by apply split_comma_single.
  - rewrite split_comma_field; [|done|done]. by rewrite IH.
Qed.

End ServiceLists.

(** X1: [s.split(",")] and [",".join] are inverse to each other: joining
    the fields of any value gives the value back, the split is never
    empty and no field holds a comma; and a non-empty list of comma-free
    fields is what its joined value splits into. *)
Theorem X1_split_comma_round_trip (s : string) (fields : list string) :
  join_comma (split_comma s) = s
  /\ split_comma s <> []
  /\ Forall (fun field => comma_free field = true) (split_comma s)
  /\ (fields <> [] ->
      Forall (fun field => comma_free field = true) fields ->
      split_comma (join_comma fields) = fields).
Proof.
  split; [apply join_split_comma|]. split; [apply split_comma_nonempty|].
  split; [apply split_comma_fields_comma_free|]. apply split_join_comma.
Qed.

(** ** Matching a container name against the patterns *)

Section Matching.

Implicit Types (s p n : string) (patterns : list string).

Lemma prefix_app p s :
  String.prefix p s = true <-> exists post, s = p +:+ post.
Proof.
  revert s. induction p as [|c p IH]; intros [|d s]; simpl.
  - split; [intros _; by exists EmptyString | done].
  - split; [intros _; by exists (String d s) | done].
  - split; [done | intros (post & ?); discriminate].
  - destruct (ascii_dec c d) as [->|Hne].
    + rewrite IH. split.
      * intros (post & ->). by exists post.
      * intros (post & [= ->]). by exists post.
    + split; [done|]. intros (post & [= <- _]). contradiction.
Qed.

Lemma contains_app p s :
  contains p s = true <-> exists pre post, s = pre +:+ p +:+ post.
Proof.
  induction s as [|d s IH]; cbn [contains].
  - rewrite orb_false_r. rewrite prefix_app. split.
    + intros (post & ->). by exists EmptyString, post.
    + intros ([|c pre] & post & Heq); [by exists post | discriminate].
  - rewrite orb_true_iff, prefix_app, IH. split.
    + intros [(post & ->)|(pre & post & ->)].
      * by exists EmptyString, post.
      * by exists (String d pre), post.
    + intros ([|c pre] & post & Heq).
      * left. by exists post.
      * right. injection Heq as -> ->. by exists pre, post.
Qed.

Lemma lower_ascii_idem c : lower_ascii (lower_ascii c) = lower_ascii c.
Proof. destruct c as [[] [] [] [] [] [] [] []]; reflexivity. Qed.

Lemma lower_idem s : lower (lower s) = lower s.
Proof. induction s as [|c s IH]; simpl; [done|]. by rewrite lower_ascii_idem, IH. Qed.

Lemma lower_app s1 s2 : lower (s1 +:+ s2) = lower s1 +:+ lower s2.
Proof. induction s1 as [|c s1 IH]; simpl; [done|]. by rewrite IH. Qed.

Lemma container_matches_substring n patterns :
  container_matches n patterns = true <->
  exists p pre post, In p patterns /\ lower n = pre +:+ lower p +:+ post.
Proof.
  unfold container_matches. rewrite existsb_exists. split.
  - intros (p & Hin & Hc). apply contains_app in Hc as (pre & post & Heq).
    by exists p, pre, post.
  - intros (p & pre & post & Hin & Heq). exists p. split; [done|].
    apply contains_app. by exists pre, post.
Qed.

(** X2: a name matches the patterns exactly when the lowercase of some
    pattern occurs in the lowercase of the name as a run of consecutive
    characters; no pattern at all matches nothing. *)
Theorem X2_container_matches_is_lowercase_substring n patterns :
  (container_matches n patterns = true <->
   exists p pre post, In p patterns /\ lower n = pre +:+ lower p +:+ post)
  /\ container_matches n [] = false.
Proof. split; [apply container_matches_substring|reflexivity]. Qed.

(** X3: matching ignores ASCII case on both sides: folding the name or the
    patterns to lowercase beforehand changes no answer, and a pattern that
    occurs in a name in any mix of cases matches it. *)
Theorem X3_container_matches_ignores_case n patterns p pre post :
  container_matches (lower n) patterns = container_matches n patterns
  /\ container_matches n (map lower patterns) = container_matches n patterns
  /\ (In p patterns -> lower n = lower (pre +:+ p +:+ post) ->
      container_matches n patterns = true).
Proof.
  split; [|split].
  - unfold container_matches. by rewrite lower_idem.
  - unfold container_matches. induction patterns as [|q qs IH]; simpl; [done|].
    by rewrite lower_idem, IH.
  - intros Hin Heq. apply container_matches_substring.
    exists p, (lower pre), (lower post). split; [done|].
    by rewrite Heq, !lower_app.
Qed.

(** An empty field, as an empty value or a trailing or doubled comma
    yields. *)
Lemma split_comma_empty_value : split_comma "" = [EmptyString].
Proof. reflexivity. Qed.

Lemma split_comma_trailing_comma s :
  exists field fields, split_comma (s +:+ ",") = field :: fields /\ In EmptyString fields.
Proof.
  induction s as [|c s (f & fs & Hs & Hin)]; simpl.
  - exists EmptyString, [EmptyString]. split; [done|by left].
  - rewrite Hs. destruct (Ascii.eqb c ",").
    + exists EmptyString, (f :: fs). split; [done|by right].
    + by exists (String c f), fs.
Qed.

Lemma contains_empty s : contains EmptyString s = true.
Proof. destruct s; reflexivity. Qed.

Lemma empty_pattern_matches n patterns :
  In EmptyString patterns -> container_matches n patterns = true.
Proof.
  intros Hin. unfold container_matches. apply existsb_exists.
  exists EmptyString. split; [done|]. apply contains_empty.
Qed.

Lemma trailing_comma_matches n value fallback :
  container_matches n (services_from_env (Some (value +:+ ",")) fallback) = true.
Proof.
  apply empty_pattern_matches. unfold services_from_env. simpl.
  destruct (split_comma_trailing_comma value) as (f & fs & -> & Hin). by right.
Qed.

(** X4: an empty pattern matches every container name, and the list read
    from a variable holds one whenever the value is empty or ends in a
    comma: with such a value every container is eligible. *)
Theorem X4_empty_field_matches_every_container n patterns value fallback :
  (In EmptyString patterns -> container_matches n patterns = true)
  /\ container_matches n (services_from_env (Some EmptyString) fallback) = true
  /\ container_matches n (services_from_env (Some (value +:+ ",")) fallback) = true.
Proof.
  split; [apply empty_pattern_matches|]. split.
  - apply empty_pattern_matches. by left.
  - apply trailing_comma_matches.
Qed.

End Matching.

(** ** The restart records *)

Section RestartRecords.

Context {W : Type} {RT : Runtime W}.
Variable cfg : Config.
Implicit Types (s : Sys W) (n : string).

(** X5: [restart_container] raises exactly when the container has a
    [last_restart] entry whose cooldown end cannot be computed (the
    [OverflowError] of [should_restart], which stands outside the [try]).
    It answers [True] exactly when, besides, the governor allowed the
    restart, the container was found and [container.restart] returned
    normally; then the container's attempt count goes up by exactly one and
    its [last_restart] is set, and in every other case both dicts are left
    as they were: a restart that was denied or that failed is not counted.
    The shed set is never changed. *)
Theorem X5_restart_recorded_only_when_done s n :
  exists o s', restart_container cfg n s = (o, s')
    /\ shed_services s' = shed_services s
    /\ (o = Raised <->
        exists t, last_restart s !! n = Some t
                  /\ datetime_plus_seconds t (RESTART_COOLDOWN cfg) = None)
    /\ (o = Returned true <->
        o <> Raised
        /\ governor_allows cfg (last_restart s) (restart_attempts s) n
             (datetime_now (world s)).1 = true
        /\ exists c, (containers_get n (datetime_now (world s)).2).1 = Found c
             /\ (container_restart n (containers_get n (datetime_now (world s)).2).2).1
                = true)
    /\ match o with
       | Returned true =>
           restart_attempts s'
           = <[n := default 0 (restart_attempts s !! n) + 1]> (restart_attempts s)
           /\ (exists t, last_restart s' = <[n := t]> (last_restart s))
           /\ exists a b, trace s' = RestartCall n true a b :: trace s
       | _ =>
           restart_attempts s' = restart_attempts s
           /\ last_restart s' = last_restart s
           /\ (trace s' = trace s
               \/ exists a b, trace s' = RestartCall n false a b :: trace s)
       end.
Proof.
  assert (cooldown_overflows cfg (last_restart s) n = true <->
          exists t, last_restart s !! n = Some t
                    /\ datetime_plus_seconds t (RESTART_COOLDOWN cfg) = None) as Hov_iff.
  { unfold cooldown_overflows. destruct (last_restart s !! n) as [t|].
    - destruct (datetime_plus_seconds t _) as [e|] eqn:He.
      + split; [discriminate|]. intros (t' & [= <-] & Hn). congruence.
      + split; [|done]. intros _. by exists t.
    - split; [discriminate|]. by intros (t & Ht & _). }
  destruct (cooldown_overflows cfg (last_restart s) n) eqn:Hov.
  { eexists _, _. split; [by apply restart_container_raises|]. simpl.
    split; [reflexivity|]. split; [by rewrite <- Hov_iff|].
    split; [split; [discriminate|by intros [Hne _]]|].
    by repeat split; try left. }
  destruct (restart_container_returns cfg n s Hov) as (r & s' & Hrun & Hrel).
  exists (Returned r), s'. split; [exact Hrun|].
  assert (Returned r = Raised <->
          exists t, last_restart s !! n = Some t
                    /\ datetime_plus_seconds t (RESTART_COOLDOWN cfg) = None) as Hnot.
  { rewrite <- Hov_iff. split; discriminate. }
  destruct Hrel as [now w1 Hnow Hgov|now w1 g w2 Hnow Hgov Hget Hg
                   |now w1 c w2 w3 Hnow Hgov Hget Hres
                   |now w1 c w2 w3 now' w4 Hnow Hgov Hget Hres Hnow'];
    rewrite Hnow; simpl; (split; [reflexivity|]); (split; [exact Hnot|]).
  - split; [|by repeat split; try left].
    split; [discriminate|]. intros (_ & Hg & _). congruence.
  - rewrite Hget. simpl.
    split; [|by repeat split; try left].
    split; [discriminate|]. intros (_ & _ & c & Hc & _). by apply Hg in Hc.
  - rewrite Hget. simpl. rewrite Hres. simpl. split.
    + split; [discriminate|]. by intros (_ & _ & c' & _ & ?).
    + split; [done|]. split; [done|]. right. by eexists _, _.
  - rewrite Hget. simpl. rewrite Hres. simpl. split.
    + split; [|done]. intros _. split; [discriminate|]. split; [done|]. by exists c.
    + split; [done|]. split; [by eexists|]. by eexists _, _.
Qed.

Lemma attempts_bounded_restart n s :
  attempts_bounded cfg s -> attempts_bounded cfg (restart_container cfg n s).2.
Proof.
  intros Hs. destruct (restart_container_run cfg n s) as [(r & s' & -> & Hrel)| ->]; simpl;
    [|exact Hs].
  destruct Hrel as [now w1 Hnow Hgov|now w1 g w2 Hnow Hgov Hget Hg
                   |now w1 c w2 w3 Hnow Hgov Hget Hres
                   |now w1 c w2 w3 now' w4 Hnow Hgov Hget Hres Hnow']; try exact Hs.
  apply governor_allows_budget in Hgov.
  intros m v. simpl. destruct (decide (n = m)) as [->|Hne].
  - rewrite lookup_insert_eq. intros [= <-].
    destruct (restart_attempts s !! m) as [v0|] eqn:Hv0; simpl in *.
    + specialize (Hs m v0 Hv0). lia.
    + lia.
  - rewrite lookup_insert_ne by done. apply Hs.
Qed.

Lemma attempts_bounded_stop n reason s :
  attempts_bounded cfg s -> attempts_bounded cfg (stop_container n reason s).2.
Proof.
  intros Hs. destruct (stop_container_run n reason s) as (r & s' & -> & Hrel); simpl.
  by destruct Hrel.
Qed.

Lemma attempts_bounded_start n s :
  attempts_bounded cfg s -> attempts_bounded cfg (start_container n s).2.
Proof.
  intros Hs. destruct (start_container_run n s) as (r & s' & -> & Hrel); simpl.
  by destruct Hrel.
Qed.

Lemma attempts_bounded_carried : carried cfg (attempts_bounded cfg).
Proof.
  split; intros.
  - done.
  - done.
  - done.
  - done.
  - by apply attempts_bounded_restart.
  - by apply attempts_bounded_stop.
  - by apply attempts_bounded_start.
  - intros m v Hv. simpl in Hv. by rewrite lookup_empty in Hv.
Qed.

(** X6: in any run of the main loop from a fresh process, every attempt
    count that [restart_attempts] holds lies between 1 and
    [MAX_RESTART_ATTEMPTS]; with a maximum of zero or less the dict stays
    empty. *)
Theorem X6_attempt_counts_stay_bounded (w : W) iterations n v :
  (restart_attempts (main cfg iterations (initial_sys w)).2 !! n = Some v ->
   1 <= v <= MAX_RESTART_ATTEMPTS cfg)
  /\ (MAX_RESTART_ATTEMPTS cfg <= 0 ->
      restart_attempts (main cfg iterations (initial_sys w)).2 = ∅).
Proof.
  assert (attempts_bounded cfg (main cfg iterations (initial_sys w)).2) as Hb.
  { apply (main_keeps cfg _ attempts_bounded_carried).
    intros m v0 Hv0. simpl in Hv0. by rewrite lookup_empty in Hv0. }
  split; [apply Hb|].
  intros Hmax. apply map_eq. intros m. rewrite lookup_empty.
  destruct (_ !! m) as [v0|] eqn:Hv0; [|done].
  specialize (Hb m v0 Hv0). lia.
Qed.

(** *** Who writes what *)

Lemma governor_untouched_refl s : governor_untouched s s.
Proof. split; [done|]. split; [done|]. exists []. by split. Qed.

Lemma governor_untouched_stop s0 n reason s :
  governor_untouched s0 s -> governor_untouched s0 (stop_container n reason s).2.
Proof.
  intros (Ha & Hl & new & Hnew & Hall).
  destruct (stop_container_run n reason s) as (r & s' & -> & Hrel); simpl.
  destruct Hrel; (split; [done|]; split; [done|]); simpl;
    try (by exists new);
    (eexists (_ :: new); split;
     [unfold issued in *; simpl; by rewrite Hnew | by constructor]).
Qed.

Lemma governor_untouched_start s0 n s :
  governor_untouched s0 s -> governor_untouched s0 (start_container n s).2.
Proof.
  intros (Ha & Hl & new & Hnew & Hall).
  destruct (start_container_run n s) as (r & s' & -> & Hrel); simpl.
  destruct Hrel; (split; [done|]; split; [done|]); simpl;
    try (by exists new);
    (eexists (_ :: new); split;
     [unfold issued in *; simpl; by rewrite Hnew | by constructor]).
Qed.

(** X7: the two shedding checks never touch the restart governor: whatever
    the reading and whatever the runtime does, [restart_attempts] and
    [last_restart] come out as they went in, and the only lifecycle calls
    made are stops and starts, never a restart. *)
Theorem X7_shedding_checks_leave_restart_records hw_status s :
  governor_untouched s (check_thermal_shedding cfg hw_status s).2
  /\ governor_untouched s (check_battery_shedding cfg hw_status s).2.
Proof.
  split.
  - apply (check_thermal_shedding_keeps cfg (governor_untouched s)).
    + intros all s1 H. exact H.
    + intros n s1 _. apply governor_untouched_stop.
    + intros n s1 _ _. apply governor_untouched_start.
    + apply governor_untouched_refl.
  - apply (check_battery_shedding_keeps cfg (governor_untouched s)).
    + intros all s1 H. exact H.
    + intros n s1 _. apply governor_untouched_stop.
    + intros n s1 _. apply governor_untouched_start.
    + apply governor_untouched_refl.
Qed.

Lemma shedding_untouched_restart s0 n s :
  shedding_untouched s0 s -> shedding_untouched s0 (restart_container cfg n s).2.
Proof.
  intros (Hsh & new & Hnew & Hall).
  destruct (restart_container_run cfg n s) as [(r & s' & -> & Hrel)| ->]; simpl;
    [|split; [done|by exists new]].
  destruct Hrel; (split; [done|]); simpl;
    try (by exists new);
    (eexists (_ :: new); split;
     [unfold issued in *; simpl; by rewrite Hnew
     | constructor; [by eexists _, _, _, _ | done]]).
Qed.

(** X8: the health check never sheds: whatever the runtime does, it leaves
    [shed_services] as it was and the only lifecycle calls it makes are
    restarts, never a stop or a start; and it never raises, even when
    listing the containers fails. *)
Theorem X8_health_check_never_sheds s :
  check_container_health cfg s = (Returned tt, (check_container_health cfg s).2)
  /\ shedding_untouched s (check_container_health cfg s).2.
Proof.
  split.
  - unfold check_container_health.
    match goal with
    | |- try_except ?body _ _ = _ => generalize body
    end.
    intros body. unfold try_except, ret. by destruct (body s) as [[[]|] s1].
  - apply (check_container_health_keeps cfg (shedding_untouched s)).
    + intros all s1 H. exact H.
    + intros n s1 _. apply shedding_untouched_restart.
    + split; [done|]. exists []. by split.
Qed.

End RestartRecords.

(** ** Which containers the watchdog acts on *)

Section GuardedLoop.

Context {W : Type} {RT : Runtime W}.
Variable cfg : Config.
Variable I : Sys W -> Prop.
Implicit Types (s : Sys W) (n : string).

Hypothesis I_world : forall w s, I s -> I (set_world w s).
Hypothesis I_restart :
  forall n s, n ∉ shed_services s -> I s -> I (restart_container cfg n s).2.
Hypothesis I_stop :
  forall n reason s, shed_eligible cfg n = true -> I s -> I (stop_container n reason s).2.
Hypothesis I_start :
  forall n s, shed_eligible cfg n = true -> I s -> I (start_container n s).2.
Hypothesis I_reset : forall s, I s -> I (reset_restart_counts s).2.

Lemma call_keeps_world A (op : W -> A * W) s : I s -> I (call op s).2.
Proof.
  intros Hs. unfold call. pose proof (I_world (op (world s)).2 s Hs).
  by destruct (op (world s)).
Qed.

Lemma guarded_health s : I s -> I (check_container_health cfg s).2.
Proof.
  apply check_container_health_keeps; [|exact I_restart].
  intros all s1. apply I_world.
Qed.

Lemma guarded_thermal hw_status s : I s -> I (check_thermal_shedding cfg hw_status s).2.
Proof.
  apply check_thermal_shedding_keeps.
  - intros all s1. apply I_world.
  - intros n s1 Hm. apply I_stop. unfold shed_eligible. by rewrite Hm.
  - intros n s1 Hm _. apply I_start. unfold shed_eligible. by rewrite Hm.
Qed.

Lemma guarded_battery hw_status s : I s -> I (check_battery_shedding cfg hw_status s).2.
Proof.
  apply check_battery_shedding_keeps.
  - intros all s1. apply I_world.
  - intros n s1 Hm. apply I_stop. unfold shed_eligible. rewrite Hm. apply orb_true_r.
  - intros n s1 Hm. apply I_start. unfold shed_eligible. rewrite Hm. apply orb_true_r.
Qed.

Lemma guarded_tick last_reset s : I s -> I (tick cfg last_reset s).2.
Proof.
  intros Hs. unfold tick. rewrite try_except_ret_state.
  unfold bind at 1.
  assert (I (@get_hw_status W RT s).2) as H1.
  { unfold get_hw_status, bind, call, ret.
    pose proof (I_world (requests_get (world s)).2 s Hs).
    by destruct (requests_get (world s)) as [[hw|] w1]. }
  destruct (get_hw_status s) as [[hw|] s1]; simpl in *; [|exact H1].
  unfold bind at 1.
  pose proof (guarded_health s1 H1) as H2.
  destruct (check_container_health cfg s1) as [[[]|] s2]; simpl in *; [|exact H2].
  unfold bind at 1.
  pose proof (guarded_thermal hw s2 H2) as H3.
  destruct (check_thermal_shedding cfg hw s2) as [[[]|] s3]; simpl in *; [|exact H3].
  unfold bind at 1.
  pose proof (guarded_battery hw s3 H3) as H4.
  destruct (check_battery_shedding cfg hw s3) as [[[]|] s4]; simpl in *; [|exact H4].
  unfold bind at 1.
  pose proof (call_keeps_world _ datetime_now s4 H4) as H5.
  destruct (call datetime_now s4) as [[now|] s5]; simpl in *; [|exact H5].
  destruct (now - last_reset >? timedelta_hours 1); [|exact H5].
  unfold bind at 1.
  pose proof (I_reset s5 H5) as H6.
  unfold reset_restart_counts, bind, modify in H6 |- *. simpl in H6 |- *.
  by apply call_keeps_world.
Qed.

Lemma guarded_main iterations s : I s -> I (main cfg iterations s).2.
Proof.
  intros Hs. unfold main, bind.
  pose proof (call_keeps_world _ datetime_now s Hs) as H1.
  destruct (call datetime_now s) as [[now|] s1]; simpl in *; [|exact H1].
  clear Hs. revert now s1 H1.
  induction iterations as [|k IH]; intros last_reset s1 H1; simpl.
  - exact H1.
  - unfold bind at 1.
    pose proof (guarded_tick last_reset s1 H1) as H2.
    destruct (tick cfg last_reset s1) as [[lr|] s2]; simpl in *; [|exact H2].
    unfold bind at 1.
    assert (I (sleep (CHECK_INTERVAL cfg) s2).2) as H3.
    { unfold sleep, bind, call, ret, raise.
      pose proof (I_world (time_sleep (CHECK_INTERVAL cfg) (world s2)).2 s2 H2).
      by destruct (time_sleep (CHECK_INTERVAL cfg) (world s2)) as [[|] w1]. }
    destruct (sleep (CHECK_INTERVAL cfg) s2) as [[[]|] s3]; simpl in *; [|exact H3].
    by apply IH.
Qed.

End GuardedLoop.

Section Eligibility.

Context {W : Type} {RT : Runtime W}.
Variable cfg : Config.
Implicit Types (s : Sys W) (n : string).

Lemma only_eligible_restart n s :
  only_eligible_shed cfg s -> only_eligible_shed cfg (restart_container cfg n s).2.
Proof.
  intros [Hsh Htr].
  destruct (restart_container_run cfg n s) as [(r & s' & -> & Hrel)| ->]; simpl;
    [|by split].
  destruct Hrel; (split; [exact Hsh|]); simpl; try exact Htr;
    (constructor; [by intros m []|exact Htr]).
Qed.

Lemma only_eligible_stop n reason s :
  shed_eligible cfg n = true ->
  only_eligible_shed cfg s -> only_eligible_shed cfg (stop_container n reason s).2.
Proof.
  intros Hn [Hsh Htr].
  destruct (stop_container_run n reason s) as (r & s' & -> & Hrel); simpl.
  destruct Hrel; split; simpl; try exact Hsh; try exact Htr.
  - constructor; [by intros m <-|exact Htr].
  - intros m [->%elem_of_singleton|Hm]%elem_of_union; [exact Hn|by apply Hsh].
  - constructor; [by intros m <-|exact Htr].
Qed.

Lemma only_eligible_start n s :
  shed_eligible cfg n = true ->
  only_eligible_shed cfg s -> only_eligible_shed cfg (start_container n s).2.
Proof.
  intros Hn [Hsh Htr].
  destruct (start_container_run n s) as (r & s' & -> & Hrel); simpl.
  destruct Hrel; split; simpl; try exact Hsh; try exact Htr.
  - constructor; [by intros m <-|exact Htr].
  - intros m [Hm _]%elem_of_difference. by apply Hsh.
  - constructor; [by intros m <-|exact Htr].
Qed.

Lemma only_eligible_main (w : W) iterations :
  only_eligible_shed cfg (main cfg iterations (initial_sys w)).2.
Proof.
  apply (guarded_main cfg (only_eligible_shed cfg)).
  - intros w1 s H. exact H.
  - intros n s _. apply only_eligible_restart.
  - intros n reason s. apply only_eligible_stop.
  - intros n s. apply only_eligible_start.
  - intros s [Hsh Htr]. split; [exact Hsh|]. simpl. constructor; [by intros m []|exact Htr].
  - split; [intros n Hn; simpl in Hn; set_solver | constructor].
Qed.

(** X9: a container whose name matches no pattern of [THERMAL_SHED_SERVICES]
    and none of [BATTERY_SHED_SERVICES] is never shed: in any run of the main
    loop from a fresh process, whatever the readings and the runtime do, the
    watchdog makes no [container.stop] and no [container.start] call on it
    and its name never enters [shed_services]. *)
Theorem X9_unlisted_containers_are_never_shed (w : W) iterations n :
  shed_eligible cfg n = false ->
  (n ∉ shed_services (main cfg iterations (initial_sys w)).2)
  /\ forall ok, (StopCall n ok ∉ trace (main cfg iterations (initial_sys w)).2)
             /\ (StartCall n ok ∉ trace (main cfg iterations (initial_sys w)).2).
Proof.
  intros Hn. destruct (only_eligible_main w iterations) as [Hsh Htr].
  rewrite Forall_forall in Htr.
  split; [|intros ok; split].
  - intros Hin. apply Hsh in Hin. congruence.
  - intros Hin. specialize (Htr _ Hin n eq_refl). congruence.
  - intros Hin. specialize (Htr _ Hin n eq_refl). congruence.
Qed.

End Eligibility.

Lemma X9_witness :
  shed_eligible default_config "grafana" = false
  /\ (("grafana"%string
         ∉ shed_services (main default_config 2 (initial_sys stressed_world)).2)
      /\ forall ok,
           (StopCall "grafana" ok
              ∉ trace (main default_config 2 (initial_sys stressed_world)).2)
           /\ (StartCall "grafana" ok
                 ∉ trace (main default_config 2 (initial_sys stressed_world)).2)).
Proof.
  split; [reflexivity|].
  apply (X9_unlisted_containers_are_never_shed default_config stressed_world 2 "grafana").
  reflexivity.
Defined.

Section HealthOnlyIf.

Context {W : Type} {RT : Runtime W}.
Variable cfg : Config.
Implicit Types (s : Sys W) (n : string).

Lemma restart_container_events n s :
  shed_services (restart_container cfg n s).2 = shed_services s
  /\ (trace (restart_container cfg n s).2 = trace s
      \/ exists ok a b, trace (restart_container cfg n s).2 = RestartCall n ok a b :: trace s).
Proof.
  destruct (restart_container_run cfg n s) as [(r & s' & -> & Hrel)| ->]; simpl;
    [|by split; [|left]].
  destruct Hrel; simpl; (split; [reflexivity|]).
  - by left.
  - by left.
  - right. eexists _, _, _. reflexivity.
  - right. eexists _, _, _. reflexivity.
Qed.

(** X10: every [container.restart] call the health check makes is on a
    container of the [containers.list(all=True)] answer that was not in
    [shed_services], whose restart policy is not "no", and that was reported
    unhealthy or is a critical service reported not running; nothing else is
    ever restarted, and nothing at all when the listing fails. *)
Theorem X10_health_check_restarts_only_warranted s :
  exists new, issued s (check_container_health cfg s).2 new
    /\ forall n ok a b, RestartCall n ok a b ∈ new ->
         exists containers c,
           (containers_list true (world s)).1 = Some containers
           /\ c ∈ containers /\ name c = n
           /\ restart_warranted cfg (shed_services s) c.
Proof.
  unfold check_container_health. rewrite try_except_ret_state.
  unfold bind at 1, client_containers_list, bind, call, ret, raise.
  destruct (containers_list true (world s)) as [[cs|] w1] eqn:Hlist; simpl.
  2: { exists []. split; [reflexivity|]. intros n ok a b Hin. by apply elem_of_nil in Hin. }
  set (P := fun s' : Sys W =>
    shed_services s' = shed_services s
    /\ exists new, issued s s' new
         /\ forall n ok a b, RestartCall n ok a b ∈ new ->
              exists c, c ∈ cs /\ name c = n /\ restart_warranted cfg (shed_services s) c).
  assert (P (for_each cs (fun container =>
       let nm := name container in
       sh <- read shed_services ;;
       if bool_decide (nm ∈ sh) then ret tt
       else if bool_decide (restart_policy_name container = Some "no"%string) then ret tt
       else
         (if bool_decide (health_status container = Some "unhealthy"%string)
          then restart_container cfg nm ;; ret tt
          else ret tt) ;;
         if bool_decide (status container ≠ "running"%string)
            && container_matches nm (CRITICAL_SERVICES cfg)
         then restart_container cfg nm ;; ret tt
         else ret tt) (set_world w1 s)).2) as [_ (new & Hnew & Hall)].
  2: { exists new. split; [exact Hnew|]. intros n ok a b Hin.
       destruct (Hall n ok a b Hin) as (c & Hc). by exists cs, c. }
  apply for_each_state.
  2: { split; [reflexivity|]. exists []. split; [reflexivity|].
       intros n ok a b Hin. by apply elem_of_nil in Hin. }
  intros c s2 Hc Hs2. cbv zeta. unfold bind at 1, read at 1.
  case_bool_decide as Hshed; [exact Hs2|].
  case_bool_decide as Hpol; [exact Hs2|].
  assert (forall s3, P s3 ->
            health_status c = Some "unhealthy"%string
            \/ (status c <> "running"%string
                /\ container_matches (name c) (CRITICAL_SERVICES cfg) = true) ->
            P (restart_container cfg (name c) s3).2) as Hstep.
  { intros s3 (Hsh3 & new & Hnew & Hall) Hwhy.
    destruct (restart_container_events (name c) s3) as [Hsh [Htr|(ok & a & b & Htr)]];
      (split; [congruence|]).
    - exists new. split; [unfold issued in *; congruence|exact Hall].
    - exists (RestartCall (name c) ok a b :: new).
      split; [unfold issued in *; rewrite Htr, Hnew; reflexivity|].
      intros n ok' a' b' [Heq|Hin]%elem_of_cons; [|exact (Hall _ _ _ _ Hin)].
      injection Heq as -> _ _ _. exists c.
      destruct Hs2 as [Hsh2 _]. rewrite Hsh2 in Hshed. by repeat split. }
  unfold bind at 1.
  assert (P ((if bool_decide (health_status c = Some "unhealthy"%string)
              then restart_container cfg (name c);; ret tt else ret tt) s2).2) as Hs3.
  { case_bool_decide as Hh; [|exact Hs2].
    rewrite bind_ret_state. exact (Hstep s2 Hs2 (or_introl Hh)). }
  destruct ((if bool_decide (health_status c = Some "unhealthy"%string)
             then restart_container cfg (name c);; ret tt else ret tt) s2)
    as [[[]|] s3]; simpl in Hs3 |- *; [|exact Hs3].
  destruct (bool_decide (status c ≠ "running"%string)
            && container_matches (name c) (CRITICAL_SERVICES cfg)) eqn:Hcrit; [|exact Hs3].
  apply andb_true_iff in Hcrit as [Hst%bool_decide_eq_true Hm].
  rewrite bind_ret_state. exact (Hstep s3 Hs3 (or_intror (conj Hst Hm))).
Qed.

End HealthOnlyIf.

(** ** The shed set against the trace *)

Section ShedMirror.

Context {W : Type} {RT : Runtime W}.
Variable cfg : Config.
Implicit Types (s : Sys W) (n : string).

Lemma shed_mirrors_stop n reason s :
  shed_mirrors_trace s -> shed_mirrors_trace (stop_container n reason s).2.
Proof.
  intros Hs. destruct (stop_container_run n reason s) as (r & s' & -> & Hrel); simpl.
  destruct Hrel as [| | |c w1 w2 _ _ _]; try exact Hs.
  intros m. simpl. case_bool_decide as Hm.
  - subst m. split; [done|]. intros _. by apply elem_of_union_l, elem_of_singleton.
  - rewrite <- (Hs m), elem_of_union, elem_of_singleton.
    split; [intros [->|Hin]; [done|exact Hin] | by right].
Qed.

Lemma shed_mirrors_start n s :
  shed_mirrors_trace s -> shed_mirrors_trace (start_container n s).2.
Proof.
  intros Hs. destruct (start_container_run n s) as (r & s' & -> & Hrel); simpl.
  destruct Hrel as [| | |c w1 w2 _ _ _]; try exact Hs.
  intros m. simpl. case_bool_decide as Hm.
  - subst m. split; [|done].
    intros [_ Hn]%elem_of_difference. exfalso. by apply Hn, elem_of_singleton.
  - rewrite <- (Hs m), elem_of_difference, elem_of_singleton.
    split; [by intros [Hin _] | intros Hin; split; [exact Hin|congruence]].
Qed.

Lemma shed_mirrors_carried : carried cfg (@shed_mirrors_trace W).
Proof.
  split.
  - intros s Hs. exact Hs.
  - intros s Hs. exact Hs.
  - intros all s Hs. exact Hs.
  - intros secs s Hs. exact Hs.
  - intros n s _ Hs.
    destruct (restart_container_run cfg n s) as [(r & s' & -> & Hrel)| ->]; simpl;
      [|exact Hs].
    destruct Hrel; exact Hs.
  - intros n reason s. apply shed_mirrors_stop.
  - intros n s. apply shed_mirrors_start.
  - intros s Hs. exact Hs.
Qed.

(** X11: [shed_services] is exactly the set of containers the watchdog has
    stopped and not started since: in any run of the main loop from a fresh
    process, a name is in the set if and only if the newest stop or start of
    it that returned normally is a stop.  Calls that raised, restarts and
    the hourly reset do not count. *)
Theorem X11_shed_set_mirrors_last_action (w : W) iterations n :
  n ∈ shed_services (main cfg iterations (initial_sys w)).2
  <-> shed_by_trace n (trace (main cfg iterations (initial_sys w)).2) = true.
Proof.
  apply (main_keeps cfg _ shed_mirrors_carried).
  intros m. simpl. split; [set_solver|done].
Qed.

End ShedMirror.

(** ** The loop body as a whole *)

Section TickCadence.

Context {W : Type} {RT : Runtime W}.
Variable cfg : Config.
Implicit Types (s : Sys W) (n : string).

Lemma no_reset_since_cons s0 s s' e :
  e <> CountsReset -> trace s' = e :: trace s ->
  no_reset_since s0 s -> no_reset_since s0 s'.
Proof.
  intros He Htr (new & Hnew & Hno). exists (e :: new).
  split; [unfold issued in *; by rewrite Htr, Hnew|].
  intros [Heq|Hin]%elem_of_cons; [by apply He|by apply Hno].
Qed.

Lemma no_reset_since_same s0 s s' :
  trace s' = trace s -> no_reset_since s0 s -> no_reset_since s0 s'.
Proof.
  intros Htr (new & Hnew & Hno). exists new.
  split; [unfold issued in *; by rewrite Htr|exact Hno].
Qed.

Lemma no_reset_restart s0 n s :
  no_reset_since s0 s -> no_reset_since s0 (restart_container cfg n s).2.
Proof.
  intros Hs. destruct (restart_container_run cfg n s) as [(r & s' & -> & Hrel)| ->]; simpl;
    [|by eapply no_reset_since_same; [|exact Hs]].
  destruct Hrel; try (by eapply no_reset_since_same; [|exact Hs]);
    (eapply no_reset_since_cons; [|reflexivity|exact Hs]); discriminate.
Qed.

Lemma no_reset_stop s0 n reason s :
  no_reset_since s0 s -> no_reset_since s0 (stop_container n reason s).2.
Proof.
  intros Hs. destruct (stop_container_run n reason s) as (r & s' & -> & Hrel); simpl.
  destruct Hrel; try (by eapply no_reset_since_same; [|exact Hs]);
    (eapply no_reset_since_cons; [|reflexivity|exact Hs]); discriminate.
Qed.

Lemma no_reset_start s0 n s :
  no_reset_since s0 s -> no_reset_since s0 (start_container n s).2.
Proof.
  intros Hs. destruct (start_container_run n s) as (r & s' & -> & Hrel); simpl.
  destruct Hrel; try (by eapply no_reset_since_same; [|exact Hs]);
    (eapply no_reset_since_cons; [|reflexivity|exact Hs]); discriminate.
Qed.

Lemma tick_run last_reset s :
  exists lr' s', tick cfg last_reset s = (Returned lr', s')
                 /\ tick_outcome last_reset s lr' s'.
Proof.
  set (I := no_reset_since s).
  assert (forall w s1, I s1 -> I (set_world w s1)) as HIw by (intros w s1 H; exact H).
  assert (I s) as Hs by (exists []; split; [reflexivity|apply not_elem_of_nil]).
  unfold tick, try_except. unfold bind at 1.
  assert (I (@get_hw_status W RT s).2) as H1.
  { unfold get_hw_status, bind, call, ret.
    pose proof (HIw (requests_get (world s)).2 s Hs).
    by destruct (requests_get (world s)) as [[hw|] w1]. }
  destruct (get_hw_status s) as [[hw|] s1]; simpl in H1 |- *;
    [|exists last_reset, s1; split; [reflexivity|by left]].
  unfold bind at 1.
  assert (I (check_container_health cfg s1).2) as H2.
  { apply (guarded_health cfg I HIw); [|exact H1].
    intros n s2 _. apply no_reset_restart. }
  destruct (check_container_health cfg s1) as [[[]|] s2]; simpl in H2 |- *;
    [|exists last_reset, s2; split; [reflexivity|by left]].
  unfold bind at 1.
  assert (I (check_thermal_shedding cfg hw s2).2) as H3.
  { apply (guarded_thermal cfg I HIw); [| |exact H2].
    - intros n reason s3 _. apply no_reset_stop.
    - intros n s3 _. apply no_reset_start. }
  destruct (check_thermal_shedding cfg hw s2) as [[[]|] s3]; simpl in H3 |- *;
    [|exists last_reset, s3; split; [reflexivity|by left]].
  unfold bind at 1.
  assert (I (check_battery_shedding cfg hw s3).2) as H4.
  { apply (guarded_battery cfg I HIw); [| |exact H3].
    - intros n reason s4 _. apply no_reset_stop.
    - intros n s4 _. apply no_reset_start. }
  destruct (check_battery_shedding cfg hw s3) as [[[]|] s4]; simpl in H4 |- *;
    [|exists last_reset, s4; split; [reflexivity|by left]].
  unfold bind at 1, call at 1.
  destruct (datetime_now (world s4)) as [now w5] eqn:Hnow.
  destruct (Z.gtb_spec (now - last_reset) (timedelta_hours 1)) as [Hdue|Hnot].
  - unfold reset_restart_counts, bind, modify, call. simpl.
    destruct (datetime_now w5) as [now2 w6] eqn:Hnow2.
    eexists _, _. split; [reflexivity|]. right.
    exists now, s4. rewrite Hnow. simpl. rewrite Hnow2. simpl.
    by repeat split.
  - exists last_reset, (set_world w5 s4). split; [reflexivity|]. left.
    split; [reflexivity|by apply HIw].
Qed.

Lemma sleep_run secs s :
  sleep secs s
  = (if (time_sleep secs (world s)).1 then Returned tt else Raised,
     set_world (time_sleep secs (world s)).2 s).
Proof.
  unfold sleep, bind, call, ret, raise.
  by destruct (time_sleep secs (world s)) as [[|] w1].
Qed.

Lemma main_loop_returns iterations last_reset s :
  (forall w, (time_sleep (CHECK_INTERVAL cfg) w).1 = true) ->
  exists s', main_loop cfg iterations last_reset s = (Returned tt, s').
Proof.
  intros Hsleep.
  revert last_reset s. induction iterations as [|k IH]; intros last_reset s; simpl.
  - by exists s.
  - unfold bind at 1.
    destruct (tick_run last_reset s) as (lr' & s' & -> & _).
    unfold bind at 1. rewrite sleep_run, Hsleep. apply IH.
Qed.

Lemma main_loop_raises iterations last_reset s :
  (time_sleep (CHECK_INTERVAL cfg) (world (tick cfg last_reset s).2)).1 = false ->
  exists s', main_loop cfg (S iterations) last_reset s = (Raised, s').
Proof.
  intros Hsleep. simpl. unfold bind at 1.
  destruct (tick_run last_reset s) as (lr' & s' & Hrun & _).
  rewrite Hrun in *. simpl in Hsleep.
  unfold bind at 1. rewrite sleep_run, Hsleep. by eexists.
Qed.

Context {MC : MonotoneClock W}.

(** X12: one turn of the loop body never raises, whatever the runtime does.
    It either leaves [last_reset] as it was and has not reset the attempt
    counts, or it has reset them exactly once, as its last action, leaving
    [restart_attempts] empty, and the new [last_reset] is more than an hour
    after the old one, so that between two resets more than an hour passes.
    The loop itself ends only through [time.sleep], which stands outside the
    [try]: as long as [time.sleep(CHECK_INTERVAL)] returns the loop goes on,
    and when it raises after a turn the loop ends by that exception. *)
Theorem X12_tick_never_raises_and_resets_at_most_hourly last_reset s iterations :
  (exists lr' s' new,
     tick cfg last_reset s = (Returned lr', s')
     /\ issued s s' new
     /\ ((lr' = last_reset /\ CountsReset ∉ new)
         \/ (last_reset + timedelta_hours 1 < lr'
             /\ restart_attempts s' = ∅
             /\ exists older, new = CountsReset :: older /\ CountsReset ∉ older)))
  /\ ((forall w, (time_sleep (CHECK_INTERVAL cfg) w).1 = true) ->
      exists s', main_loop cfg iterations last_reset s = (Returned tt, s'))
  /\ ((time_sleep (CHECK_INTERVAL cfg) (world (tick cfg last_reset s).2)).1 = false ->
      exists s', main_loop cfg (S iterations) last_reset s = (Raised, s')).
Proof.
  split; [|split].
  - destruct (tick_run last_reset s) as (lr' & s' & Hrun & Hout).
    exists lr', s'.
    destruct Hout as [[-> (new & Hnew & Hno)]
                     |(now & s5 & (older & Hold & Hno) & Hdue & Hnow & Hlr & Hra & _ & _ & Htr)].
    + exists new. split; [exact Hrun|]. split; [exact Hnew|]. by left.
    + exists (CountsReset :: older). split; [exact Hrun|].
      split; [unfold issued in *; by rewrite Htr, Hold|]. right.
      split; [|split; [exact Hra|by exists older]].
      pose proof (datetime_now_clock (world s5)) as [_ Hc1].
      pose proof (datetime_now_clock (datetime_now (world s5)).2) as [Hc2 _].
      lia.
  - apply main_loop_returns.
  - apply main_loop_raises.
Qed.

End TickCadence.

Lemma X12_witness :
  (exists lr' s' new,
     tick default_config 0 reset_due_state = (Returned lr', s')
     /\ issued reset_due_state s' new
     /\ ((lr' = 0 /\ CountsReset ∉ new)
         \/ (0 + timedelta_hours 1 < lr'
             /\ restart_attempts s' = ∅
             /\ exists older, new = CountsReset :: older /\ CountsReset ∉ older)))
  /\ (forall w, (time_sleep (CHECK_INTERVAL default_config) w).1 = true)
  /\ (exists s', main_loop default_config 3 0 reset_due_state = (Returned tt, s')).
Proof.
  destruct (X12_tick_never_raises_and_resets_at_most_hourly default_config 0
              reset_due_state 3) as (Htick & Hloop & _).
  assert (forall w, (time_sleep (CHECK_INTERVAL default_config) w).1 = true) as Hsleep
    by (intros w; reflexivity).
  split; [exact Htick|]. split; [exact Hsleep|]. exact (Hloop Hsleep).
Defined.

(** ** Consequences on the simulated daemon *)

Section SimConsequences.

Variable cfg : Config.
Implicit Types (s : Sys Sim.World) (n : string).


End SimConsequences.


(** ** A due restart goes through *)

Section SimRestart.

Variable cfg : Config.
Variable n : string.
Variable s0 : Sys Sim.World.
Hypothesis cooldown_nonneg : 0 <= RESTART_COOLDOWN cfg.
Implicit Types (s : Sys Sim.World) (m : string).

Lemma check_container_health_turns {W : Type} {RT : Runtime W} :
  @check_container_health W RT cfg
  = try_except
      (containers <- client_containers_list true ;;
       for_each containers (health_turn cfg))
      (ret tt).
Proof. reflexivity. Qed.

Lemma sim_lifecycle_true st m w w' :
  Sim.lifecycle st m w = (true, w') ->
  Sim.containers w' = Sim.set_status m st (Sim.containers w)
  /\ Sim.now_us w <= Sim.now_us w'.
Proof.
  unfold Sim.lifecycle. destruct (Sim.fails m w); [discriminate|].
  intros [= <-]. split; [reflexivity|]. simpl. lia.
Qed.

Lemma sim_now_reading w t w' :
  datetime_now w = (t, w') ->
  Sim.now_us w <= t /\ Sim.now_us w <= Sim.now_us w' /\ Sim.down w' = Sim.down w
  /\ Sim.faulty w' = Sim.faulty w /\ Sim.containers w' = Sim.containers w.
Proof. simpl. intros [= <- <-]. simpl. repeat split; lia. Qed.

Lemma sim_get_found m w g w' :
  containers_get m w = (g, w') ->
  Sim.now_us w <= Sim.now_us w' /\ Sim.down w' = Sim.down w
  /\ Sim.faulty w' = Sim.faulty w /\ Sim.containers w' = Sim.containers w
  /\ (Sim.down w = false ->
      forall c, Sim.find_container m (Sim.containers w) = Some c -> g = Found c).
Proof.
  simpl. unfold Sim.get_container. destruct (Sim.down w) eqn:Hd.
  - intros [= <- <-]. simpl. repeat split; try lia; try done.
  - destruct (Sim.find_container m (Sim.containers w)) as [c|];
      intros [= <- <-]; simpl; repeat split; try lia; try done.
    by intros _ c' [= ->].
Qed.

Lemma sim_restart_outcome m w ok w' :
  container_restart m w = (ok, w') ->
  Sim.now_us w <= Sim.now_us w' /\ Sim.down w' = Sim.down w
  /\ Sim.faulty w' = Sim.faulty w
  /\ Sim.containers w'
     = (if ok then Sim.set_status m "running" (Sim.containers w) else Sim.containers w)
  /\ (Sim.down w = false -> m ∉ Sim.faulty w -> ok = true).
Proof.
  simpl. unfold Sim.lifecycle, Sim.fails.
  destruct (Sim.down w) eqn:Hd; simpl.
  - intros [= <- <-]. simpl. repeat split; try lia; try done.
  - case_bool_decide as Hf; intros [= <- <-]; simpl; repeat split; try lia; try done.
Qed.

Lemma find_set_status_is_Some m st cs :
  is_Some (Sim.find_container n cs) ->
  is_Some (Sim.find_container n (Sim.set_status m st cs)).
Proof.
  intros [c Hc]. destruct (decide (n = m)) as [<-|Hne].
  - destruct (find_set_status_same n st cs c Hc) as (c' & Hc' & _). by exists c'.
  - rewrite find_set_status_other by done. by exists c.
Qed.

(** *** The end of the calendar *)

Lemma datetime_plus_seconds_fits t :
  0 <= t ->
  t + timedelta_seconds (RESTART_COOLDOWN cfg) <= datetime_max ->
  datetime_plus_seconds t (RESTART_COOLDOWN cfg)
  = Some (t + timedelta_seconds (RESTART_COOLDOWN cfg)).
Proof.
  intros Ht Hfit. unfold datetime_plus_seconds, timedelta_in_range.
  unfold timedelta_seconds, datetime_max in *.
  assert (0 <= RESTART_COOLDOWN cfg * 1000000 / (86400 * 1000000) <= 999999999)
    as [Hlo Hhi].
  { split; [apply Z.div_pos; lia|].
    apply Z.lt_succ_r, Z.div_lt_upper_bound; lia. }
  assert ((-999999999 <=? RESTART_COOLDOWN cfg * 1000000 / (86400 * 1000000)) = true)
    as -> by (apply Z.leb_le; lia).
  assert ((RESTART_COOLDOWN cfg * 1000000 / (86400 * 1000000) <=? 999999999) = true)
    as -> by (by apply Z.leb_le).
  assert ((0 <=? t + RESTART_COOLDOWN cfg * 1000000) = true) as ->
    by (apply Z.leb_le; lia).
  assert ((t + RESTART_COOLDOWN cfg * 1000000 <=? 3652059 * 86400 * 1000000 - 1) = true)
    as -> by (by apply Z.leb_le).
  reflexivity.
Qed.

Lemma overflow_is_late m s :
  stamps_past s ->
  cooldown_overflows cfg (last_restart s) m = true ->
  calendar_over cfg s.
Proof.
  intros [Hnow Hpast]. unfold cooldown_overflows, calendar_over.
  destruct (last_restart s !! m) as [t|] eqn:Ht; [|discriminate].
  destruct (Hpast m t Ht) as [Ht0 Htn].
  destruct (Z.le_gt_cases (Sim.now_us (world s)
                           + timedelta_seconds (RESTART_COOLDOWN cfg)) datetime_max)
    as [Hfit|Hlate]; [|intros _; lia].
  rewrite datetime_plus_seconds_fits by lia. discriminate.
Qed.

Lemma calendar_over_later s s' :
  Sim.now_us (world s) <= Sim.now_us (world s') ->
  calendar_over cfg s -> calendar_over cfg s'.
Proof. unfold calendar_over. lia. Qed.

Lemma restart_container_clock m s :
  Sim.now_us (world s) <= Sim.now_us (world (restart_container cfg m s).2).
Proof.
  destruct (restart_container_run cfg m s) as [(r & s' & -> & Hrel)| ->]; simpl; [|lia].
  destruct Hrel as [now w1 Hnow Hgov|now w1 g w2 Hnow Hgov Hget Hg
                   |now w1 c w2 w3 Hnow Hgov Hget Hres
                   |now w1 c w2 w3 now' w4 Hnow Hgov Hget Hres Hnow'];
    apply sim_now_reading in Hnow as (_ & Ht1 & _);
    try apply sim_get_found in Hget as (Ht2 & _);
    try apply sim_restart_outcome in Hres as (Ht3 & _);
    try apply sim_now_reading in Hnow' as (_ & Ht4 & _);
    simpl; lia.
Qed.

Lemma stamps_past_restart m s :
  stamps_past s -> stamps_past (restart_container cfg m s).2.
Proof.
  intros [Hnow Hpast].
  destruct (restart_container_run cfg m s) as [(r & s' & -> & Hrel)| ->]; simpl.
  2: { split; simpl; [lia|]. intros m' t Ht. specialize (Hpast m' t Ht). simpl. lia. }
  destruct Hrel as [now w1 Hnow1 Hgov|now w1 g w2 Hnow1 Hgov Hget Hg
                   |now w1 c w2 w3 Hnow1 Hgov Hget Hres
                   |now w1 c w2 w3 now' w4 Hnow1 Hgov Hget Hres Hnow'];
    apply sim_now_reading in Hnow1 as (_ & Ht1 & _);
    try apply sim_get_found in Hget as (Ht2 & _);
    try apply sim_restart_outcome in Hres as (Ht3 & _).
  - split; simpl; [lia|]. intros m' t Ht. specialize (Hpast m' t Ht). lia.
  - split; simpl; [lia|]. intros m' t Ht. specialize (Hpast m' t Ht). lia.
  - split; simpl; [lia|]. intros m' t Ht. specialize (Hpast m' t Ht). lia.
  - simpl in Hnow'. injection Hnow' as <- <-. split; simpl; [lia|].
    intros m' t. destruct (decide (m = m')) as [->|Hne].
    + rewrite lookup_insert_eq. intros [= <-]. lia.
    + rewrite lookup_insert_ne by done. intros Ht. specialize (Hpast m' t Ht). lia.
Qed.

(** *** Pending, done, or out of calendar *)

Lemma restart_pending_other m s :
  m <> n -> restart_pending cfg n s0 s ->
  restart_pending cfg n s0 (restart_container cfg m s).2.
Proof.
  intros Hne (Hd & Hf & Hfind & Hsh & Hcd & Hbud & Hra & new & Hnew).
  destruct (restart_container_run cfg m s) as [(r & s' & -> & Hrel)| ->]; simpl.
  2: { unfold restart_pending; simpl. repeat split; try done.
       - intros t Ht. specialize (Hcd t Ht). lia.
       - by exists new. }
  destruct Hrel as [now w1 Hnow Hgov|now w1 g w2 Hnow Hgov Hget Hg
                   |now w1 c w2 w3 Hnow Hgov Hget Hres
                   |now w1 c w2 w3 now' w4 Hnow Hgov Hget Hres Hnow'];
    apply sim_now_reading in Hnow as (_ & Ht1 & Hd1 & Hf1 & Hc1);
    try apply sim_get_found in Hget as (Ht2 & Hd2 & Hf2 & Hc2 & _);
    try apply sim_restart_outcome in Hres as (Ht3 & Hd3 & Hf3 & Hc3 & _);
    try apply sim_now_reading in Hnow' as (_ & Ht4 & Hd4 & Hf4 & Hc4);
    unfold restart_pending; simpl.
  - repeat split; try congruence.
    + intros t Ht. specialize (Hcd t Ht). lia.
    + by exists new.
  - repeat split; try congruence.
    + intros t Ht. specialize (Hcd t Ht). lia.
    + by exists new.
  - repeat split; try congruence.
    + intros t Ht. specialize (Hcd t Ht). lia.
    + eexists (_ :: new). unfold issued in *. simpl. by rewrite Hnew.
  - rewrite !lookup_insert_ne by done. repeat split; try congruence.
    + rewrite Hc4, Hc3, Hc2, Hc1. by apply find_set_status_is_Some.
    + intros t Ht. specialize (Hcd t Ht). lia.
    + eexists (_ :: new). unfold issued in *. simpl. by rewrite Hnew.
Qed.

Lemma restart_pending_self s :
  cooldown_overflows cfg (last_restart s) n = false ->
  restart_pending cfg n s0 s ->
  restart_done n s0 (restart_container cfg n s).2.
Proof.
  intros Hov (Hd & Hf & [c0 Hfind] & Hsh & Hcd & Hbud & Hra & new & Hnew).
  destruct (restart_container_returns cfg n s Hov) as (r & s' & -> & Hrel); simpl.
  destruct Hrel as [now w1 Hnow Hgov|now w1 g w2 Hnow Hgov Hget Hg
                   |now w1 c w2 w3 Hnow Hgov Hget Hres
                   |now w1 c w2 w3 now' w4 Hnow Hgov Hget Hres Hnow'];
    apply sim_now_reading in Hnow as (Hr1 & Ht1 & Hd1 & Hf1 & Hc1).
  - exfalso. unfold governor_allows in Hgov.
    apply andb_false_iff in Hgov as [Hgov|Hgov]; apply negb_false_iff in Hgov.
    + destruct (last_restart s !! n) as [t|] eqn:Ht; [|discriminate].
      apply Z.ltb_lt in Hgov. specialize (Hcd t eq_refl). lia.
    + apply Z.geb_le in Hgov. lia.
  - exfalso. apply sim_get_found in Hget as (_ & _ & _ & _ & Hfound).
    apply (Hg c0), Hfound; congruence.
  - exfalso. apply sim_get_found in Hget as (_ & Hd2 & Hf2 & _ & _).
    apply sim_restart_outcome in Hres as (_ & _ & _ & _ & Hok).
    assert (false = true) by (apply Hok; congruence). discriminate.
  - apply sim_get_found in Hget as (_ & Hd2 & Hf2 & Hc2 & _).
    apply sim_restart_outcome in Hres as (_ & _ & _ & Hc3 & _).
    apply sim_now_reading in Hnow' as (_ & _ & _ & _ & Hc4).
    split; [|split; [|split]].
    + exists (RestartCall n true (clock w2) (clock w3) :: new), (clock w2), (clock w3).
      split; [unfold issued in *; simpl; by rewrite Hnew|apply list_elem_of_here].
    + unfold has_status, view_of. simpl. rewrite Hc4, Hc3, Hc2, Hc1.
      by apply find_set_status_same with c0.
    + simpl. rewrite lookup_insert_eq. by eexists.
    + simpl. rewrite lookup_insert_eq. simpl. rewrite Hra. lia.
Qed.

Lemma restart_done_restart m s :
  restart_done n s0 s -> restart_done n s0 (restart_container cfg m s).2.
Proof.
  intros ((new & a & b & Hnew & Hin) & (c0 & Hfind & Hst) & Hlr & Hra).
  destruct (restart_container_run cfg m s) as [(r & s' & -> & Hrel)| ->]; simpl.
  2: { split; [by exists new, a, b|]. split; [|by split]. by exists c0. }
  destruct Hrel as [now w1 Hnow Hgov|now w1 g w2 Hnow Hgov Hget Hg
                   |now w1 c w2 w3 Hnow Hgov Hget Hres
                   |now w1 c w2 w3 now' w4 Hnow Hgov Hget Hres Hnow'];
    apply sim_now_reading in Hnow as (_ & _ & _ & _ & Hc1);
    try apply sim_get_found in Hget as (_ & _ & _ & Hc2 & _);
    try apply sim_restart_outcome in Hres as (_ & _ & _ & Hc3 & _);
    try apply sim_now_reading in Hnow' as (_ & _ & _ & _ & Hc4).
  - split; [by exists new, a, b|]. split; [|by split].
    exists c0. simpl. by rewrite Hc1.
  - split; [by exists new, a, b|]. split; [|by split].
    exists c0. simpl. by rewrite Hc2, Hc1.
  - split; [|split; [|by split]].
    + eexists (_ :: new), a, b. split; [unfold issued in *; simpl; by rewrite Hnew|].
      by apply list_elem_of_further.
    + exists c0. simpl. by rewrite Hc3, Hc2, Hc1.
  - split; [|split; [|split]].
    + eexists (_ :: new), a, b. split; [unfold issued in *; simpl; by rewrite Hnew|].
      by apply list_elem_of_further.
    + unfold has_status, view_of. simpl. rewrite Hc4, Hc3, Hc2, Hc1.
      destruct (decide (n = m)) as [<-|Hne].
      * by apply find_set_status_same with c0.
      * exists c0. by rewrite find_set_status_other.
    + simpl. destruct (decide (m = n)) as [->|Hne].
      * rewrite lookup_insert_eq. by eexists.
      * by rewrite lookup_insert_ne.
    + simpl. destruct (decide (m = n)) as [->|Hne].
      * rewrite lookup_insert_eq. simpl. lia.
      * by rewrite lookup_insert_ne.
Qed.

(** A restart of another container keeps a pending restart pending, and
    raises only out of calendar. *)
Lemma pending_or_late_other m s :
  m <> n -> restart_pending_or_late cfg n s0 s ->
  restart_pending_or_late cfg n s0 (restart_container cfg m s).2
  /\ ((restart_container cfg m s).1 = Raised ->
      calendar_over cfg (restart_container cfg m s).2).
Proof.
  intros Hne [Hlate|[Hpast Hpend]].
  - assert (calendar_over cfg (restart_container cfg m s).2) as Hlate'
      by (eapply calendar_over_later; [apply restart_container_clock|exact Hlate]).
    split; [by left|done].
  - split.
    + right. split; [by apply stamps_past_restart|by apply restart_pending_other].
    + destruct (cooldown_overflows cfg (last_restart s) m) eqn:Hov.
      * intros _. eapply calendar_over_later; [apply restart_container_clock|].
        by apply overflow_is_late with m.
      * destruct (restart_container_returns cfg m s Hov) as (r & s' & -> & _).
        discriminate.
Qed.

Lemma pending_or_late_self s :
  restart_pending_or_late cfg n s0 s ->
  restart_done_or_late cfg n s0 (restart_container cfg n s).2.
Proof.
  intros [Hlate|[Hpast Hpend]].
  - right. eapply calendar_over_later; [apply restart_container_clock|exact Hlate].
  - destruct (cooldown_overflows cfg (last_restart s) n) eqn:Hov.
    + right. eapply calendar_over_later; [apply restart_container_clock|].
      by apply overflow_is_late with n.
    + left. by apply restart_pending_self.
Qed.

Lemma done_or_late_restart m s :
  restart_done_or_late cfg n s0 s ->
  restart_done_or_late cfg n s0 (restart_container cfg m s).2.
Proof.
  intros [Hdone|Hlate].
  - left. by apply restart_done_restart.
  - right. eapply calendar_over_later; [apply restart_container_clock|exact Hlate].
Qed.

(** *** The turns of the loop *)

(** A turn keeps what each [restart_container] call on its container
    keeps, whether it returns or raises. *)
Lemma health_turn_keeps (I : Sys Sim.World -> Prop) (x : Container) s :
  (forall s1, I s1 -> I (restart_container cfg (name x) s1).2) ->
  I s -> I (health_turn cfg x s).2.
Proof.
  intros Hstep Hs. unfold health_turn. cbv zeta. unfold bind at 1, read at 1.
  case_bool_decide as Hshed; [exact Hs|].
  case_bool_decide as Hpol; [exact Hs|].
  unfold bind at 1.
  assert (I ((if bool_decide (health_status x = Some "unhealthy"%string)
              then restart_container cfg (name x);; ret tt else ret tt) s).2) as Hs2.
  { case_bool_decide as Hh; [|exact Hs]. rewrite bind_ret_state. by apply Hstep. }
  destruct ((if bool_decide (health_status x = Some "unhealthy"%string)
             then restart_container cfg (name x);; ret tt else ret tt) s)
    as [[[]|] s2]; simpl in Hs2 |- *; [|exact Hs2].
  destruct (_ && _); [|exact Hs2].
  rewrite bind_ret_state. by apply Hstep.
Qed.

Lemma bind_ret_raised A (mm : M Sim.World A) s :
  ((mm ;; ret tt) s).1 = Raised -> (mm s).1 = Raised.
Proof. unfold bind, ret. by destruct (mm s) as [[a|] s1]. Qed.

Lemma health_turn_other (x : Container) s :
  name x <> n -> restart_pending_or_late cfg n s0 s ->
  restart_pending_or_late cfg n s0 (health_turn cfg x s).2
  /\ ((health_turn cfg x s).1 = Raised -> calendar_over cfg (health_turn cfg x s).2).
Proof.
  intros Hne Hs.
  destruct (health_turn cfg x s) as [o s1] eqn:Hturn. simpl.
  revert Hturn. unfold health_turn. cbv zeta. unfold bind at 1, read at 1.
  case_bool_decide as Hshed; [intros [= <- <-]; by split|].
  case_bool_decide as Hpol; [intros [= <- <-]; by split|].
  unfold bind at 1.
  assert (forall s2 o' s', restart_pending_or_late cfg n s0 s2 ->
            (restart_container cfg (name x);; ret tt) s2 = (o', s') ->
            restart_pending_or_late cfg n s0 s'
            /\ (o' = Raised -> calendar_over cfg s')) as Hcall.
  { intros s2 o' s' Hs2 Hrun.
    destruct (pending_or_late_other (name x) s2 Hne Hs2) as [Hp Hr].
    rewrite <- (bind_ret_state _ (restart_container cfg (name x))) in Hp, Hr.
    rewrite Hrun in Hp, Hr. simpl in Hp, Hr. split; [exact Hp|].
    intros ->. apply Hr. apply bind_ret_raised. by rewrite Hrun. }
  assert (forall o' s', (if bool_decide (health_status x = Some "unhealthy"%string)
                         then restart_container cfg (name x);; ret tt else ret tt) s
                        = (o', s') ->
            restart_pending_or_late cfg n s0 s'
            /\ (o' = Raised -> calendar_over cfg s')) as Hfirst.
  { intros o' s'. case_bool_decide as Hh; [by apply Hcall|].
    intros [= <- <-]. by split. }
  destruct ((if bool_decide (health_status x = Some "unhealthy"%string)
             then restart_container cfg (name x);; ret tt else ret tt) s)
    as [[[]|] s2] eqn:Hrun1; destruct (Hfirst _ _ eq_refl) as [Hs2 Hr2].
  - destruct (_ && _); [by apply Hcall|].
    intros [= <- <-]. by split.
  - intros [= <- <-]. split; [exact Hs2|exact Hr2].
Qed.

Lemma health_turn_self (x : Container) s :
  name x = n ->
  restart_policy_name x <> Some "no"%string ->
  health_status x = Some "unhealthy"%string
  \/ (status x <> "running"%string
      /\ container_matches (name x) (CRITICAL_SERVICES cfg) = true) ->
  restart_pending_or_late cfg n s0 s ->
  restart_done_or_late cfg n s0 (health_turn cfg x s).2.
Proof.
  intros Hname Hpol Hwhy Hs.
  destruct Hs as [Hlate|[Hpast Hpend]].
  { apply (health_turn_keeps (restart_done_or_late cfg n s0));
      [intros s1; apply done_or_late_restart|by right]. }
  pose proof Hpend as (_ & _ & _ & Hsh & _).
  unfold health_turn. cbv zeta. unfold bind at 1, read at 1. rewrite Hname.
  rewrite bool_decide_eq_false_2 by exact Hsh.
  rewrite bool_decide_eq_false_2 by exact Hpol.
  unfold bind at 1. case_bool_decide as Hh.
  - pose proof (pending_or_late_self s (or_intror (conj Hpast Hpend))) as Hdone.
    rewrite <- (bind_ret_state _ (restart_container cfg n)) in Hdone.
    destruct ((restart_container cfg n;; ret ()) s) as [[[]|] s2]; simpl in Hdone |- *;
      [|exact Hdone].
    destruct (_ && _); [|exact Hdone].
    rewrite bind_ret_state. by apply done_or_late_restart.
  - destruct Hwhy as [Hu|[Hst Hm]]; [contradiction|].
    unfold ret at 1. rewrite Hname in Hm. rewrite Hm.
    rewrite bool_decide_eq_true_2 by exact Hst. simpl.
    rewrite bind_ret_state. apply pending_or_late_self. right. by split.
Qed.

Lemma health_loop_done (cs : list Container) s :
  restart_done_or_late cfg n s0 s ->
  restart_done_or_late cfg n s0 (for_each cs (health_turn cfg) s).2.
Proof.
  intros Hs. apply for_each_state; [|exact Hs].
  intros x s1 _ Hs1. apply health_turn_keeps; [|exact Hs1].
  intros s2. apply done_or_late_restart.
Qed.

Lemma health_loop_restarts (cs : list Container) c s :
  Sim.find_container n cs = Some c ->
  restart_policy_name c <> Some "no"%string ->
  health_status c = Some "unhealthy"%string
  \/ (status c <> "running"%string
      /\ container_matches (name c) (CRITICAL_SERVICES cfg) = true) ->
  restart_pending_or_late cfg n s0 s ->
  restart_done_or_late cfg n s0 (for_each cs (health_turn cfg) s).2.
Proof.
  intros Hfind Hpol Hwhy. revert s.
  induction cs as [|x cs IH]; intros s Hs; [discriminate|].
  unfold Sim.find_container in Hfind. simpl in Hfind. simpl. unfold bind.
  case_bool_decide as Hx.
  - injection Hfind as ->.
    pose proof (health_turn_self c s Hx Hpol Hwhy Hs) as Hs1.
    destruct (health_turn cfg c s) as [[[]|] s1]; simpl in Hs1 |- *; [|exact Hs1].
    by apply health_loop_done.
  - destruct (health_turn_other x s Hx Hs) as [Hs1 Hr1].
    destruct (health_turn cfg x s) as [[[]|] s1]; simpl in Hs1, Hr1 |- *.
    + by apply IH.
    + right. by apply Hr1.
Qed.

End SimRestart.

(** X14: on a reachable daemon the health check does restart what is due:
    a listed container that is not shed, whose policy is not "no", that is
    unhealthy or a stopped critical service, whose cooldown is over, whose
    attempts are below the maximum and whose restart call works is
    restarted in this very pass; afterwards it is running, the restart is
    counted in [restart_attempts] and stamped in [last_restart].  This is
    for a cooldown that is not negative, [last_restart] stamps that lie in
    the past, and a pass that ends while a cooldown still fits in the
    calendar, so that no [should_restart] of the pass raises
    [OverflowError]. *)
Theorem X14_due_restart_goes_through (cfg : Config) (s : Sys Sim.World) n c :
  Sim.down (world s) = false ->
  n ∉ Sim.faulty (world s) ->
  Sim.find_container n (Sim.containers (world s)) = Some c ->
  restart_warranted cfg (shed_services s) c ->
  (forall t, last_restart s !! n = Some t ->
             t + timedelta_seconds (RESTART_COOLDOWN cfg) <= Sim.now_us (world s)) ->
  default 0 (restart_attempts s !! n) < MAX_RESTART_ATTEMPTS cfg ->
  0 <= RESTART_COOLDOWN cfg ->
  stamps_past s ->
  ~ calendar_over cfg (check_container_health cfg s).2 ->
  restart_done n s (check_container_health cfg s).2.
Proof.
  intros Hd Hf Hfind (Hsh & Hpol & Hwhy) Hcd Hbud Hnonneg [Hnow Hpast] Hroom.
  pose proof (find_container_name n _ c Hfind) as [Hname _].
  assert (restart_done_or_late cfg n s (check_container_health cfg s).2) as [Hdone|Hlate];
    [|exact Hdone|contradiction].
  rewrite check_container_health_turns, try_except_ret_state.
  unfold bind at 1, client_containers_list, bind, call, ret. simpl.
  unfold Sim.list_containers. rewrite Hd. simpl.
  apply health_loop_restarts with c; try done.
  right. split.
  - split; simpl; [lia|]. intros m t Ht. specialize (Hpast m t Ht). lia.
  - unfold restart_pending. simpl. rewrite Hname in Hsh.
    split; [exact Hd|]. split; [exact Hf|]. split; [by exists c|].
    split; [exact Hsh|]. split; [|split; [exact Hbud|split; [reflexivity|by exists []]]].
    intros t Ht. specialize (Hcd t Ht). lia.
Qed.

Lemma X14_witness :
  let s := initial_sys stressed_world in
  let c := container "nginx" "running" (Some "unhealthy"%string) in
  Sim.down (world s) = false
  /\ ("nginx"%string ∉ Sim.faulty (world s))
  /\ Sim.find_container "nginx" (Sim.containers (world s)) = Some c
  /\ restart_warranted default_config (shed_services s) c
  /\ (forall t, last_restart s !! "nginx"%string = Some t ->
                t + timedelta_seconds (RESTART_COOLDOWN default_config)
                <= Sim.now_us (world s))
  /\ default 0 (restart_attempts s !! "nginx"%string) < MAX_RESTART_ATTEMPTS default_config
  /\ 0 <= RESTART_COOLDOWN default_config
  /\ stamps_past s
  /\ ~ calendar_over default_config (check_container_health default_config s).2
  /\ restart_done "nginx" s (check_container_health default_config s).2.
Proof.
  intros s c.
  assert (Sim.down (world s) = false) as H1 by reflexivity.
  assert ("nginx"%string ∉ Sim.faulty (world s)) as H2.
  { simpl. intros [Heq|Hin]%elem_of_cons; [discriminate|by apply elem_of_nil in Hin]. }
  assert (Sim.find_container "nginx" (Sim.containers (world s)) = Some c) as H3
    by reflexivity.
  assert (restart_warranted default_config (shed_services s) c) as H4.
  { split; [apply not_elem_of_empty|]. split; [discriminate|]. by left. }
  assert (forall t, last_restart s !! "nginx"%string = Some t ->
                    t + timedelta_seconds (RESTART_COOLDOWN default_config)
                    <= Sim.now_us (world s)) as H5.
  { intros t Ht. simpl in Ht. by rewrite lookup_empty in Ht. }
  assert (default 0 (restart_attempts s !! "nginx"%string)
          < MAX_RESTART_ATTEMPTS default_config) as H6.
  { simpl. rewrite lookup_empty. simpl. lia. }
  assert (0 <= RESTART_COOLDOWN default_config) as H7 by (simpl; lia).
  assert (stamps_past s) as H8.
  { split; simpl; [lia|]. intros m t Ht. by rewrite lookup_empty in Ht. }
  assert (~ calendar_over default_config (check_container_health default_config s).2)
    as H9.
  { unfold calendar_over. apply Z.le_ngt. vm_compute. discriminate. }
  split; [exact H1|]. split; [exact H2|]. split; [exact H3|]. split; [exact H4|].
  split; [exact H5|]. split; [exact H6|]. split; [exact H7|]. split; [exact H8|].
  split; [exact H9|].
  exact (X14_due_restart_goes_through default_config s "nginx" c
           H1 H2 H3 H4 H5 H6 H7 H8 H9).
Defined.

(** * The hw-monitor's battery reading *)

Section BatteryReading.

Import HwMonitor.

Lemma lor_shifted_low a b : 0 <= b < 256 -> Z.lor (a * 256) b = a * 256 + b.
Proof.
  intros Hb.
  assert (Z.land (a * 256) b = 0) as Hdisjoint.
  { apply Z.bits_inj'. intros k Hk. rewrite Z.land_spec, Z.bits_0.
    destruct (Z.lt_ge_cases k 8) as [Hlow|Hhigh].
    - change 256 with (2 ^ 8). rewrite Z.mul_pow2_bits_low by lia. reflexivity.
    - rewrite <- (Z.mod_small b (2 ^ 8)) by (change (2 ^ 8) with 256; lia).
      rewrite Z.mod_pow2_bits_high by lia. apply andb_false_r. }
  rewrite <- Z.lxor_lor by exact Hdisjoint.
  symmetry. by apply Z.add_nocarry_lxor.
Qed.

Lemma swap_bytes_arith raw :
  swap_bytes raw = (raw mod 256) * 256 + (raw / 256) mod 256.
Proof.
  unfold swap_bytes. change 255 with (Z.ones 8).
  rewrite !Z.land_ones by lia.
  rewrite Z.shiftl_mul_pow2, Z.shiftr_div_pow2 by lia.
  change (2 ^ 8) with 256. apply lor_shifted_low.
  apply Z.mod_pos_bound. lia.
Qed.

Lemma swap_bytes_range raw : 0 <= swap_bytes raw < 65536.
Proof.
  rewrite swap_bytes_arith.
  pose proof (Z.mod_pos_bound raw 256). pose proof (Z.mod_pos_bound (raw / 256) 256).
  lia.
Qed.

Lemma swap_bytes_high raw : swap_bytes raw / 256 = raw mod 256.
Proof.
  rewrite swap_bytes_arith.
  pose proof (Z.mod_pos_bound (raw / 256) 256).
  rewrite Z.div_add_l by lia. rewrite Z.div_small by lia. lia.
Qed.

Lemma swap_bytes_low raw : swap_bytes raw mod 256 = (raw / 256) mod 256.
Proof.
  rewrite swap_bytes_arith.
  rewrite Z.add_comm, Z.mod_add by lia. apply Z.mod_mod. lia.
Qed.

Lemma swap_bytes_involutive raw : 0 <= raw < 65536 -> swap_bytes (swap_bytes raw) = raw.
Proof.
  intros Hraw. rewrite (swap_bytes_arith (swap_bytes raw)).
  rewrite swap_bytes_high, swap_bytes_low.
  rewrite (Z.mod_small (raw mod 256)) by (apply Z.mod_pos_bound; lia).
  assert (0 <= raw / 256 < 256) as Hhigh.
  { split; [apply Z.div_pos; lia|apply Z.div_lt_upper_bound; lia]. }
  rewrite (Z.mod_small (raw / 256)) by exact Hhigh.
  pose proof (Z.div_mod raw 256). lia.
Qed.

Lemma int_of_percent soc_swapped :
  0 <= soc_swapped -> int_of (inject_Z soc_swapped / inject_Z 256) = soc_swapped / 256.
Proof.
  intros Hsoc. unfold int_of, Qdiv, Qmult, Qinv, inject_Z. simpl.
  rewrite Z.mul_1_r. apply Z.quot_div_nonneg; lia.
Qed.

Lemma voltage_at_least_410 v : Qle_bool (410 # 100) (voltage_of v) = (52480 <=? v).
Proof.
  apply eq_iff_eq_true. rewrite Qle_bool_iff, Z.leb_le.
  unfold Qle, voltage_of, Qdiv, Qmult, Qinv, inject_Z. simpl. lia.
Qed.

Lemma voltage_at_least_418 v : Qle_bool (418 # 100) (voltage_of v) = (53504 <=? v).
Proof.
  apply eq_iff_eq_true. rewrite Qle_bool_iff, Z.leb_le.
  unfold Qle, voltage_of, Qdiv, Qmult, Qinv, inject_Z. simpl. lia.
Qed.

(** The clamped percentage of a word read from the state-of-charge
    register. *)
Lemma clamped_percent soc_raw :
  Z.max 0 (Z.min 100 (int_of (inject_Z (swap_bytes soc_raw) / inject_Z 256)))
  = Z.min 100 (soc_raw mod 256).
Proof.
  rewrite int_of_percent by apply swap_bytes_range.
  rewrite swap_bytes_high. pose proof (Z.mod_pos_bound soc_raw 256). lia.
Qed.

Variables UPS_I2C_ADDRESS CRITICAL_BATTERY_PERCENT : Z.

(** How [get_battery_status] comes out, in the words read. *)
Lemma get_battery_status_run bus b :
  get_battery_status UPS_I2C_ADDRESS CRITICAL_BATTERY_PERCENT bus = Some b <->
  exists smbus v_raw soc_raw,
    bus = Some smbus
    /\ read_word_data smbus UPS_I2C_ADDRESS 2 = Some v_raw
    /\ read_word_data smbus UPS_I2C_ADDRESS 4 = Some soc_raw
    /\ close smbus = true
    /\ let p := Z.min 100 (soc_raw mod 256) in
       let v := swap_bytes v_raw in
       b = {| available := true; percent := p;
              charging := ((p >=? 90) && (52480 <=? v)) || (53504 <=? v);
              status :=
                if (p >=? 90) && (52480 <=? v)
                then if p >=? 98 then "full" else "charging"
                else if 53504 <=? v then "charging"
                else if p <=? CRITICAL_BATTERY_PERCENT then "critical"
                else if p <=? 20 then "low" else "discharging" |}.
Proof.
  unfold get_battery_status. split.
  - destruct bus as [smbus|]; [|discriminate].
    destruct (read_word_data smbus UPS_I2C_ADDRESS 2) as [v_raw|] eqn:Hv; [|discriminate].
    destruct (read_word_data smbus UPS_I2C_ADDRESS 4) as [soc_raw|] eqn:Hsoc;
      [|discriminate].
    destruct (close smbus) eqn:Hclose; simpl; [|discriminate].
    rewrite clamped_percent, voltage_at_least_410, voltage_at_least_418.
    intros Hb. exists smbus, v_raw, soc_raw. repeat (split; [done|]). cbv zeta.
    destruct (_ && _); [by injection Hb as <-|].
    destruct (53504 <=? _); by injection Hb as <-.
  - intros (smbus & v_raw & soc_raw & -> & -> & -> & -> & ->). simpl.
    rewrite clamped_percent, voltage_at_least_410, voltage_at_least_418.
    destruct (_ && _); [reflexivity|].
    destruct (53504 <=? _); reflexivity.
Qed.

End BatteryReading.

(** X15: the percentage [get_battery_status] reports is the low byte of the
    word read from the state-of-charge register, capped at 100: it always
    lies between 0 and 100 and the fractional byte is dropped, not rounded.
    The byte swap it applies yields a 16-bit word whatever was read and
    undoes itself on 16-bit words. *)
Theorem X15_percent_is_low_byte_capped
    (UPS_I2C_ADDRESS CRITICAL_BATTERY_PERCENT : Z) bus b raw :
  (HwMonitor.get_battery_status UPS_I2C_ADDRESS CRITICAL_BATTERY_PERCENT bus = Some b ->
   HwMonitor.available b = true
   /\ 0 <= HwMonitor.percent b <= 100
   /\ exists smbus soc_raw,
        bus = Some smbus
        /\ HwMonitor.read_word_data smbus UPS_I2C_ADDRESS 4 = Some soc_raw
        /\ HwMonitor.percent b = Z.min 100 (soc_raw mod 256))
  /\ 0 <= HwMonitor.swap_bytes raw < 65536
  /\ (0 <= raw < 65536 ->
      HwMonitor.swap_bytes (HwMonitor.swap_bytes raw) = raw
      /\ HwMonitor.swap_bytes raw = (raw mod 256) * 256 + raw / 256).
Proof.
  split; [|split].
  - intros Hb. apply get_battery_status_run in Hb
      as (smbus & v_raw & soc_raw & -> & Hv & Hsoc & Hclose & ->). simpl.
    split; [reflexivity|]. pose proof (Z.mod_pos_bound soc_raw 256).
    split; [lia|]. by exists smbus, soc_raw.
  - apply swap_bytes_range.
  - intros Hraw. split; [by apply swap_bytes_involutive|].
    rewrite swap_bytes_arith. f_equal. apply Z.mod_small.
    split; [apply Z.div_pos; lia|apply Z.div_lt_upper_bound; lia].
Qed.

(** X16: the charging heuristic in the words read: [get_battery_status]
    reports charging exactly when the swapped voltage word is at least 53504
    (4.18 V), or at least 52480 (4.10 V) with the percentage at 90 or more.
    The status is "full" or "charging" exactly when charging is reported,
    "full" exactly at 98 percent or more with at least 4.10 V, and
    "critical" exactly when not charging at or below
    [CRITICAL_BATTERY_PERCENT]. *)
Theorem X16_charging_heuristic
    (UPS_I2C_ADDRESS CRITICAL_BATTERY_PERCENT : Z) bus b :
  HwMonitor.get_battery_status UPS_I2C_ADDRESS CRITICAL_BATTERY_PERCENT bus = Some b ->
  exists smbus v_raw,
    bus = Some smbus
    /\ HwMonitor.read_word_data smbus UPS_I2C_ADDRESS 2 = Some v_raw
    /\ (HwMonitor.charging b = true <->
        (90 <= HwMonitor.percent b /\ 52480 <= HwMonitor.swap_bytes v_raw)
        \/ 53504 <= HwMonitor.swap_bytes v_raw)
    /\ (HwMonitor.charging b = true <->
        HwMonitor.status b = "full"%string \/ HwMonitor.status b = "charging"%string)
    /\ (HwMonitor.status b = "full"%string <->
        98 <= HwMonitor.percent b /\ 52480 <= HwMonitor.swap_bytes v_raw)
    /\ (HwMonitor.status b = "critical"%string <->
        HwMonitor.charging b = false
        /\ HwMonitor.percent b <= CRITICAL_BATTERY_PERCENT).
Proof.
  intros Hb. apply get_battery_status_run in Hb
    as (smbus & v_raw & soc_raw & -> & Hv & Hsoc & Hclose & ->).
  exists smbus, v_raw. split; [reflexivity|]. split; [exact Hv|]. simpl.
  set (p := Z.min 100 (soc_raw mod 256)). set (v := HwMonitor.swap_bytes v_raw).
  destruct (Z.geb_spec p 90) as [H90|H90];
    destruct (Z.leb_spec 52480 v) as [H410|H410];
    destruct (Z.leb_spec 53504 v) as [H418|H418];
    destruct (Z.geb_spec p 98) as [H98|H98];
    destruct (Z.leb_spec p CRITICAL_BATTERY_PERCENT) as [Hcrit|Hcrit];
    destruct (Z.leb_spec p 20) as [H20|H20];
    simpl; try lia;
    repeat split; try discriminate; try lia; try done;
    try (by intros [?|?]; (lia || discriminate));
    try (by left); try (by right); try (by intros [? ?]; lia);
    try (right; lia); try (left; lia).
Qed.

Lemma X16_witness :
  HwMonitor.get_battery_status 54 10 (Some ups_bus)
  = Some {| HwMonitor.available := true; HwMonitor.percent := 12;
            HwMonitor.charging := false; HwMonitor.status := "low" |}
  /\ exists smbus v_raw,
       Some ups_bus = Some smbus
       /\ HwMonitor.read_word_data smbus 54 2 = Some v_raw
       /\ (false = true <->
           (90 <= 12 /\ 52480 <= HwMonitor.swap_bytes v_raw)
           \/ 53504 <= HwMonitor.swap_bytes v_raw)
       /\ (false = true <-> "low"%string = "full"%string \/ "low"%string = "charging"%string)
       /\ ("low"%string = "full"%string <->
           98 <= 12 /\ 52480 <= HwMonitor.swap_bytes v_raw)
       /\ ("low"%string = "critical"%string <-> false = false /\ 12 <= 10).
Proof.
  assert (HwMonitor.get_battery_status 54 10 (Some ups_bus)
          = Some {| HwMonitor.available := true; HwMonitor.percent := 12;
                    HwMonitor.charging := false; HwMonitor.status := "low" |}) as H
    by (vm_compute; reflexivity).
  split; [exact H|].
  exact (X16_charging_heuristic 54 10 (Some ups_bus) _ H).
Defined.

(** ** The watchdog on the hw-monitor's battery reading *)

Section OnBatteryReading.

Context {W : Type} {RT : Runtime W}.
Variable cfg : Config.
Variables UPS_I2C_ADDRESS CRITICAL_BATTERY_PERCENT : Z.
Implicit Types (s : Sys W).

(** X17: what the watchdog makes of the hw-monitor's battery answer.  When
    the UPS cannot be read (no bus, a failed read or close), and when the
    state-of-charge byte reads 0, the battery check does nothing at all:
    nothing is stopped and nothing shed is started.  When the reading
    counts as charging (voltage word at least 53504), the check stops
    nothing, whatever the percentage. *)
Theorem X17_battery_check_on_monitor_reading bus temp s :
  let reading :=
    {| temperature := temp;
       battery := Some (system_battery
                          (HwMonitor.get_battery_status UPS_I2C_ADDRESS
                             CRITICAL_BATTERY_PERCENT bus)) |} in
  ((bus = None
    \/ exists smbus, bus = Some smbus
         /\ (HwMonitor.read_word_data smbus UPS_I2C_ADDRESS 2 = None
             \/ HwMonitor.read_word_data smbus UPS_I2C_ADDRESS 4 = None
             \/ HwMonitor.close smbus = false)) ->
   check_battery_shedding cfg reading s = (Returned tt, s))
  /\ (forall smbus v_raw soc_raw,
        bus = Some smbus ->
        HwMonitor.read_word_data smbus UPS_I2C_ADDRESS 2 = Some v_raw ->
        HwMonitor.read_word_data smbus UPS_I2C_ADDRESS 4 = Some soc_raw ->
        HwMonitor.close smbus = true ->
        (soc_raw mod 256 = 0 ->
         check_battery_shedding cfg reading s = (Returned tt, s))
        /\ (53504 <= HwMonitor.swap_bytes v_raw ->
            exists new, issued s (check_battery_shedding cfg reading s).2 new
                        /\ Forall (fun e => forall m ok, e <> StopCall m ok) new)).
Proof.
  intros reading. split.
  - intros Hfail.
    assert (HwMonitor.get_battery_status UPS_I2C_ADDRESS CRITICAL_BATTERY_PERCENT bus
            = None) as Hnone.
    { unfold HwMonitor.get_battery_status.
      destruct Hfail as [->|(smbus & -> & [Hr|[Hr|Hr]])]; [reflexivity| | |].
      - by rewrite Hr.
      - rewrite Hr. by destruct (HwMonitor.read_word_data smbus UPS_I2C_ADDRESS 2).
      - rewrite Hr.
        destruct (HwMonitor.read_word_data smbus UPS_I2C_ADDRESS 2); [|done].
        by destruct (HwMonitor.read_word_data smbus UPS_I2C_ADDRESS 4). }
    apply check_battery_shedding_without_data. right. unfold reading. simpl.
    rewrite Hnone. eexists. split; [reflexivity|]. by left.
  - intros smbus v_raw soc_raw Hbus Hv Hsoc Hclose.
    pose proof (proj2 (get_battery_status_run UPS_I2C_ADDRESS CRITICAL_BATTERY_PERCENT
                         bus _)
                  (ex_intro _ smbus (ex_intro _ v_raw (ex_intro _ soc_raw
                     (conj Hbus (conj Hv (conj Hsoc (conj Hclose eq_refl))))))))
      as Hb.
    cbv zeta in Hb.
    split.
    + intros Hzero. apply check_battery_shedding_without_data. right.
      unfold reading. simpl. rewrite Hb. eexists. split; [reflexivity|].
      right. simpl. by rewrite Hzero.
    + intros Hhigh. apply no_battery_trigger_stops_nothing.
      unfold battery_trigger, battery_data, reading. simpl. rewrite Hb. simpl.
      apply Z.leb_le in Hhigh. rewrite Hhigh, orb_true_r.
      destruct (Z.min 100 (soc_raw mod 256) =? 0); simpl; [reflexivity|].
      apply andb_false_r.
Qed.

(** *** A pass stops or starts, never both *)

Lemma one_way_since_refl b s : one_way_since b s s.
Proof. exists []. by split. Qed.

Lemma one_way_stop s0 m reason s :
  one_way_since true s0 s -> one_way_since true s0 (stop_container m reason s).2.
Proof.
  intros (new & Hnew & Hall).
  destruct (stop_container_run m reason s) as (r & s' & -> & Hrel); simpl.
  destruct Hrel; simpl; try (by exists new);
    (eexists (_ :: new); split;
     [unfold issued in *; simpl; by rewrite Hnew
     | constructor; [by eexists _, _|done]]).
Qed.

Lemma one_way_start s0 m s :
  one_way_since false s0 s -> one_way_since false s0 (start_container m s).2.
Proof.
  intros (new & Hnew & Hall).
  destruct (start_container_run m s) as (r & s' & -> & Hrel); simpl.
  destruct Hrel; simpl; try (by exists new);
    (eexists (_ :: new); split;
     [unfold issued in *; simpl; by rewrite Hnew
     | constructor; [by eexists _, _|done]]).
Qed.

(** X18: a shedding pass goes one way.  When the reading is at or over the
    threshold (thermal), or at or under it and not charging (battery), the
    check makes only [container.stop] calls; otherwise it makes only
    [container.start] calls.  No pass both stops and starts. *)
Theorem X18_shedding_pass_goes_one_way hw_status s :
  one_way_since (thermal_trigger cfg hw_status) s
    (check_thermal_shedding cfg hw_status s).2
  /\ one_way_since (battery_trigger cfg hw_status) s
       (check_battery_shedding cfg hw_status s).2.
Proof.
  split.
  - unfold thermal_trigger, cpu_temp_of, check_thermal_shedding.
    destruct (Qle_bool _ _).
    + apply (stop_matching_keeps (one_way_since true s)).
      * intros all s1 H. exact H.
      * intros m s1 _. apply one_way_stop.
      * apply one_way_since_refl.
    + destruct (Qlt_bool _ _); [|apply one_way_since_refl].
      unfold bind at 1, read at 1.
      apply for_each_state; [|apply one_way_since_refl].
      intros m s1 _ Hs1.
      destruct (container_matches m (THERMAL_SHED_SERVICES cfg)); [|exact Hs1].
      destruct (container_matches m (BATTERY_SHED_SERVICES cfg)); [exact Hs1|].
      simpl. pose proof (one_way_start s m s1 Hs1) as Hstart.
      destruct (start_container_run m s1) as (r & s2 & Hrun & _).
      unfold bind. rewrite Hrun in *. exact Hstart.
  - unfold battery_trigger, battery_data, check_battery_shedding.
    destruct (battery hw_status) as [b|]; [|apply one_way_since_refl].
    destruct (truthy_int (percent b)); simpl; [|apply one_way_since_refl].
    destruct (_ && _).
    + apply (stop_matching_keeps (one_way_since true s)).
      * intros all s1 H. exact H.
      * intros m s1 _. apply one_way_stop.
      * apply one_way_since_refl.
    + destruct (_ || _); [|apply one_way_since_refl].
      unfold bind at 1, read at 1.
      apply (start_eligible_keeps (one_way_since false s)).
      * intros m s1 _. apply one_way_start.
      * apply one_way_since_refl.
Qed.

End OnBatteryReading.

(** * Shedding and recovery on the simulated daemon *)

Section SimRoundTrip.

Implicit Types (s : Sys Sim.World) (n : string).

(** X19: stopping and then starting a container is a round trip for the
    watchdog's books: for a running container that is not shed, on a
    reachable daemon where its calls work, [stop_container] sheds it and
    leaves it exited, and [start_container] right after takes it out of
    [shed_services] again and leaves it running; the shed set is back to
    what it was, the restart records were never touched, and exactly one
    stop and one start were called. *)
Theorem X19_stop_then_start_round_trip s n reason :
  Sim.down (world s) = false ->
  n ∉ Sim.faulty (world s) ->
  has_status n "running" (view_of s) ->
  n ∉ shed_services s ->
  let s1 := (stop_container n reason s).2 in
  let s2 := (start_container n s1).2 in
  (stop_container n reason s).1 = Returned true
  /\ n ∈ shed_services s1
  /\ has_status n "exited" (view_of s1)
  /\ (start_container n s1).1 = Returned true
  /\ shed_services s2 = shed_services s
  /\ has_status n "running" (view_of s2)
  /\ trace s2 = StartCall n true :: StopCall n true :: trace s
  /\ restart_attempts s2 = restart_attempts s
  /\ last_restart s2 = last_restart s.
Proof.
  intros Hdown Hworks (c & Hfind & Hst) Hshed s1 s2.
  unfold view_of in Hfind. simpl in Hfind.
  destruct (stop_container_run n reason s) as (r1 & s1' & Hrun1 & Hrel1).
  assert (s1 = s1') as Hs1 by (unfold s1; by rewrite Hrun1).
  assert (r1 = true
          /\ shed_services s1' = {[n]} ∪ shed_services s
          /\ Sim.containers (world s1')
             = Sim.set_status n "exited" (Sim.containers (world s))
          /\ Sim.down (world s1') = false
          /\ Sim.faulty (world s1') = Sim.faulty (world s)
          /\ trace s1' = StopCall n true :: trace s
          /\ restart_attempts s1' = restart_attempts s
          /\ last_restart s1' = last_restart s)
    as (-> & Hsh1 & Hc1 & Hd1 & Hf1 & Htr1 & Hra1 & Hlr1).
  { destruct Hrel1 as [g w1 Hget Hg|c1 w1 Hget Hnot|c1 w1 w2 Hget Hrunning Hstop
                      |c1 w1 w2 Hget Hrunning Hstop];
      apply sim_get_found in Hget as (_ & Hd & Hf & Hc & Hfound);
      specialize (Hfound Hdown c Hfind).
    - exfalso. by apply (Hg c).
    - exfalso. injection Hfound as ->. contradiction.
    - exfalso. simpl in Hstop. unfold Sim.lifecycle, Sim.fails in Hstop.
      rewrite Hd, Hdown, Hf in Hstop. simpl in Hstop.
      rewrite bool_decide_eq_false_2 in Hstop by exact Hworks. discriminate.
    - simpl in Hstop. unfold Sim.lifecycle, Sim.fails in Hstop.
      rewrite Hd, Hdown, Hf in Hstop. simpl in Hstop.
      rewrite bool_decide_eq_false_2 in Hstop by exact Hworks.
      injection Hstop as <-. simpl. rewrite Hc, Hd, Hf. by repeat split. }
  destruct (find_set_status_same n "exited" _ c Hfind) as (c' & Hfind' & Hst').
  rewrite <- Hc1 in Hfind'.
  destruct (start_container_run n s1') as (r2 & s2' & Hrun2 & Hrel2).
  assert (s2 = s2') as Hs2 by (unfold s2; by rewrite Hs1, Hrun2).
  assert (r2 = true
          /\ shed_services s2' = shed_services s1' ∖ {[n]}
          /\ Sim.containers (world s2')
             = Sim.set_status n "running" (Sim.containers (world s1'))
          /\ trace s2' = StartCall n true :: trace s1'
          /\ restart_attempts s2' = restart_attempts s1'
          /\ last_restart s2' = last_restart s1')
    as (-> & Hsh2 & Hc2 & Htr2 & Hra2 & Hlr2).
  { destruct Hrel2 as [g w1 Hget Hg|c1 w1 Hget Hrunning|c1 w1 w2 Hget Hnot Hstart
                      |c1 w1 w2 Hget Hnot Hstart];
      apply sim_get_found in Hget as (_ & Hd & Hf & Hc & Hfound);
      specialize (Hfound Hd1 c' Hfind').
    - exfalso. by apply (Hg c').
    - exfalso. injection Hfound as ->. rewrite Hst' in Hrunning. discriminate.
    - exfalso. simpl in Hstart. unfold Sim.lifecycle, Sim.fails in Hstart.
      rewrite Hd, Hd1, Hf, Hf1 in Hstart. simpl in Hstart.
      rewrite bool_decide_eq_false_2 in Hstart by exact Hworks. discriminate.
    - simpl in Hstart. unfold Sim.lifecycle, Sim.fails in Hstart.
      rewrite Hd, Hd1, Hf, Hf1 in Hstart. simpl in Hstart.
      rewrite bool_decide_eq_false_2 in Hstart by exact Hworks.
      injection Hstart as <-. simpl. rewrite Hc. by repeat split. }
  rewrite Hs2, Hs1. unfold s1. rewrite Hrun1, Hrun2. simpl.
  split; [reflexivity|].
  split; [rewrite Hsh1; by apply elem_of_union_l, elem_of_singleton|].
  split; [by exists c'|]. split; [reflexivity|].
  split.
  { rewrite Hsh2, Hsh1. apply set_eq. intros x.
    rewrite elem_of_difference, elem_of_union, elem_of_singleton.
    split; [intros [[->|Hx] Hne]; [by destruct Hne|exact Hx]|].
    intros Hx. split; [by right|]. intros ->. contradiction. }
  split; [|split; [by rewrite Htr2, Htr1|split; congruence]].
  unfold has_status, view_of. simpl. rewrite Hc2.
  by apply find_set_status_same with c'.
Qed.

Variable cfg : Config.

(** X20: battery recovery restarts what was shed: when the reading has a
    percentage other than 0 that is more than five points over
    [BATTERY_SHED_PERCENT], or has a percentage other than 0 and reports
    charging, the battery check starts every shed, battery-eligible
    container that is not running, on a reachable daemon where its calls
    work; it leaves [shed_services] and is running afterwards.  On the
    charger this happens at any percentage other than 0. *)
Theorem X20_battery_recovery_restarts_shed_services hw_status b p s n :
  battery hw_status = Some b ->
  percent b = Some p ->
  p <> 0 ->
  BATTERY_SHED_PERCENT cfg + 5 < p \/ charging b = Some true ->
  Sim.down (world s) = false ->
  n ∉ Sim.faulty (world s) ->
  container_matches n (BATTERY_SHED_SERVICES cfg) = true ->
  n ∈ shed_services s ->
  (exists c, Sim.find_container n (Sim.containers (world s)) = Some c
             /\ status c <> "running"%string) ->
  unshed_by_start (trace s) n (view_of (check_battery_shedding cfg hw_status s).2).
Proof.
  intros Hb Hp Hnz Hrec Hdown Hworks Hmatch Hshed Hstopped.
  destruct (sim_check_battery_shedding (Sim.faulty (world s)) cfg hw_status s)
    as (s' & Hrun' & Hv & _); [done|].
  rewrite Hrun'. simpl. rewrite Hv.
  unfold battery_pass, battery_trigger, battery_recovery, battery_data.
  rewrite Hb, Hp. simpl. apply Z.eqb_neq in Hnz. rewrite Hnz. simpl.
  assert ((p <=? BATTERY_SHED_PERCENT cfg) && negb (default false (charging b)) = false
          /\ (p >? BATTERY_SHED_PERCENT cfg + 5) || default false (charging b) = true)
    as [-> ->].
  { destruct Hrec as [Hhigh| ->]; simpl.
    - assert ((p <=? BATTERY_SHED_PERCENT cfg) = false) as -> by (apply Z.leb_gt; lia).
      assert ((p >? BATTERY_SHED_PERCENT cfg + 5) = true) as ->
        by (apply Z.gtb_lt; lia).
      done.
    - split; [apply andb_false_r|apply orb_true_r]. }
  by apply start_pass_unsheds.
Qed.

End SimRoundTrip.

Lemma X19_witness :
  let s := initial_sys stressed_world in
  Sim.down (world s) = false
  /\ ("ollama"%string ∉ Sim.faulty (world s))
  /\ has_status "ollama" "running" (view_of s)
  /\ ("ollama"%string ∉ shed_services s)
  /\ (let s1 := (stop_container "ollama" "thermal shedding" s).2 in
      let s2 := (start_container "ollama" s1).2 in
      (stop_container "ollama" "thermal shedding" s).1 = Returned true
      /\ "ollama"%string ∈ shed_services s1
      /\ has_status "ollama" "exited" (view_of s1)
      /\ (start_container "ollama" s1).1 = Returned true
      /\ shed_services s2 = shed_services s
      /\ has_status "ollama" "running" (view_of s2)
      /\ trace s2 = StartCall "ollama" true :: StopCall "ollama" true :: trace s
      /\ restart_attempts s2 = restart_attempts s
      /\ last_restart s2 = last_restart s).
Proof.
  intros s.
  assert (Sim.down (world s) = false) as H1 by reflexivity.
  assert ("ollama"%string ∉ Sim.faulty (world s)) as H2.
  { simpl. intros [Heq|Hin]%elem_of_cons; [discriminate|by apply elem_of_nil in Hin]. }
  assert (has_status "ollama" "running" (view_of s)) as H3
    by (eexists; split; vm_compute; reflexivity).
  assert ("ollama"%string ∉ shed_services s) as H4 by apply not_elem_of_empty.
  split; [exact H1|]. split; [exact H2|]. split; [exact H3|]. split; [exact H4|].
  exact (X19_stop_then_start_round_trip s "ollama" "thermal shedding" H1 H2 H3 H4).
Defined.

Lemma X20_witness :
  battery charging_reading = Some {| percent := Some 5; charging := Some true |}
  /\ percent {| percent := Some 5; charging := Some true |} = Some 5
  /\ 5 <> 0
  /\ (BATTERY_SHED_PERCENT default_config + 5 < 5
      \/ charging {| percent := Some 5; charging := Some true |} = Some true)
  /\ Sim.down (world shed_state) = false
  /\ ("ollama"%string ∉ Sim.faulty (world shed_state))
  /\ container_matches "ollama" (BATTERY_SHED_SERVICES default_config) = true
  /\ "ollama"%string ∈ shed_services shed_state
  /\ (exists c, Sim.find_container "ollama" (Sim.containers (world shed_state)) = Some c
                /\ status c <> "running"%string)
  /\ unshed_by_start (trace shed_state) "ollama"
       (view_of (check_battery_shedding default_config charging_reading shed_state).2).
Proof.
  assert (5 <> 0) as H3 by lia.
  assert (BATTERY_SHED_PERCENT default_config + 5 < 5
          \/ charging {| percent := Some 5; charging := Some true |} = Some true) as H4
    by (right; reflexivity).
  assert ("ollama"%string ∉ Sim.faulty (world shed_state)) as H6
    by (simpl; apply not_elem_of_nil).
  assert (container_matches "ollama" (BATTERY_SHED_SERVICES default_config) = true) as H7
    by (vm_compute; reflexivity).
  assert ("ollama"%string ∈ shed_services shed_state) as H8
    by (simpl; by apply elem_of_singleton).
  assert (exists c, Sim.find_container "ollama" (Sim.containers (world shed_state)) = Some c
                    /\ status c <> "running"%string) as H9
    by (eexists; split; [reflexivity|discriminate]).
  split; [reflexivity|]. split; [reflexivity|]. split; [exact H3|]. split; [exact H4|].
  split; [reflexivity|]. split; [exact H6|]. split; [exact H7|]. split; [exact H8|].
  split; [exact H9|].
  exact (X20_battery_recovery_restarts_shed_services default_config charging_reading
           _ 5 shed_state "ollama" eq_refl eq_refl H3 H4 eq_refl H6 H7 H8 H9).
Defined.
